(** * SQL Practice Bot (app.py): a shallow embedding and its properties

    The application builds a prompt from three selections, sends it to a
    language model, cuts a JSON object out of the reply, checks that the
    required keys are there and stores the result in the Streamlit session.

    Layout of this file:
    - [Text]: Python [str] values and the string methods the code calls;
    - [Value]: the Python values [json.loads] can return, with truthiness,
      [in], [.get] and subscripting;
    - [Script]: one Streamlit script run as a state-and-control monad over
      the session state and the list of messages put on the page;
    - [App]: the functions of app.py, over a record [platform] that stands
      for everything outside the repository (the environment, the model
      service, the json module, a few built-ins, the exception of
      Streamlit's metric);
    - [Reference]: a small JSON decoder and a concrete [platform] used to
      run the functions on explicit replies;
    - the vocabulary of the properties and the replies of the examples;
    - the lemmas and the properties, one part per topic. *)

From Stdlib Require Import List ZArith NArith Lia Bool String Ascii.
From Stdlib Require Import Floats.SpecFloat DecimalString.
Import ListNotations.

Local Open Scope Z_scope.
Local Open Scope list_scope.

(* ================================================================== *)
(** ** Python strings *)
(* ================================================================== *)

Module Text.

(** A Python [str] is a sequence of Unicode code points. *)
Definition codepoint := N.
Definition pystr := list codepoint.

(** Source literals that are plain ASCII are written as Rocq strings. *)
Definition py (s : string) : pystr :=
  map N_of_ascii (list_ascii_of_string s).

Definition dq : pystr := [34%N].       (* the double quote *)
Definition nl : pystr := [10%N].       (* the line feed *)
Definition open_brace : codepoint := 123%N.
Definition close_brace : codepoint := 125%N.
Definition lbrace : pystr := [open_brace].
Definition rbrace : pystr := [close_brace].

(** [quoted s] is [s] between double quotes. *)
Definition quoted (s : string) : pystr := dq ++ py s ++ dq.

(** [lines ls] joins the lines of a triple-quoted literal. *)
Fixpoint lines (ls : list pystr) : pystr :=
  match ls with
  | [] => []
  | [l] => l
  | l :: rest => l ++ nl ++ lines rest
  end.

Definition str_eqb (a b : pystr) : bool :=
  if list_eq_dec N.eq_dec a b then true else false.

(** [str.isspace] on one code point: the characters [str.strip()] removes
    when called without argument. *)
Definition is_space (c : codepoint) : bool :=
  ((9 <=? c) && (c <=? 13) || (28 <=? c) && (c <=? 32)
   || (c =? 133) || (c =? 160) || (c =? 5760)
   || (8192 <=? c) && (c <=? 8202)
   || (c =? 8232) || (c =? 8233) || (c =? 8239) || (c =? 8287)
   || (c =? 12288))%N.

Fixpoint lstrip (s : pystr) : pystr :=
  match s with
  | c :: s' => if is_space c then lstrip s' else s
  | [] => []
  end.

Definition rstrip (s : pystr) : pystr := rev (lstrip (rev s)).

(** [s.strip()] *)
Definition strip (s : pystr) : pystr := rstrip (lstrip s).

(** [s.startswith(sub)] *)
Fixpoint starts_with (sub s : pystr) : bool :=
  match sub, s with
  | [], _ => true
  | _ :: _, [] => false
  | c :: sub', d :: s' => (c =? d)%N && starts_with sub' s'
  end.

Fixpoint find_from (sub s : pystr) (i : Z) : Z :=
  if starts_with sub s then i
  else match s with
       | [] => -1
       | _ :: s' => find_from sub s' (i + 1)
       end.

(** [s.find(sub)]: the lowest index where [sub] occurs, or [-1]. *)
Definition find (s sub : pystr) : Z := find_from sub s 0.

Fixpoint rfind_from (sub s : pystr) (i best : Z) : Z :=
  let best' := if starts_with sub s then i else best in
  match s with
  | [] => best'
  | _ :: s' => rfind_from sub s' (i + 1) best'
  end.

(** [s.rfind(sub)]: the highest index where [sub] occurs, or [-1]. *)
Definition rfind (s sub : pystr) : Z := rfind_from sub s 0 (-1).

(** [sub in s] for two strings. *)
Definition occurs_in (sub s : pystr) : bool := negb (find s sub =? -1).

(** One bound of a slice, as Python normalises it: a negative index counts
    from the end, and the result is clamped to [0 .. len]. *)
Definition slice_bound (len i : Z) : Z :=
  let j := if i <? 0 then i + len else i in
  Z.max 0 (Z.min len j).

(** [s[a:b]] *)
Definition slice (s : pystr) (a b : Z) : pystr :=
  let len := Z.of_nat (List.length s) in
  let a' := slice_bound len a in
  let b' := slice_bound len b in
  firstn (Z.to_nat (b' - a')) (skipn (Z.to_nat a') s).

End Text.
Export Text.

(* ================================================================== *)
(** ** Python values *)
(* ================================================================== *)

Module Value.

Set Warnings "-register-all".

(** What [json.loads] can return: [None], [bool], [int], [float], [str],
    [list] and [dict] with string keys.  A [dict] keeps its keys in
    insertion order; lookup takes the first binding of a key. *)
Inductive pyval : Type :=
| PyNone
| PyBool (b : bool)
| PyInt (z : Z)
| PyFloat (f : spec_float)
| PyStr (s : pystr)
| PyList (l : list pyval)
| PyDict (d : list (pystr * pyval)).

(** The exception classes the code can meet.  All of them derive from
    [Exception]; [JSONDecodeError] is the one with a handler of its own. *)
Inductive exn_class : Type :=
| JSONDecodeError | ValueError | TypeError | KeyError | AttributeError
| OtherError.

(** An exception: its class and [str(e)]. *)
Record exn : Type := mk_exn { exn_kind : exn_class; exn_text : pystr }.

Inductive result (A : Type) : Type :=
| Ok (a : A)
| Raise (e : exn).
Arguments Ok {A} a.
Arguments Raise {A} e.

(** [bool(v)], as [if v:] tests it. *)
Definition truthy (v : pyval) : bool :=
  match v with
  | PyNone => false
  | PyBool b => b
  | PyInt z => negb (z =? 0)
  | PyFloat (S754_zero _) => false
  | PyFloat _ => true
  | PyStr s => match s with [] => false | _ => true end
  | PyList l => match l with [] => false | _ => true end
  | PyDict d => match d with [] => false | _ => true end
  end.

Definition is_str (k : pystr) (v : pyval) : bool :=
  match v with
  | PyStr s => str_eqb k s
  | _ => false
  end.

Definition has_key (k : pystr) (d : list (pystr * pyval)) : bool :=
  existsb (fun kv => str_eqb k (fst kv)) d.

(** [k in v] for a string [k]: substring test on a [str], element test on
    a [list], key test on a [dict]; [None] stands for the [TypeError] that
    the other values raise. *)
Definition py_in (k : pystr) (v : pyval) : option bool :=
  match v with
  | PyStr s => Some (occurs_in k s)
  | PyList l => Some (existsb (is_str k) l)
  | PyDict d => Some (has_key k d)
  | _ => None
  end.

Fixpoint lookup (k : pystr) (d : list (pystr * pyval)) : option pyval :=
  match d with
  | [] => None
  | (k', v) :: d' => if str_eqb k k' then Some v else lookup k d'
  end.

(** [v.get(k, default)]: only a [dict] has the method. *)
Definition py_get (v : pyval) (k : pystr) (default : pyval)
  : exn_class + pyval :=
  match v with
  | PyDict d => inr (match lookup k d with Some x => x | None => default end)
  | _ => inl AttributeError
  end.

(** [v[k]] for a string [k]. *)
Definition py_item (v : pyval) (k : pystr) : exn_class + pyval :=
  match v with
  | PyDict d => match lookup k d with Some x => inr x | None => inl KeyError end
  | _ => inl TypeError
  end.

(** [xs.index(x)] on a list of strings; [None] stands for [ValueError]. *)
Fixpoint list_index (xs : list pystr) (x : pystr) : option nat :=
  match xs with
  | [] => None
  | y :: ys => if str_eqb y x then Some O
               else option_map S (list_index ys x)
  end.

End Value.
Export Value.

(* ================================================================== *)
(** ** One script run *)
(* ================================================================== *)

Module Script.

(** [st.session_state]: a field is [None] while its key is absent. *)
Record session : Type := mk_session {
  current_question : option pyval;
  grading_result : option pyval;
  user_answer : option pystr;
  track : option pystr;
  difficulty : option pystr;
  dialect : option pystr
}.

(** The request of [client.messages.create]. *)
Record request : Type := mk_request {
  model : pystr;
  max_tokens : Z;
  system : pystr;
  messages : list (pystr * pystr)   (* role, content *)
}.

(** What a run leaves behind, in order: the status messages put on the
    page and the calls made to the model service.  Layout calls (titles,
    columns, metrics, code blocks) are not recorded. *)
Inductive event : Type :=
| StError (msg : pystr)
| StWarning (msg : pystr)
| StSuccess (msg : pystr)
| StInfo (msg : pystr)
| StWrite (label value : pystr)
| MessagesCreate (api_key : pystr) (req : request).

Record world : Type := mk_world {
  state : session;
  page : list event
}.

(** A run ends early on [st.stop()], on [st.rerun()] (both raise a
    [BaseException] that no handler of the code catches) or on an
    exception nothing catches. *)
Inductive control : Type :=
| ScriptStop
| ScriptRerun
| Uncaught (c : exn_class).

Inductive outcome (A : Type) : Type :=
| Done (a : A)
| Halted (c : control).
Arguments Done {A} a.
Arguments Halted {A} c.

Definition script (A : Type) : Type := world -> outcome A * world.

Definition ret {A} (a : A) : script A := fun w => (Done a, w).

Definition bind {A B} (m : script A) (k : A -> script B) : script B :=
  fun w =>
    match m w with
    | (Done a, w') => k a w'
    | (Halted c, w') => (Halted c, w')
    end.

Definition halt {A} (c : control) : script A := fun w => (Halted c, w).

Definition emit (e : event) : script unit :=
  fun w => (Done tt, mk_world (state w) (page w ++ [e])).

Definition modify (f : session -> session) : script unit :=
  fun w => (Done tt, mk_world (f (state w)) (page w)).

(** [st.session_state.name]: an absent key raises [AttributeError]. *)
Definition attr {A} (f : session -> option A) : script A :=
  fun w =>
    match f (state w) with
    | Some a => (Done a, w)
    | None => (Halted (Uncaught AttributeError), w)
    end.

(** An operation outside every [try]: its exception ends the run. *)
Definition must {A} (r : exn_class + A) : script A :=
  match r with
  | inr a => ret a
  | inl c => halt (Uncaught c)
  end.

Definition set_current_question (v : pyval) (s : session) : session :=
  mk_session (Some v) (grading_result s) (user_answer s)
             (track s) (difficulty s) (dialect s).
Definition set_grading_result (v : pyval) (s : session) : session :=
  mk_session (current_question s) (Some v) (user_answer s)
             (track s) (difficulty s) (dialect s).
Definition set_user_answer (a : pystr) (s : session) : session :=
  mk_session (current_question s) (grading_result s) (Some a)
             (track s) (difficulty s) (dialect s).
Definition set_track (a : pystr) (s : session) : session :=
  mk_session (current_question s) (grading_result s) (user_answer s)
             (Some a) (difficulty s) (dialect s).
Definition set_difficulty (a : pystr) (s : session) : session :=
  mk_session (current_question s) (grading_result s) (user_answer s)
             (track s) (Some a) (dialect s).
Definition set_dialect (a : pystr) (s : session) : session :=
  mk_session (current_question s) (grading_result s) (user_answer s)
             (track s) (difficulty s) (Some a).

End Script.
Export Script.

Declare Scope script_scope.
Delimit Scope script_scope with script.
Notation "x <- m ;; k" := (bind m (fun x => k))
  (at level 61, m at next level, right associativity) : script_scope.
Notation "m ;; k" := (bind m (fun _ => k))
  (at level 61, right associativity) : script_scope.

(* ================================================================== *)
(** ** The application *)
(* ================================================================== *)

Module App.

Local Open Scope script_scope.

(** Everything the code reaches outside the repository.
    - [getenv]: [os.getenv] once [load_dotenv()] has run;
    - [messages_create]: [client.messages.create(...)] followed by
      [response.content[0].text], for the client built from an API key;
      [Raise] covers any exception of the two steps;
    - [json_loads]: [json.loads];
    - [str_lower]: [str.lower];
    - [str_of]: [str(v)] for a value that is not a string, as an f-string
      formats it;
    - [not_container_text]: the message of the [TypeError] that [k in v]
      raises for a value that is no container;
    - [metric_error]: the class of the exception that [st.metric] raises
      for a value it does not accept, which is [TypeError] or a class of
      Streamlit's own, by the release of Streamlit. *)
Record platform : Type := mk_platform {
  getenv : pystr -> option pystr;
  messages_create : pystr -> request -> result pystr;
  json_loads : pystr -> result pyval;
  str_lower : pystr -> pystr;
  str_of : pyval -> pystr;
  not_container_text : pyval -> pystr;
  metric_error : exn_class
}.

(** The widget values of one run: what the user has selected, typed and
    clicked.  Streamlit hands them to the script through the return values
    of [selectbox], [button] and [text_area]. *)
Record widgets : Type := mk_widgets {
  track_choice : pystr;
  difficulty_choice : pystr;
  dialect_choice : pystr;
  generate_clicked : bool;
  sql_input : pystr;
  submit_clicked : bool
}.

Definition CLAUDE_MODEL : pystr := py "claude-3-5-haiku-20241022".
Definition MAX_TOKENS : Z := 4096.

Definition TRACKS : list pystr :=
  [ py "Analytics / BI-focused SQL"; py "Data Engineer-focused SQL" ].

Definition DIFFICULTY_LEVELS : list pystr :=
  [ py "Beginner"; py "Intermediate"; py "Advanced" ].

Definition SQL_DIALECTS : list pystr :=
  [ py "PostgreSQL"; py "MySQL"; py "Snowflake"; py "BigQuery" ].

Definition warning_sign : pystr := [9888%N; 65039%N].   (* U+26A0 U+FE0F *)
Definition cross_mark : pystr := [10060%N].             (* U+274C *)
Definition check_mark : pystr := [9989%N].              (* U+2705 *)
Definition point_left : pystr := [128072%N].            (* U+1F448 *)

(** [{v}] inside an f-string. *)
Definition format_value (P : platform) (v : pyval) : pystr :=
  match v with
  | PyStr s => s
  | _ => str_of P v
  end.

(** *** Prompts of [generate_sql_question] *)

Definition track_guidance_analytics : pystr := lines [
  [];
  py "        Focus on realistic interview-style SQL questions for Analytics/BI roles:";
  py "        - Aggregate queries with GROUP BY, HAVING";
  py "        - Multiple JOINs across tables";
  py "        - Window functions (ROW_NUMBER, RANK, LAG, LEAD, etc.)";
  py "        - Common BI metrics (conversion rates, retention, cohorts, running totals)";
  py "        - Date/time manipulations";
  py "        - Example domains: event analytics, e-commerce, product analytics, marketing metrics";
  py "        " ].

Definition track_guidance_engineer : pystr := lines [
  [];
  py "        Focus on realistic interview-style SQL questions for Data Engineer roles:";
  py "        - Table design and schema reasoning";
  py "        - Complex joins and data transformations";
  py "        - Window functions for advanced analytics";
  py "        - Slowly changing dimensions (SCD Type 1, Type 2)";
  py "        - Data quality checks and deduplication";
  py "        - Partitioning concepts (conceptual understanding)";
  py "        - ETL-style data manipulation";
  py "        " ].

Definition track_guidance (track : pystr) : pystr :=
  if occurs_in (py "Analytics") track
  then track_guidance_analytics
  else track_guidance_engineer.

Definition difficulty_guidance : list (pystr * pystr) :=
  [ (py "Beginner",
     py "Keep it simple with 1-2 tables, basic JOINs, simple aggregations. No complex subqueries or window functions.");
    (py "Intermediate",
     py "Use 2-3 tables, moderate complexity JOINs, window functions, CTEs, and subqueries are appropriate.");
    (py "Advanced",
     py "Complex multi-table scenarios, advanced window functions, CTEs, complex business logic, edge cases.") ].

(** [difficulty_guidance.get(difficulty, default)] with the empty string
    as default. *)
Fixpoint guidance_get (d : list (pystr * pystr)) (k : pystr) : pystr :=
  match d with
  | [] => []
  | (k', v) :: d' => if str_eqb k k' then v else guidance_get d' k
  end.

Definition generate_system_prompt (track difficulty dialect : pystr) : pystr :=
  lines [
    py "You are an expert SQL interview coach. Generate realistic SQL practice questions for data analytics roles.";
    [];
    track_guidance track;
    [];
    py "Difficulty level: " ++ difficulty;
    guidance_get difficulty_guidance difficulty;
    [];
    py "SQL Dialect: " ++ dialect;
    [];
    py "Guidelines:";
    py "- Create realistic, interview-style questions";
    py "- Keep schemas small (1-3 tables max)";
    py "- Provide clear table descriptions with sample data context";
    py "- Questions should test practical skills, not trivia";
    py "- Reference SQL should be production-quality code";
    [];
    py "Return ONLY a valid JSON object with this exact structure:";
    py "{";
    py "    " ++ quoted "question_text" ++ py ": " ++ quoted "Clear problem statement here" ++ py ",";
    py "    " ++ quoted "schema_description" ++ py ": " ++ quoted "Table definitions and sample data context" ++ py ",";
    py "    " ++ quoted "reference_sql" ++ py ": " ++ quoted "Well-formatted SQL solution" ++ py ",";
    py "    " ++ quoted "explanation" ++ py ": " ++ quoted "Step-by-step explanation of the solution approach" ++ py ",";
    py "    " ++ quoted "difficulty" ++ py ": " ++ dq ++ difficulty ++ dq ++ py ",";
    py "    " ++ quoted "track" ++ py ": " ++ dq ++ track ++ dq;
    py "}" ].

Definition generate_user_prompt (P : platform) (track difficulty dialect : pystr)
  : pystr :=
  py "Generate a " ++ str_lower P difficulty ++ py " level SQL question for "
  ++ track ++ py " using " ++ dialect ++ py " syntax.".

(** *** Prompts of [grade_sql_answer] *)

Definition grade_system_prompt : pystr := lines [
  py "You are an expert SQL instructor grading student solutions.";
  [];
  py "Evaluate the user's SQL answer against the reference solution. Consider:";
  py "- Correctness: Does it solve the problem?";
  py "- Completeness: Are all requirements addressed?";
  py "- Efficiency: Is the approach reasonable?";
  py "- Code quality: Readability, formatting, best practices";
  py "- Edge cases: Does it handle special scenarios?";
  [];
  py "Be constructive and educational. Point out both strengths and areas for improvement.";
  [];
  py "IMPORTANT: Return ONLY a valid JSON object. Use \n for line breaks in feedback text, NOT actual newlines.";
  [];
  py "Return this exact structure:";
  py "{";
  py "    " ++ quoted "score" ++ py ": 85,";
  py "    " ++ quoted "verdict" ++ py ": " ++ quoted "Correct|Partially Correct|Incorrect" ++ py ",";
  py "    " ++ quoted "feedback" ++ py ": " ++ quoted "Detailed feedback here (2-3 paragraphs max). Use \n for line breaks." ++ py ",";
  py "    " ++ quoted "suggested_answer" ++ py ": " ++ quoted "Improved SQL if applicable (optional)";
  py "}";
  [];
  py "Score scale:";
  py "- 90-100: Excellent, correct and well-written";
  py "- 70-89: Good, mostly correct with minor issues";
  py "- 50-69: Partially correct, significant issues but on right track";
  py "- 0-49: Incorrect or fundamentally flawed approach" ].

Definition grade_user_prompt (P : platform)
    (question_text schema_description reference_sql : pyval)
    (user_sql : pystr) (difficulty track : pyval) : pystr :=
  lines [
    py "Question: " ++ format_value P question_text;
    [];
    py "Schema:";
    format_value P schema_description;
    [];
    py "Reference Solution:";
    py "```sql";
    format_value P reference_sql;
    py "```";
    [];
    py "User's Answer:";
    py "```sql";
    user_sql;
    py "```";
    [];
    py "Difficulty: " ++ format_value P difficulty;
    py "Track: " ++ format_value P track;
    [];
    py "Please grade the user's answer." ].

(** *** The two operations *)

Section Operations.

Variable P : platform.

(** [not api_key] *)
Definition key_missing (api_key : option pystr) : bool :=
  match api_key with
  | None => true
  | Some [] => true
  | Some (_ :: _) => false
  end.

(** [Anthropic(api_key=api_key)]: a client is known by its key. *)
Definition Anthropic (api_key : option pystr) : pystr :=
  match api_key with
  | Some k => k
  | None => []
  end.

Definition get_claude_client : script pystr :=
  let api_key := getenv P (py "ANTHROPIC_API_KEY") in
  (if key_missing api_key
   then emit (StError (warning_sign ++ py " ANTHROPIC_API_KEY environment variable not set. Please set it and restart the app.")) ;;
        halt ScriptStop
   else ret tt) ;;
  ret (Anthropic api_key).

(** The lines both operations share word for word: strip the reply and,
    when it holds both braces, keep what lies from the first opening one
    to the last closing one. *)
Definition extract_json (response_text : pystr) : pystr :=
  let json_text := strip response_text in
  let start_idx := find json_text lbrace in
  let end_idx := rfind json_text rbrace in
  if negb (start_idx =? -1) && negb (end_idx =? -1)
  then slice json_text start_idx (end_idx + 1)
  else json_text.

(** [all(field in data for field in required_fields)]; [None] stands for
    the [TypeError] of the first membership test. *)
Fixpoint all_fields_in (required_fields : list pystr) (data : pyval)
  : option bool :=
  match required_fields with
  | [] => Some true
  | field :: rest =>
      match py_in field data with
      | None => None
      | Some false => Some false
      | Some true => all_fields_in rest data
      end
  end.

(** The body of the [try] from the reply on: extract, decode, validate. *)
Definition decode_reply (required_fields : list pystr) (missing : pystr)
    (response_text : pystr) : result pyval :=
  match json_loads P (extract_json response_text) with
  | Raise e => Raise e
  | Ok data =>
      match all_fields_in required_fields data with
      | None => Raise (mk_exn TypeError (not_container_text P data))
      | Some false => Raise (mk_exn ValueError missing)
      | Some true => Ok data
      end
  end.

(** The two [except] clauses.  [response_text] is [None] while the local
    variable is unbound. *)
Definition on_exception (parse_failed other_failed : pystr) (e : exn)
    (response_text : option pystr) : script pyval :=
  match exn_kind e with
  | JSONDecodeError =>
      emit (StError (cross_mark ++ parse_failed ++ exn_text e)) ;;
      emit (StWrite (py "Raw response:")
              (match response_text with
               | Some t => t
               | None => py "No response"
               end)) ;;
      ret PyNone
  | _ =>
      emit (StError (cross_mark ++ other_failed ++ exn_text e)) ;;
      ret PyNone
  end.

(** The [try] statement of both operations. *)
Definition call_model (client : pystr) (req : request)
    (required_fields : list pystr) (missing parse_failed other_failed : pystr)
  : script pyval :=
  emit (MessagesCreate client req) ;;
  match messages_create P client req with
  | Raise e => on_exception parse_failed other_failed e None
  | Ok response_text =>
      match decode_reply required_fields missing response_text with
      | Raise e => on_exception parse_failed other_failed e (Some response_text)
      | Ok data => ret data
      end
  end.

Definition question_fields : list pystr :=
  [ py "question_text"; py "schema_description"; py "reference_sql";
    py "explanation" ].

Definition grading_fields : list pystr :=
  [ py "score"; py "verdict"; py "feedback" ].

Definition generate_request (track difficulty dialect : pystr) : request :=
  mk_request CLAUDE_MODEL MAX_TOKENS
    (generate_system_prompt track difficulty dialect)
    [ (py "user", generate_user_prompt P track difficulty dialect) ].

Definition generate_sql_question (track difficulty dialect : pystr)
  : script pyval :=
  client <- get_claude_client ;;
  call_model client (generate_request track difficulty dialect)
    question_fields
    (py "Missing required fields in Claude response")
    (py " Failed to parse Claude response as JSON: ")
    (py " Error generating question: ").

Definition grade_request
    (question_text schema_description reference_sql : pyval)
    (user_sql : pystr) (difficulty track : pyval) : request :=
  mk_request CLAUDE_MODEL MAX_TOKENS grade_system_prompt
    [ (py "user",
       grade_user_prompt P question_text schema_description reference_sql
         user_sql difficulty track) ].

Definition grade_sql_answer
    (question_text schema_description reference_sql : pyval)
    (user_sql : pystr) (difficulty track : pyval) : script pyval :=
  client <- get_claude_client ;;
  call_model client
    (grade_request question_text schema_description reference_sql
       user_sql difficulty track)
    grading_fields
    (py "Missing required fields in Claude grading response")
    (py " Failed to parse grading response as JSON: ")
    (py " Error grading answer: ").

(** *** The page *)

Definition default {A} (a : A) (o : option A) : option A :=
  match o with
  | Some x => Some x
  | None => Some a
  end.

Definition initialize_session_state : script unit :=
  modify (fun s =>
    mk_session
      (default PyNone (current_question s))
      (default PyNone (grading_result s))
      (default [] (user_answer s))
      (default (nth 0 TRACKS []) (track s))
      (default (nth 0 DIFFICULTY_LEVELS []) (difficulty s))
      (default (nth 0 SQL_DIALECTS []) (dialect s))).

(** [options.index(current)], evaluated for the [index=] argument of a
    selector. *)
Definition index_of (options : list pystr) (current : pystr) : script nat :=
  match list_index options current with
  | Some i => ret i
  | None => halt (Uncaught ValueError)
  end.

(** The three selectors of the sidebar. *)
Definition select_options (ui : widgets) : script unit :=
  (* Track selection *)
  t <- attr track ;;
  index_of TRACKS t ;;
  modify (set_track (track_choice ui)) ;;
  (* Difficulty selection *)
  d <- attr difficulty ;;
  index_of DIFFICULTY_LEVELS d ;;
  modify (set_difficulty (difficulty_choice ui)) ;;
  (* SQL dialect selection *)
  l <- attr dialect ;;
  index_of SQL_DIALECTS l ;;
  modify (set_dialect (dialect_choice ui)).

(** The [if st.sidebar.button(...)] block. *)
Definition generate_button (ui : widgets) : script unit :=
  if generate_clicked ui then
    t <- attr track ;;
    d <- attr difficulty ;;
    l <- attr dialect ;;
    question_data <- generate_sql_question t d l ;;
    if truthy question_data then
      modify (set_current_question question_data) ;;
      modify (set_grading_result PyNone) ;;
      modify (set_user_answer []) ;;
      emit (StSuccess (check_mark ++ py " New question generated!")) ;;
      halt ScriptRerun
    else ret tt
  else ret tt.

Definition render_sidebar (ui : widgets) : script unit :=
  select_options ui ;;
  generate_button ui.

(** [score >= 90] and the comparisons after it: a number compares, any
    other value raises. *)
Definition compare_score (score : pyval) : exn_class + unit :=
  match score with
  | PyBool _ | PyInt _ | PyFloat _ => inr tt
  | _ => inl TypeError
  end.

(** The verdict mark: [verdict == "Correct"], else ["Partial" in verdict]. *)
Definition verdict_mark (verdict : pyval) : exn_class + unit :=
  if is_str (py "Correct") verdict then inr tt
  else match py_in (py "Partial") verdict with
       | Some _ => inr tt
       | None => inl TypeError
       end.

(** The results panel puts no status message on the page; what is kept of
    it are the operations that can raise.  The test on
    ['suggested_answer'] cannot: [result] is a [dict] once [.get] has
    succeeded. *)
Definition render_grading_results : script unit :=
  result <- attr grading_result ;;
  question <- attr current_question ;;
  score <- must (py_get result (py "score") (PyInt 0)) ;;
  must (compare_score score) ;;
  verdict <- must (py_get result (py "verdict") (PyStr (py "Unknown"))) ;;
  must (verdict_mark verdict) ;;
  must (py_get result (py "feedback") (PyStr (py "No feedback available"))) ;;
  must (py_item question (py "reference_sql")) ;;
  must (py_item question (py "explanation")) ;;
  ret tt.

(** The test of the submit block: [not user_answer], or what
    [user_answer.strip()] leaves is the empty string. *)
Definition blank (user_answer : pystr) : bool :=
  match user_answer with
  | [] => true
  | _ => str_eqb (strip user_answer) []
  end.

(** The [if submit_button:] block; [question] is the current question. *)
Definition handle_submission (ui : widgets) (question : pyval) : script unit :=
  let user_answer := sql_input ui in
  if submit_clicked ui then
    if blank user_answer then
      emit (StWarning (warning_sign ++ py " Please enter your SQL answer before submitting."))
    else
      modify (set_user_answer user_answer) ;;
      question_text <- must (py_item question (py "question_text")) ;;
      schema_description <- must (py_item question (py "schema_description")) ;;
      reference_sql <- must (py_item question (py "reference_sql")) ;;
      difficulty <- must (py_get question (py "difficulty") (PyStr (py "Intermediate"))) ;;
      track <- must (py_get question (py "track") (PyStr (py "Analytics"))) ;;
      grading_result <- grade_sql_answer question_text schema_description
                          reference_sql user_answer difficulty track ;;
      if truthy grading_result then
        modify (set_grading_result grading_result) ;;
        halt ScriptRerun
      else ret tt
  else ret tt.

(** The [if st.session_state.grading_result:] block. *)
Definition display_results : script unit :=
  stored <- attr grading_result ;;
  if truthy stored then render_grading_results else ret tt.

(** The values [st.metric] takes: [None], an [int] (a [bool] is one), a
    [float] or a [str].  Of what [json.loads] returns, a [list] and a
    [dict] are refused. *)
Definition metric_accepts (value : pyval) : bool :=
  match value with
  | PyList _ | PyDict _ => false
  | _ => true
  end.

(** [st.metric(label, value)] *)
Definition st_metric (value : pyval) : exn_class + unit :=
  if metric_accepts value then inr tt else inl (metric_error P).

(** What the panel evaluates on its way to the answer box: the three
    metrics, the question text, the schema and the initial value of the
    box.  The third metric shows the stored dialect, the two texts go
    through [st.markdown] and [st.code], which take the [str] of any
    value; what can end the run here is a lookup or one of the first two
    metrics. *)
Definition display_question (question : pyval) : script unit :=
  track_value <- must (py_get question (py "track") (PyStr (py "N/A"))) ;;
  must (st_metric track_value) ;;
  difficulty_value <-
    must (py_get question (py "difficulty") (PyStr (py "N/A"))) ;;
  must (st_metric difficulty_value) ;;
  attr dialect ;;
  must (py_item question (py "question_text")) ;;
  must (py_item question (py "schema_description")) ;;
  attr user_answer ;;
  ret tt.

Definition render_main_content (ui : widgets) : script unit :=
  (* Check if a question exists *)
  question <- attr current_question ;;
  match question with
  | PyNone =>
      emit (StInfo (point_left ++ py " Get started by generating a question from the sidebar!"))
  | _ =>
      display_question question ;;
      handle_submission ui question ;;
      display_results
  end.

Definition main (ui : widgets) : script unit :=
  initialize_session_state ;;
  render_sidebar ui ;;
  render_main_content ui.

End Operations.

End App.
Export App.

(* ================================================================== *)
(** ** A reference platform *)
(* ================================================================== *)

(** The properties below hold for every [platform].  To run the
    operations on explicit replies one is needed: this module gives a
    decoder that follows CPython's [json.decoder] ([JSONDecoder.decode],
    [scan_once], [JSONObject], [JSONArray], [scanstring] in strict mode)
    on a fragment of its input, and answers [Outside] elsewhere: on
    numbers with a fraction or an exponent, [NaN] and the infinities,
    [\u] escapes, integers of more than 4300 digits, and nesting deeper
    than [max_depth]. *)
Module Reference.

Inductive decoded (A : Type) : Type :=
| Got (a : A) (rest : pystr) (pos : N)
| Bad (msg : string) (pos : N)
| Outside.
Arguments Got {A} a rest pos.
Arguments Bad {A} msg pos.
Arguments Outside {A}.

(** [WHITESPACE.match(s, pos).end()] *)
Fixpoint skip_ws (s : pystr) (pos : N) : pystr * N :=
  match s with
  | c :: s' =>
      if ((c =? 32) || (c =? 9) || (c =? 10) || (c =? 13))%N
      then skip_ws s' (pos + 1)%N
      else (s, pos)
  | [] => ([], pos)
  end.

Definition simple_escape (c : codepoint) : option codepoint :=
  (if c =? 34 then Some 34          (* quote *)
   else if c =? 92 then Some 92     (* backslash *)
   else if c =? 47 then Some 47     (* slash *)
   else if c =? 98 then Some 8      (* b: backspace *)
   else if c =? 102 then Some 12    (* f: form feed *)
   else if c =? 110 then Some 10    (* n: line feed *)
   else if c =? 114 then Some 13    (* r: carriage return *)
   else if c =? 116 then Some 9     (* t: tab *)
   else None)%N.

(** [scanstring(s, end, strict=True)] of the C accelerator, entered after
    the opening quote at [begin].  A [\u] escape is outside the fragment. *)
Fixpoint scanstring (fuel : nat) (s : pystr) (pos begin : N) (acc : pystr)
  : decoded pystr :=
  match fuel with
  | O => Outside
  | S fuel' =>
      match s with
      | [] => Bad "Unterminated string starting at" begin
      | c :: s' =>
          if (c =? 34)%N then Got (rev acc) s' (pos + 1)%N
          else if (c <? 32)%N then Bad "Invalid control character at" pos
          else if (c =? 92)%N then
            match s' with
            | [] => Bad "Unterminated string starting at" begin
            | e :: s'' =>
                if (e =? 117)%N then Outside
                else
                  match simple_escape e with
                  | Some x => scanstring fuel' s'' (pos + 2)%N begin (x :: acc)
                  | None => Bad "Invalid \escape" pos
                  end
            end
          else scanstring fuel' s' (pos + 1)%N begin (c :: acc)
      end
  end.

Definition is_digit (c : codepoint) : bool := ((48 <=? c) && (c <=? 57))%N.

Fixpoint digits (s : pystr) (acc : Z) (n : nat) : Z * nat * pystr :=
  match s with
  | c :: s' =>
      if is_digit c then digits s' (acc * 10 + Z.of_N (c - 48)) (S n)
      else (acc, n, s)
  | [] => (acc, n, [])
  end.

(** After the integer part: a fraction or an exponent makes the number a
    float. *)
Definition float_follows (s : pystr) : bool :=
  match s with
  | 46%N :: d :: _ => is_digit d
  | e :: s' =>
      if ((e =? 101) || (e =? 69))%N then
        match s' with
        | d :: s'' =>
            if is_digit d then true
            else if ((d =? 43) || (d =? 45))%N
                 then match s'' with d' :: _ => is_digit d' | [] => false end
                 else false
        | [] => false
        end
      else false
  | [] => false
  end.

(** The integer part of [NUMBER_RE]: an optional minus sign, then a zero
    or a non-zero digit and further digits; [None] when nothing matches.
    The length of the match comes with the value. *)
Definition match_integer (s : pystr) : option (Z * nat * pystr) :=
  let '(neg, s1) := match s with
                    | 45%N :: s' => (true, s')
                    | _ => (false, s)
                    end in
  match s1 with
  | 48%N :: s2 => Some (0, (if neg then 2 else 1)%nat, s2)
  | c :: _ =>
      if is_digit c then
        let '(z, n, s2) := digits s1 0 O in
        Some (if neg then - z else z, (if neg then S n else n), s2)
      else None
  | [] => None
  end.

(** [dict(pairs)]: a later pair replaces the value of an equal key and
    keeps the place of the first. *)
Fixpoint dict_set (k : pystr) (v : pyval) (d : list (pystr * pyval))
  : list (pystr * pyval) :=
  match d with
  | [] => [(k, v)]
  | (k', v') :: d' =>
      if str_eqb k k' then (k', v) :: d' else (k', v') :: dict_set k v d'
  end.

Definition literal (word : string) (s : pystr) : option pystr :=
  if starts_with (py word) s
  then Some (skipn (List.length (py word)) s)
  else None.

Definition max_depth : nat := 200.

Definition quote_then {A} (s : pystr) (k : pystr -> decoded A)
    (other : decoded A) : decoded A :=
  match s with
  | 34%N :: r => k r
  | _ => other
  end.

(** [scan_once(s, idx)] with [JSONObject] and [JSONArray].  [depth] bounds
    the nesting, [fuel] the number of items; [members] starts after the
    opening quote of a key, [elements] at the first character of a value. *)
Fixpoint scan_once (depth : nat) (s : pystr) (pos : N) {struct depth}
  : decoded pyval :=
  match depth with
  | O => Outside
  | S depth' =>
      let members :=
        fix members (fuel : nat) (s : pystr) (pos : N)
            (acc : list (pystr * pyval)) {struct fuel} : decoded pyval :=
          match fuel with
          | O => Outside
          | S fuel' =>
              match scanstring (S (List.length s)) s pos (pos - 1)%N [] with
              | Bad m p => Bad m p
              | Outside => Outside
              | Got key s1 p1 =>
                  let '(s2, p2) := skip_ws s1 p1 in
                  match s2 with
                  | 58%N :: s3 =>
                      let '(s4, p4) := skip_ws s3 (p2 + 1)%N in
                      match scan_once depth' s4 p4 with
                      | Bad m p => Bad m p
                      | Outside => Outside
                      | Got value s5 p5 =>
                          let acc' := dict_set key value acc in
                          let '(s6, p6) := skip_ws s5 p5 in
                          match s6 with
                          | 125%N :: r => Got (PyDict acc') r (p6 + 1)%N
                          | 44%N :: s7 =>
                              let '(s8, p8) := skip_ws s7 (p6 + 1)%N in
                              quote_then s8
                                (fun s9 => members fuel' s9 (p8 + 1)%N acc')
                                (Bad "Expecting property name enclosed in double quotes" p8)
                          | _ => Bad "Expecting ',' delimiter" p6
                          end
                      end
                  | _ => Bad "Expecting ':' delimiter" p2
                  end
              end
          end in
      let elements :=
        fix elements (fuel : nat) (s : pystr) (pos : N)
            (acc : list pyval) {struct fuel} : decoded pyval :=
          match fuel with
          | O => Outside
          | S fuel' =>
              match scan_once depth' s pos with
              | Bad m p => Bad m p
              | Outside => Outside
              | Got value s1 p1 =>
                  let '(s2, p2) := skip_ws s1 p1 in
                  match s2 with
                  | 93%N :: r => Got (PyList (rev (value :: acc))) r (p2 + 1)%N
                  | 44%N :: s3 =>
                      let '(s4, p4) := skip_ws s3 (p2 + 1)%N in
                      elements fuel' s4 p4 (value :: acc)
                  | _ => Bad "Expecting ',' delimiter" p2
                  end
              end
          end in
      match s with
      | [] => Bad "Expecting value" pos
      | c :: s' =>
          if (c =? 34)%N then
            match scanstring (S (List.length s')) s' (pos + 1)%N pos [] with
            | Got str r p => Got (PyStr str) r p
            | Bad m p => Bad m p
            | Outside => Outside
            end
          else if (c =? 123)%N then
            let '(s1, p1) := skip_ws s' (pos + 1)%N in
            match s1 with
            | 125%N :: r => Got (PyDict []) r (p1 + 1)%N
            | 34%N :: r => members (S (List.length r)) r (p1 + 1)%N []
            | _ => Bad "Expecting property name enclosed in double quotes" p1
            end
          else if (c =? 91)%N then
            let '(s1, p1) := skip_ws s' (pos + 1)%N in
            match s1 with
            | 93%N :: r => Got (PyList []) r (p1 + 1)%N
            | _ => elements (S (List.length s1)) s1 p1 []
            end
          else
            match literal "null" s, literal "true" s, literal "false" s with
            | Some r, _, _ => Got PyNone r (pos + 4)%N
            | _, Some r, _ => Got (PyBool true) r (pos + 4)%N
            | _, _, Some r => Got (PyBool false) r (pos + 5)%N
            | None, None, None =>
                match match_integer s with
                | Some (z, n, r) =>
                    if float_follows r then Outside
                    else if (4300 <? n)%nat then Outside
                    else Got (PyInt z) r (pos + N.of_nat n)%N
                | None =>
                    if starts_with (py "NaN") s || starts_with (py "Infinity") s
                       || starts_with (py "-Infinity") s
                    then Outside
                    else Bad "Expecting value" pos
                end
            end
      end
  end.

(** [str(e)] of a [JSONDecodeError(msg, doc, pos)]. *)
Definition show_N (n : N) : pystr :=
  py (DecimalString.NilZero.string_of_uint (N.to_uint n)).

Definition error_text (msg : string) (doc : pystr) (pos : N) : pystr :=
  let before := firstn (N.to_nat pos) doc in
  let lineno := (N.of_nat (List.length (filter (N.eqb 10) before)) + 1)%N in
  let colno := Z.to_N (Z.of_N pos - rfind before nl) in
  py msg ++ py ": line " ++ show_N lineno ++ py " column " ++ show_N colno
  ++ py " (char " ++ show_N pos ++ py ")".

(** [json.loads(s)] on the fragment; [None] outside it. *)
Definition loads (s : pystr) : option (result pyval) :=
  if starts_with [65279%N] s
  then Some (Raise (mk_exn JSONDecodeError
                      (error_text "Unexpected UTF-8 BOM (decode using utf-8-sig)" s 0)))
  else
    let '(s0, p0) := skip_ws s 0%N in
    match scan_once max_depth s0 p0 with
    | Outside => None
    | Bad msg pos => Some (Raise (mk_exn JSONDecodeError (error_text msg s pos)))
    | Got v s1 p1 =>
        let '(s2, p2) := skip_ws s1 p1 in
        match s2 with
        | [] => Some (Ok v)
        | _ :: _ => Some (Raise (mk_exn JSONDecodeError (error_text "Extra data" s p2)))
        end
    end.

(** [str.lower] on ASCII text. *)
Definition ascii_lower (s : pystr) : pystr :=
  map (fun c => if ((65 <=? c) && (c <=? 90))%N then (c + 32)%N else c) s.

(** [type(v).__name__] *)
Definition type_name (v : pyval) : string :=
  match v with
  | PyNone => "NoneType"
  | PyBool _ => "bool"
  | PyInt _ => "int"
  | PyFloat _ => "float"
  | PyStr _ => "str"
  | PyList _ => "list"
  | PyDict _ => "dict"
  end.

(** [str(v)] for [None], the booleans and the integers. *)
Definition show_value (v : pyval) : pystr :=
  match v with
  | PyNone => py "None"
  | PyBool true => py "True"
  | PyBool false => py "False"
  | PyInt z => py (DecimalString.NilZero.string_of_int (Z.to_int z))
  | _ => []
  end.

(** A platform with a given credential and a model service that answers
    every request the same way.  It agrees with CPython 3.11 where the
    examples go: replies inside the fragment of [loads], ASCII text for
    [lower], and [None], booleans and integers for [str]; the exception
    of [st.metric] is taken to be of a class of Streamlit's own. *)
Definition platform_with (api_key : option pystr) (reply : result pystr)
  : platform :=
  mk_platform
    (fun name => if str_eqb name (py "ANTHROPIC_API_KEY") then api_key else None)
    (fun _ _ => reply)
    (fun s => match loads s with
              | Some r => r
              | None => Raise (mk_exn OtherError [])
              end)
    ascii_lower
    show_value
    (fun v => py "argument of type '" ++ py (type_name v) ++ py "' is not iterable")
    OtherError.

Definition test_key : pystr := py "sk-test".

(** A session as [initialize_session_state] leaves a fresh one. *)
Definition fresh_session : session :=
  mk_session (Some PyNone) (Some PyNone) (Some [])
    (Some (py "Analytics / BI-focused SQL")) (Some (py "Beginner"))
    (Some (py "PostgreSQL")).

Definition empty_session : session :=
  mk_session None None None None None None.

End Reference.

(* ================================================================== *)
(** ** Reading a run *)
(* ================================================================== *)

Definition is_model_call (e : event) : bool :=
  match e with
  | MessagesCreate _ _ => true
  | _ => false
  end.

Definition is_error (e : event) : bool :=
  match e with
  | StError _ => true
  | _ => false
  end.

(** The calls to the model service recorded in a world. *)
Definition model_calls (w : world) : list event :=
  filter is_model_call (page w).

(** [w] with the events [es] put on the page after those already there. *)
Definition shown (w : world) (es : list event) : world :=
  mk_world (state w) (page w ++ es).

Arguments py : simpl never.
Arguments generate_system_prompt : simpl never.
Arguments generate_user_prompt : simpl never.
Arguments grade_system_prompt : simpl never.
Arguments grade_user_prompt : simpl never.
Arguments strip : simpl never.
Arguments extract_json : simpl never.

(* ================================================================== *)
(** ** Vocabulary of the properties *)
(* ================================================================== *)

(** The credential as the process sees it. *)
Definition api_key (P : platform) : option pystr :=
  getenv P (py "ANTHROPIC_API_KEY").

(** The client both operations talk to when the credential is there. *)
Definition client_of (P : platform) : pystr := Anthropic (api_key P).

(** What [get_claude_client] shows before it stops the run. *)
Definition missing_key_error : event :=
  StError (warning_sign ++ py " ANTHROPIC_API_KEY environment variable not set. Please set it and restart the app.").

(** What a blank submission shows. *)
Definition blank_warning : event :=
  StWarning (warning_sign ++ py " Please enter your SQL answer before submitting.").

(** [i] is the first, [j] the last place of [c] in [s]. *)
Definition first_index (s : pystr) (c : codepoint) (i : nat) : Prop :=
  nth_error s i = Some c /\ ~ In c (firstn i s).

Definition last_index (s : pystr) (c : codepoint) (j : nat) : Prop :=
  nth_error s j = Some c /\ ~ In c (skipn (S j) s).






(** The reply does not decode to a value that holds every required
    field: [json.loads] raises, or the membership test fails or raises. *)
Definition rejected (P : platform) (fields : list pystr) (reply : pystr) : Prop :=
  forall v, json_loads P (extract_json reply) = Ok v ->
            all_fields_in fields v <> Some true.

(** The session once the three selectors have stored their choices. *)
Definition selected (ui : widgets) (s : session) : session :=
  set_dialect (dialect_choice ui)
    (set_difficulty (difficulty_choice ui)
       (set_track (track_choice ui) s)).

(** The stored selections are options of their selectors, so that the
    sidebar reaches its button. *)
Definition selectors_ready (s : session) : Prop :=
  exists t d l,
    track s = Some t /\ In t TRACKS /\
    difficulty s = Some d /\ In d DIFFICULTY_LEVELS /\
    dialect s = Some l /\ In l SQL_DIALECTS.

(** Where an object has the field [k], [st.metric] takes its value. *)
Definition metric_field (d : list (pystr * pyval)) (k : pystr) : Prop :=
  forall v, lookup k d = Some v -> metric_accepts v = true.

(** The main panel gets as far as the answer box and the submit button:
    the current question is an object with its text and schema, and its
    track and difficulty, where it has them, are values the metrics
    take. *)
Definition answer_box_shown (s : session) : Prop :=
  exists d qt sd l a,
    current_question s = Some (PyDict d) /\
    metric_field d (py "track") /\ metric_field d (py "difficulty") /\
    lookup (py "question_text") d = Some qt /\
    lookup (py "schema_description") d = Some sd /\
    dialect s = Some l /\ user_answer s = Some a.

(** [text] names [word], in any letter case. *)
Definition mentions (word : string) (text : pystr) : bool :=
  occurs_in (Reference.ascii_lower (py word)) (Reference.ascii_lower text).

(** The three ways an operation can end, from the world [w]: the run is
    stopped for want of a credential; the reply decodes to a value that
    holds every required field and that value is returned; or [None] is
    returned after an error message. *)
Inductive operation_result (P : platform) (req : request)
    (fields : list pystr) (w : world) : outcome pyval * world -> Prop :=
| result_stop :
    key_missing (api_key P) = true ->
    operation_result P req fields w
      (Halted ScriptStop, shown w [missing_key_error])
| result_value (reply : pystr) (v : pyval) :
    key_missing (api_key P) = false ->
    messages_create P (client_of P) req = Ok reply ->
    json_loads P (extract_json reply) = Ok v ->
    all_fields_in fields v = Some true ->
    operation_result P req fields w
      (Done v, shown w [MessagesCreate (client_of P) req])
| result_none (msg : pystr) (rest : list event) :
    key_missing (api_key P) = false ->
    Forall (fun e => is_model_call e = false) rest ->
    (forall reply, messages_create P (client_of P) req = Ok reply ->
                   rejected P fields reply) ->
    operation_result P req fields w
      (Done PyNone,
       shown w (MessagesCreate (client_of P) req :: StError msg :: rest)).

Create HintDb silent.

Ltac run :=
  unfold must, attr, modify, emit, bind, ret, halt; cbn beta iota.

(** Reduces the projections of sessions and worlds that are built
    explicitly, and nothing else. *)
Ltac session_simpl :=
  cbn [state page current_question grading_result user_answer track
       difficulty dialect set_track set_difficulty set_dialect
       set_current_question set_grading_result set_user_answer fst snd].

(** Closes a goal that equates two worlds built by successive [emit]s. *)
Ltac same_world :=
  unfold shown; cbn [state page]; rewrite <- ?app_assoc; reflexivity.

(** *** The statements of the specification that the code does not meet *)



(** A reply made of commentary, one object and commentary makes
    generation return what the object decodes to, when that holds the
    required fields. *)
Definition commentary_as_specified (P : platform)
    (track difficulty dialect : pystr) (w : world)
    (before object after : pystr) : Prop :=
  messages_create P (client_of P) (generate_request P track difficulty dialect)
  = Ok (before ++ object ++ after) ->
  forall v, json_loads P object = Ok v ->
            all_fields_in question_fields v = Some true ->
            fst (generate_sql_question P track difficulty dialect w) = Done v.


(** Without the credential the run stops at startup. *)
Definition fatal_at_startup (P : platform) (ui : widgets) (w : world) : Prop :=
  key_missing (api_key P) = true -> fst (main P ui w) = Halted ScriptStop.

(** Everything the request says to the model. *)
Definition instruction_text (req : request) : pystr :=
  system req ++ List.concat (map snd (messages req)).

(** The instruction limits the tables and rules out window functions and
    common table expressions. *)
Definition beginner_instruction_as_specified (instruction : pystr) : Prop :=
  mentions "tables" instruction = true /\
  mentions "window functions" instruction = true /\
  (mentions "CTE" instruction = true \/
   mentions "common table expression" instruction = true).

(** A submitted answer that is not empty is stored. *)
Definition answer_stored_as_specified (P : platform) (ui : widgets)
    (w : world) : Prop :=
  submit_clicked ui = true -> sql_input ui <> [] ->
  user_answer (state (snd (render_main_content P ui w))) = Some (sql_input ui).

(** *** Replies and worlds of the examples *)

Module Examples.

Import Reference.

Definition analytics : pystr := py "Analytics / BI-focused SQL".
Definition beginner : pystr := py "Beginner".
Definition postgres : pystr := py "PostgreSQL".

Definition fresh_world : world := mk_world fresh_session [].

(** One member of a JSON object, [key] and [value] both strings. *)
Definition member (key value : string) : pystr :=
  quoted key ++ py ": " ++ dq ++ py value ++ dq.

Definition member_sep : pystr := py ", ".



(** A question as the model is asked to write one. *)
Definition sample_question_members : pystr :=
  member "question_text" "Count the orders of each customer." ++ member_sep
  ++ member "schema_description" "orders(id, customer_id, total)" ++ member_sep
  ++ member "reference_sql" "SELECT customer_id, COUNT(*) FROM orders GROUP BY customer_id;" ++ member_sep
  ++ member "explanation" "Group the orders by customer and count the rows." ++ member_sep
  ++ member "difficulty" "Beginner" ++ member_sep
  ++ member "track" "Analytics / BI-focused SQL".

Definition sample_question_reply : pystr :=
  lbrace ++ sample_question_members ++ rbrace.

(** The same object with commentary before and after it. *)
Definition wrapped_reply : pystr :=
  py "Sure! " ++ sample_question_reply ++ py " Hope that helps.".

(** The same object after commentary that holds a pair of braces. *)
Definition braced_comment : pystr := py "Here it is (keep the {braces}): ".

Definition braced_reply : pystr := braced_comment ++ sample_question_reply.

Definition sample_question : pyval :=
  PyDict [ (py "question_text", PyStr (py "Count the orders of each customer."));
           (py "schema_description", PyStr (py "orders(id, customer_id, total)"));
           (py "reference_sql", PyStr (py "SELECT customer_id, COUNT(*) FROM orders GROUP BY customer_id;"));
           (py "explanation", PyStr (py "Group the orders by customer and count the rows."));
           (py "difficulty", PyStr (py "Beginner"));
           (py "track", PyStr (py "Analytics / BI-focused SQL")) ].

(** A grading whose score is a string and whose texts are empty. *)
Definition hollow_grading_reply : pystr :=
  lbrace
  ++ member "score" "high" ++ member_sep
  ++ quoted "verdict" ++ py ": " ++ dq ++ dq ++ member_sep
  ++ quoted "feedback" ++ py ": " ++ dq ++ dq
  ++ rbrace.

Definition hollow_grading : pyval :=
  PyDict [ (py "score", PyStr (py "high"));
           (py "verdict", PyStr []);
           (py "feedback", PyStr []) ].

(** A grading as the model is asked to write one. *)
Definition sample_grading_reply : pystr :=
  lbrace
  ++ quoted "score" ++ py ": 85" ++ member_sep
  ++ member "verdict" "Correct" ++ member_sep
  ++ member "feedback" "Well done."
  ++ rbrace.

Definition sample_grading : pyval :=
  PyDict [ (py "score", PyInt 85);
           (py "verdict", PyStr (py "Correct"));
           (py "feedback", PyStr (py "Well done.")) ].

Definition sample_answer : pystr := py "SELECT 1;".


Definition refusal_reply : pystr := py "I cannot help with that.".

(** A JSON string that names the four fields. *)
Definition naming_reply : pystr :=
  quoted "question_text schema_description reference_sql explanation".

Definition naming_string : pyval :=
  PyStr (py "question_text schema_description reference_sql explanation").

(** A session that shows the sample question, graded before. *)
Definition graded_session : session :=
  mk_session (Some sample_question) (Some sample_grading) (Some sample_answer)
    (Some analytics) (Some beginner) (Some postgres).

Definition graded_world : world := mk_world graded_session [].

(** A session that shows the sample question, not yet answered. *)
Definition asked_session : session :=
  mk_session (Some sample_question) (Some PyNone) (Some [])
    (Some analytics) (Some beginner) (Some postgres).

Definition asked_world : world := mk_world asked_session [].

(** Widget values: nothing pressed; the generate button pressed; an
    answer submitted. *)
Definition idle : widgets :=
  mk_widgets analytics beginner postgres false [] false.

Definition generate_pressed : widgets :=
  mk_widgets (py "Data Engineer-focused SQL") (py "Advanced") (py "MySQL")
    true [] false.

Definition submitted (answer : pystr) : widgets :=
  mk_widgets analytics beginner postgres false answer true.

End Examples.

(** A script that shows nothing and stores nothing, and that ends the
    run, if it does, by an exception. *)
Definition silent {A : Type} (m : script A) : Prop :=
  forall w, snd (m w) = w /\
            forall c, fst (m w) = Halted c -> exists e, c = Uncaught e.

(** Two sessions hold the same question, grading result and answer. *)
Definition same_answers (s s' : session) : Prop :=
  current_question s' = current_question s /\
  grading_result s' = grading_result s /\
  user_answer s' = user_answer s.

(** The session after a successful generation of [q]. *)
Definition with_new_question (q : pyval) (s : session) : session :=
  set_user_answer [] (set_grading_result PyNone (set_current_question q s)).

Definition success_message : event :=
  StSuccess (check_mark ++ py " New question generated!").

Definition start_message : event :=
  StInfo (point_left ++ py " Get started by generating a question from the sidebar!").

(** The world in which a submitted answer is graded. *)
Definition answered (ui : widgets) (w : world) : world :=
  mk_world (set_user_answer (sql_input ui) (state w)) (page w).

(** How the submit block goes on from what grading returns. *)
Definition after_grading (r : outcome pyval) (w1 : world)
  : outcome unit * world :=
  match r with
  | Done g =>
      if truthy g
      then (Halted ScriptRerun,
            mk_world (set_grading_result g (state w1)) (page w1))
      else (Done tt, w1)
  | Halted c => (Halted c, w1)
  end.

(* ================================================================== *)
(** ** A session over several runs *)
(* ================================================================== *)

(** Every run of the script starts on an empty page, with the session
    state the run before has left. *)
Definition next_run (P : platform) (ui : widgets) (s : session) : session :=
  state (snd (main P ui (mk_world s []))).

Definition session_after (P : platform) (uis : list widgets) (s : session)
  : session :=
  fold_left (fun s ui => next_run P ui s) uis s.

(** A selector returns one of its options. *)
Definition valid_choices (ui : widgets) : Prop :=
  In (track_choice ui) TRACKS /\
  In (difficulty_choice ui) DIFFICULTY_LEVELS /\
  In (dialect_choice ui) SQL_DIALECTS.

(** A stored value is [None] or holds every required field. *)
Definition none_or_valid (fields : list pystr) (v : pyval) : Prop :=
  v = PyNone \/ all_fields_in fields v = Some true.

(** What the application keeps true of its session: the six keys are
    there, the selections are options of their selectors, the question
    and the grading result are [None] or validated values, and there is
    no grading result without a question. *)
Definition session_ok (s : session) : Prop :=
  selectors_ready s /\
  exists q g a,
    current_question s = Some q /\ grading_result s = Some g /\
    user_answer s = Some a /\
    none_or_valid question_fields q /\ none_or_valid grading_fields g /\
    (q = PyNone -> g = PyNone).

(** All six keys of the session state are there. *)
Definition keys_present (s : session) : Prop :=
  current_question s <> None /\ grading_result s <> None /\
  user_answer s <> None /\ track s <> None /\ difficulty s <> None /\
  dialect s <> None.

Definition is_dict (v : pyval) : bool :=
  match v with
  | PyDict _ => true
  | _ => false
  end.

(** A value [score >= 90] can be asked of. *)
Definition is_number (v : pyval) : bool :=
  match v with
  | PyBool _ | PyInt _ | PyFloat _ => true
  | _ => false
  end.

(** Two sessions hold the same selections. *)
Definition same_selections (s s' : session) : Prop :=
  track s' = track s /\ difficulty s' = difficulty s /\ dialect s' = dialect s.

(** The object has a track or a difficulty that [st.metric] refuses. *)
Definition metric_refused (d : list (pystr * pyval)) : Prop :=
  exists k v, (k = py "track" \/ k = py "difficulty") /\
              lookup k d = Some v /\ metric_accepts v = false.

(** The stored values that can make a run end in an exception: a
    question or a grading result that is not an object ends it in an
    [AttributeError], a grading result that is one, in a [TypeError], and
    a question that is an object with a track or a difficulty no metric
    takes, in the exception of [st.metric]. *)
Definition exception_explained (P : platform) (s : session) (c : exn_class)
  : Prop :=
  (c = AttributeError /\
   exists v, (current_question s = Some v \/ grading_result s = Some v) /\
             v <> PyNone /\ is_dict v = false) \/
  (c = TypeError /\ exists gd, grading_result s = Some (PyDict gd)) \/
  (c = metric_error P /\
   exists d, current_question s = Some (PyDict d) /\ metric_refused d).

(** *** Sessions and platforms of further examples *)

Module Cases.

Import Reference Examples.

(** A platform whose model answers with [reply]. *)
Definition answering (reply : pystr) : platform :=
  platform_with (Some test_key) (Ok reply).

(** A platform whose model service cannot be reached. *)
Definition unreachable : platform :=
  platform_with (Some test_key)
    (Raise (mk_exn OtherError (py "Connection error."))).

(** The session after the string that names the four fields has been
    taken for a question. *)
Definition named_session : session :=
  mk_session (Some naming_string) (Some PyNone) (Some [])
    (Some analytics) (Some beginner) (Some postgres).

(** The session after the grading whose score is a string has been
    stored for the sample question. *)
Definition hollow_session : session :=
  mk_session (Some sample_question) (Some hollow_grading)
    (Some sample_answer) (Some analytics) (Some beginner) (Some postgres).

(** A question whose track is a list: the reply, the value it decodes
    to, and the session after it has been taken for a question. *)
Definition listed_reply : pystr :=
  lbrace
  ++ member "question_text" "Q" ++ member_sep
  ++ member "schema_description" "S" ++ member_sep
  ++ member "reference_sql" "R" ++ member_sep
  ++ member "explanation" "E" ++ member_sep
  ++ quoted "track" ++ py ": [" ++ quoted "Analytics" ++ py "]"
  ++ rbrace.

Definition listed_question : pyval :=
  PyDict [ (py "question_text", PyStr (py "Q"));
           (py "schema_description", PyStr (py "S"));
           (py "reference_sql", PyStr (py "R"));
           (py "explanation", PyStr (py "E"));
           (py "track", PyList [PyStr (py "Analytics")]) ].

Definition listed_session : session :=
  mk_session (Some listed_question) (Some PyNone) (Some [])
    (Some analytics) (Some beginner) (Some postgres).

End Cases.

(** One for a button that is pressed. *)
Definition pressed (b : bool) : nat := if b then 1%nat else 0%nat.

(** The session once [initialize_session_state] has run on it. *)
Definition initialized (s : session) : session :=
  state (snd (initialize_session_state (mk_world s []))).

(* ================================================================== *)
(** ** Strings *)
(* ================================================================== *)

Section Chars.

Variable c : codepoint.

Lemma starts_with_char (s : pystr) :
  starts_with [c] s = match s with d :: _ => (c =? d)%N | [] => false end.
Proof.
  destruct s as [|d s]; simpl; [reflexivity|].
  apply andb_true_r.
Qed.

Lemma find_from_absent (s : pystr) (i : Z) :
  ~ In c s -> find_from [c] s i = -1.
Proof.
  revert i; induction s as [|d s IH]; intros i Hn.
  - reflexivity.
  - cbn [find_from]. rewrite starts_with_char.
    destruct (N.eqb_spec c d) as [->|Hd].
    + exfalso; apply Hn; left; reflexivity.
    + apply IH. intros Hin; apply Hn; right; exact Hin.
Qed.

Lemma find_from_first (pre rest : pystr) (i : Z) :
  ~ In c pre ->
  find_from [c] (pre ++ c :: rest) i = i + Z.of_nat (List.length pre).
Proof.
  revert i; induction pre as [|d pre IH]; intros i Hn.
  - cbn [app find_from]. rewrite starts_with_char, N.eqb_refl. simpl; lia.
  - cbn [app find_from]. rewrite starts_with_char.
    destruct (N.eqb_spec c d) as [->|Hd].
    + exfalso; apply Hn; left; reflexivity.
    + rewrite IH by (intros Hin; apply Hn; right; exact Hin).
      cbn [List.length]. lia.
Qed.

Lemma rfind_from_absent (s : pystr) (i best : Z) :
  ~ In c s -> rfind_from [c] s i best = best.
Proof.
  revert i best; induction s as [|d s IH]; intros i best Hn.
  - reflexivity.
  - cbn [rfind_from]. rewrite starts_with_char.
    destruct (N.eqb_spec c d) as [->|Hd].
    + exfalso; apply Hn; left; reflexivity.
    + apply IH. intros Hin; apply Hn; right; exact Hin.
Qed.

Lemma rfind_from_last (pre post : pystr) (i best : Z) :
  ~ In c post ->
  rfind_from [c] (pre ++ c :: post) i best = i + Z.of_nat (List.length pre).
Proof.
  revert i best; induction pre as [|d pre IH]; intros i best Hn.
  - cbn [app rfind_from]. rewrite starts_with_char, N.eqb_refl.
    rewrite rfind_from_absent by exact Hn. simpl; lia.
  - cbn [app rfind_from]. rewrite IH by exact Hn.
    cbn [List.length]. lia.
Qed.

(** An element of a list has a first and a last occurrence. *)
Lemma first_occurrence (s : pystr) :
  In c s -> exists pre rest, s = pre ++ c :: rest /\ ~ In c pre.
Proof.
  induction s as [|d s IH]; intros Hin; [destruct Hin|].
  destruct (N.eq_dec d c) as [->|Hd].
  - exists [], s. split; [reflexivity|intros []].
  - destruct Hin as [Heq|Hin]; [contradiction|].
    destruct (IH Hin) as (pre & rest & -> & Hn).
    exists (d :: pre), rest. split; [reflexivity|].
    intros [Heq|Hin']; [contradiction|exact (Hn Hin')].
Qed.

Lemma last_occurrence (s : pystr) :
  In c s -> exists pre post, s = pre ++ c :: post /\ ~ In c post.
Proof.
  intros Hin. apply in_rev in Hin.
  destruct (first_occurrence _ Hin) as (pre & rest & Heq & Hn).
  exists (rev rest), (rev pre). split.
  - rewrite <- (rev_involutive s), Heq, rev_app_distr. cbn [rev].
    rewrite <- app_assoc. reflexivity.
  - intros H; apply Hn. apply in_rev. exact H.
Qed.

Lemma find_char_absent (s : pystr) : ~ In c s -> find s [c] = -1.
Proof. apply find_from_absent. Qed.

Lemma find_char_first (pre rest : pystr) :
  ~ In c pre -> find (pre ++ c :: rest) [c] = Z.of_nat (List.length pre).
Proof. intros H. unfold find. rewrite find_from_first by exact H. lia. Qed.

Lemma rfind_char_last (pre post : pystr) :
  ~ In c post -> rfind (pre ++ c :: post) [c] = Z.of_nat (List.length pre).
Proof. intros H. unfold rfind. rewrite rfind_from_last by exact H. lia. Qed.

End Chars.

(** A slice between two indices inside the string. *)
Lemma slice_inside (s : pystr) (i j : nat) :
  (i <= List.length s)%nat -> (j <= List.length s)%nat ->
  slice s (Z.of_nat i) (Z.of_nat j) = firstn (j - i) (skipn i s).
Proof.
  intros Hi Hj. unfold slice, slice_bound.
  destruct (Z.ltb_spec (Z.of_nat i) 0); [lia|].
  destruct (Z.ltb_spec (Z.of_nat j) 0); [lia|].
  rewrite !Z.min_r, !Z.max_r by lia.
  rewrite Nat2Z.id. f_equal. lia.
Qed.

Lemma lstrip_incl (s : pystr) (c : codepoint) : In c (lstrip s) -> In c s.
Proof.
  induction s as [|d s IH]; simpl; [tauto|].
  destruct (is_space d); [right; auto|exact (fun H => H)].
Qed.

Lemma lstrip_keeps (s : pystr) (c : codepoint) :
  is_space c = false -> In c s -> In c (lstrip s).
Proof.
  intros Hc. induction s as [|d s IH]; simpl; [tauto|].
  intros [->|Hin].
  - rewrite Hc. left; reflexivity.
  - destruct (is_space d); [auto|right; exact Hin].
Qed.

Lemma rstrip_incl (s : pystr) (c : codepoint) : In c (rstrip s) -> In c s.
Proof.
  unfold rstrip. intros H. apply in_rev in H. apply lstrip_incl in H.
  apply in_rev. exact H.
Qed.

Lemma rstrip_keeps (s : pystr) (c : codepoint) :
  is_space c = false -> In c s -> In c (rstrip s).
Proof.
  unfold rstrip. intros Hc H. apply -> in_rev. apply lstrip_keeps; [exact Hc|].
  apply in_rev in H. exact H.
Qed.

Lemma strip_keeps (s : pystr) (c : codepoint) :
  is_space c = false -> In c s -> In c (strip s).
Proof.
  intros Hc H. unfold strip. apply rstrip_keeps, lstrip_keeps; assumption.
Qed.

Lemma strip_incl (s : pystr) (c : codepoint) : In c (strip s) -> In c s.
Proof. unfold strip. intros H. apply lstrip_incl, rstrip_incl, H. Qed.

Lemma lstrip_before (pre rest : pystr) (c : codepoint) :
  is_space c = false -> lstrip (pre ++ c :: rest) = lstrip pre ++ c :: rest.
Proof.
  intros Hc. induction pre as [|d pre IH]; simpl.
  - rewrite Hc. reflexivity.
  - destruct (is_space d); [exact IH|reflexivity].
Qed.

Lemma rstrip_after (pre post : pystr) (c : codepoint) :
  is_space c = false -> rstrip (pre ++ c :: post) = pre ++ c :: rstrip post.
Proof.
  intros Hc. unfold rstrip. rewrite rev_app_distr. cbn [rev].
  rewrite <- app_assoc. cbn [app].
  rewrite lstrip_before by exact Hc.
  rewrite rev_app_distr. cbn [rev]. rewrite rev_involutive, <- app_assoc.
  reflexivity.
Qed.
Lemma first_index_split (pre rest : pystr) (c : codepoint) :
  ~ In c pre -> first_index (pre ++ c :: rest) c (List.length pre).
Proof.
  intros Hn. split.
  - rewrite nth_error_app2, Nat.sub_diag by lia. reflexivity.
  - rewrite firstn_app, Nat.sub_diag, firstn_all, app_nil_r. exact Hn.
Qed.

Lemma last_index_split (pre post : pystr) (c : codepoint) :
  ~ In c post -> last_index (pre ++ c :: post) c (List.length pre).
Proof.
  intros Hn. split.
  - rewrite nth_error_app2, Nat.sub_diag by lia. reflexivity.
  - replace (S (List.length pre)) with (List.length (pre ++ [c]))
      by (rewrite length_app; simpl; lia).
    replace (pre ++ c :: post) with ((pre ++ [c]) ++ post)
      by (rewrite <- app_assoc; reflexivity).
    rewrite skipn_app, skipn_all, Nat.sub_diag. exact Hn.
Qed.

Lemma brace_not_space : is_space open_brace = false /\ is_space close_brace = false.
Proof. split; reflexivity. Qed.

(** With both braces in the text, the extraction is the slice from the
    first opening one to the last closing one. *)
Lemma extract_json_slice (s : pystr) (pre1 rest1 pre2 post2 : pystr) :
  strip s = pre1 ++ open_brace :: rest1 -> ~ In open_brace pre1 ->
  strip s = pre2 ++ close_brace :: post2 -> ~ In close_brace post2 ->
  extract_json s
  = firstn (S (List.length pre2) - List.length pre1)
      (skipn (List.length pre1) (strip s)).
Proof.
  intros E1 H1 E2 H2. unfold extract_json, lbrace, rbrace.
  assert (F : find (strip s) [open_brace] = Z.of_nat (List.length pre1))
    by (rewrite E1; apply find_char_first, H1).
  assert (R : rfind (strip s) [close_brace] = Z.of_nat (List.length pre2))
    by (rewrite E2; apply rfind_char_last, H2).
  rewrite F, R.
  destruct (Z.eqb_spec (Z.of_nat (List.length pre1)) (-1)); [lia|].
  destruct (Z.eqb_spec (Z.of_nat (List.length pre2)) (-1)); [lia|].
  cbn [negb andb].
  replace (Z.of_nat (List.length pre2) + 1)
    with (Z.of_nat (S (List.length pre2))) by lia.
  apply slice_inside.
  - rewrite E1, length_app. lia.
  - rewrite E2, length_app. cbn [List.length]. lia.
Qed.

Lemma extract_json_between (reply : pystr) :
  In open_brace reply -> In close_brace reply ->
  exists i j,
    first_index (strip reply) open_brace i /\ last_index (strip reply) close_brace j /\
    extract_json reply = firstn (S j - i) (skipn i (strip reply)).
Proof.
  intros Ho Hc.
  apply (strip_keeps _ _ (proj1 brace_not_space)) in Ho.
  apply (strip_keeps _ _ (proj2 brace_not_space)) in Hc.
  destruct (first_occurrence _ _ Ho) as (pre1 & rest1 & E1 & H1).
  destruct (last_occurrence _ _ Hc) as (pre2 & post2 & E2 & H2).
  exists (List.length pre1), (List.length pre2). split; [|split].
  - rewrite E1. apply first_index_split, H1.
  - rewrite E2. apply last_index_split, H2.
  - apply (extract_json_slice reply pre1 rest1 pre2 post2); assumption.
Qed.

(** Without one of the braces the whole stripped reply is decoded. *)
Lemma extract_json_whole (reply : pystr) :
  ~ In open_brace reply \/ ~ In close_brace reply -> extract_json reply = strip reply.
Proof.
  intros H. unfold extract_json, lbrace, rbrace. destruct H as [H|H].
  - rewrite find_char_absent by (intros Hin; apply H, strip_incl, Hin).
    reflexivity.
  - unfold rfind at 1.
    rewrite rfind_from_absent by (intros Hin; apply H, strip_incl, Hin).
    rewrite andb_false_r. reflexivity.
Qed.

Lemma strip_around (pre body post : pystr) :
  strip (pre ++ open_brace :: body ++ close_brace :: post)
  = lstrip pre ++ open_brace :: body ++ close_brace :: rstrip post.
Proof.
  unfold strip. rewrite lstrip_before by reflexivity.
  replace (lstrip pre ++ open_brace :: body ++ close_brace :: post)
    with ((lstrip pre ++ open_brace :: body) ++ close_brace :: post)
    by (rewrite <- app_assoc; reflexivity).
  rewrite rstrip_after by reflexivity.
  rewrite <- app_assoc. reflexivity.
Qed.

(** Commentary before and after one object is cut away. *)
Lemma extract_json_commentary (pre body post : pystr) :
  ~ In open_brace pre -> ~ In close_brace post ->
  extract_json (pre ++ open_brace :: body ++ close_brace :: post)
  = open_brace :: body ++ [close_brace].
Proof.
  intros Hpre Hpost.
  set (reply := pre ++ open_brace :: body ++ close_brace :: post).
  assert (E1 : strip reply = lstrip pre ++ open_brace :: (body ++ close_brace :: rstrip post))
    by apply strip_around.
  assert (E2 : strip reply = (lstrip pre ++ open_brace :: body) ++ close_brace :: rstrip post)
    by (rewrite <- app_assoc; apply strip_around).
  rewrite (extract_json_slice reply _ _ _ _ E1
             (fun H => Hpre (lstrip_incl _ _ H)) E2
             (fun H => Hpost (rstrip_incl _ _ H))).
  rewrite E1, skipn_app, skipn_all, Nat.sub_diag. cbn [app skipn].
  rewrite length_app. cbn [List.length].
  replace (S (List.length (lstrip pre) + S (List.length body))
           - List.length (lstrip pre))%nat
    with (List.length (open_brace :: body ++ [close_brace]))
    by (cbn [List.length]; rewrite length_app; cbn [List.length]; lia).
  replace (open_brace :: body ++ close_brace :: rstrip post)
    with ((open_brace :: body ++ [close_brace]) ++ rstrip post)
    by (cbn [app]; rewrite <- app_assoc; reflexivity).
  rewrite firstn_app, Nat.sub_diag, firstn_all. cbn [firstn].
  apply app_nil_r.
Qed.

(* ================================================================== *)
(** ** The two operations *)
(* ================================================================== *)

Lemma shown_shown (w : world) (a b : list event) :
  shown (shown w a) b = shown w (a ++ b).
Proof. unfold shown. cbn. rewrite <- app_assoc. reflexivity. Qed.

Lemma shown_nil (w : world) : shown w [] = w.
Proof. destruct w. unfold shown. cbn. rewrite app_nil_r. reflexivity. Qed.

Lemma state_shown (w : world) (es : list event) : state (shown w es) = state w.
Proof. reflexivity. Qed.

Lemma page_shown (w : world) (es : list event) :
  page (shown w es) = page w ++ es.
Proof. reflexivity. Qed.

Lemma model_calls_shown (w : world) (es : list event) :
  model_calls (shown w es) = model_calls w ++ filter is_model_call es.
Proof. unfold model_calls. cbn. apply filter_app. Qed.

Section OperationFacts.

Variable P : platform.

Lemma get_claude_client_missing (w : world) :
  key_missing (api_key P) = true ->
  get_claude_client P w = (Halted ScriptStop, shown w [missing_key_error]).
Proof.
  unfold api_key, get_claude_client. cbv zeta. intros ->. reflexivity.
Qed.

Lemma get_claude_client_present (w : world) :
  key_missing (api_key P) = false ->
  get_claude_client P w = (Done (client_of P), w).
Proof.
  unfold client_of, api_key, get_claude_client. cbv zeta. intros ->.
  reflexivity.
Qed.

Lemma has_key_lookup (k : pystr) (d : list (pystr * pyval)) :
  has_key k d = true <-> exists v, lookup k d = Some v.
Proof.
  unfold has_key. induction d as [|[k' v'] d IH]; cbn [existsb lookup fst].
  - split; [discriminate|intros [v [=]]].
  - destruct (str_eqb k k').
    + split; [intros _; exists v'; reflexivity|reflexivity].
    + exact IH.
Qed.


Lemma py_in_truthy (k : pystr) (v : pyval) :
  k <> [] -> py_in k v = Some true -> truthy v = true.
Proof.
  intros Hk. destruct v as [| | | |s|l|d]; try discriminate; cbn.
  - destruct s; [|reflexivity]. destruct k; [contradiction|discriminate].
  - destruct l; [discriminate|reflexivity].
  - destruct d; [discriminate|reflexivity].
Qed.

Lemma all_fields_in_truthy (f : pystr) (fs : list pystr) (v : pyval) :
  f <> [] -> all_fields_in (f :: fs) v = Some true -> truthy v = true.
Proof.
  intros Hf. cbn [all_fields_in].
  destruct (py_in f v) as [[|]|] eqn:E; try discriminate.
  intros _. exact (py_in_truthy f v Hf E).
Qed.

Lemma all_fields_in_true (fs : list pystr) (v : pyval) :
  all_fields_in fs v = Some true <-> Forall (fun f => py_in f v = Some true) fs.
Proof.
  induction fs as [|f fs IH]; cbn [all_fields_in].
  - split; [constructor|reflexivity].
  - destruct (py_in f v) as [[|]|] eqn:E.
    + rewrite IH. split; [intros H; constructor; assumption|].
      intros H; inversion H; assumption.
    + split; [discriminate|]. intros H; inversion H; congruence.
    + split; [discriminate|]. intros H; inversion H; congruence.
Qed.


Lemma decode_reply_ok (fields : list pystr) (missing reply : pystr) (v : pyval) :
  decode_reply P fields missing reply = Ok v <->
  json_loads P (extract_json reply) = Ok v /\ all_fields_in fields v = Some true.
Proof.
  unfold decode_reply.
  destruct (json_loads P (extract_json reply)) as [data|e].
  - destruct (all_fields_in fields data) as [[|]|] eqn:E.
    + split; [intros [= ->]; auto|intros [[= ->] _]; reflexivity].
    + split; [discriminate|intros [[= ->] H]; congruence].
    + split; [discriminate|intros [[= ->] H]; congruence].
  - split; [discriminate|intros [H _]; discriminate].
Qed.


Section CallModel.

Variables (client : pystr) (req : request) (fields : list pystr).
Variables (missing parse_failed other_failed : pystr).

Lemma call_model_returns (w : world) (reply : pystr) (v : pyval) :
  messages_create P client req = Ok reply ->
  decode_reply P fields missing reply = Ok v ->
  call_model P client req fields missing parse_failed other_failed w
  = (Done v, shown w [MessagesCreate client req]).
Proof.
  intros Hm Hd. unfold call_model. run. rewrite Hm, Hd. same_world.
Qed.

Lemma call_model_decode_error (w : world) (reply : pystr) (e : exn) :
  messages_create P client req = Ok reply ->
  decode_reply P fields missing reply = Raise e ->
  exn_kind e = JSONDecodeError ->
  call_model P client req fields missing parse_failed other_failed w
  = (Done PyNone,
            shown w [ MessagesCreate client req;
                      StError (cross_mark ++ parse_failed ++ exn_text e);
                      StWrite (py "Raw response:") reply ]).
Proof.
  intros Hm Hd Hk. unfold call_model, on_exception. run.
  rewrite Hm, Hd, Hk. same_world.
Qed.

Lemma call_model_other_error (w : world) (reply : pystr) (e : exn) :
  messages_create P client req = Ok reply ->
  decode_reply P fields missing reply = Raise e ->
  exn_kind e <> JSONDecodeError ->
  call_model P client req fields missing parse_failed other_failed w
  = (Done PyNone,
            shown w [ MessagesCreate client req;
                      StError (cross_mark ++ other_failed ++ exn_text e) ]).
Proof.
  intros Hm Hd Hk. unfold call_model, on_exception. run.
  rewrite Hm, Hd. destruct (exn_kind e); try same_world. contradiction.
Qed.

Lemma call_model_no_reply (w : world) (e : exn) :
  messages_create P client req = Raise e ->
  call_model P client req fields missing parse_failed other_failed w
  = (Done PyNone,
            shown w (MessagesCreate client req ::
                     match exn_kind e with
                     | JSONDecodeError =>
                         [ StError (cross_mark ++ parse_failed ++ exn_text e);
                           StWrite (py "Raw response:") (py "No response") ]
                     | _ => [ StError (cross_mark ++ other_failed ++ exn_text e) ]
                     end)).
Proof.
  intros Hm. unfold call_model, on_exception. run.
  rewrite Hm. destruct (exn_kind e); same_world.
Qed.

(** Every call ends in one of two ways: the validated value and nothing
    but the call on the page, or [None] and an error message right after
    the call. *)
Lemma call_model_cases (w : world) :
  (exists reply v,
     messages_create P client req = Ok reply /\
     decode_reply P fields missing reply = Ok v /\
     call_model P client req fields missing parse_failed other_failed w
  = (Done v, shown w [MessagesCreate client req])) \/
  (exists msg rest,
     Forall (fun e => is_model_call e = false) rest /\
     call_model P client req fields missing parse_failed other_failed w
  = (Done PyNone,
               shown w (MessagesCreate client req :: StError msg :: rest))).
Proof.
  destruct (messages_create P client req) as [reply|e] eqn:Hm.
  - destruct (decode_reply P fields missing reply) as [v|e] eqn:Hd.
    + left. exists reply, v. split; [reflexivity|]. split; [exact Hd|].
      apply (call_model_returns w reply v Hm Hd).
    + right.
      destruct (exn_kind e) eqn:Hk;
        [ rewrite (call_model_decode_error w reply e Hm Hd Hk)
        | rewrite (call_model_other_error w reply e Hm Hd) by congruence .. ];
        eexists _, _; (split; [|reflexivity]); repeat constructor.
  - right. rewrite (call_model_no_reply w e Hm).
    destruct (exn_kind e); eexists _, _; (split; [|reflexivity]); repeat constructor.
Qed.

End CallModel.

Lemma decode_reply_rejected (fields : list pystr) (missing reply : pystr) (e : exn) :
  decode_reply P fields missing reply = Raise e -> rejected P fields reply.
Proof.
  intros Hd v Hv Hall.
  assert (H : decode_reply P fields missing reply = Ok v)
    by (apply decode_reply_ok; auto).
  congruence.
Qed.

(** An operation: fetch the client, then call the model. *)
Lemma operation_cases (req : pystr -> request) (fields : list pystr)
    (missing parse_failed other_failed : pystr) (w : world) :
  operation_result P (req (client_of P)) fields w
    (bind (get_claude_client P)
       (fun client =>
          call_model P client (req client) fields missing parse_failed
            other_failed) w).
Proof.
  unfold bind. destruct (key_missing (api_key P)) eqn:Hk.
  - rewrite (get_claude_client_missing w Hk). apply result_stop, Hk.
  - rewrite (get_claude_client_present w Hk).
    set (r := req (client_of P)).
    destruct (messages_create P (client_of P) r) as [reply|e] eqn:Hm.
    + destruct (decode_reply P fields missing reply) as [v|e] eqn:Hd.
      * rewrite (call_model_returns _ _ _ _ parse_failed other_failed w reply v Hm Hd).
        apply decode_reply_ok in Hd. destruct Hd as [Hj Hall].
        apply (result_value P r fields w reply v); assumption.
      * assert (Hrej : forall reply', messages_create P (client_of P) r = Ok reply' ->
                                      rejected P fields reply').
        { intros reply' Hm'. rewrite Hm in Hm'. injection Hm' as <-.
          exact (decode_reply_rejected fields missing reply e Hd). }
        destruct (exn_kind e) eqn:Hk';
          [ rewrite (call_model_decode_error _ _ _ _ parse_failed other_failed
                       w reply e Hm Hd Hk')
          | rewrite (call_model_other_error _ _ _ _ parse_failed other_failed
                       w reply e Hm Hd) by congruence .. ];
          (apply result_none; [exact Hk|repeat constructor|exact Hrej]).
    + rewrite (call_model_no_reply _ _ fields missing parse_failed other_failed w e Hm).
      destruct (exn_kind e);
        (apply result_none;
         [exact Hk|repeat constructor|intros reply' Hm'; congruence]).
Qed.

End OperationFacts.

(** *** What the operations return *)

Section Outcomes.

Variable P : platform.

Lemma generate_cases (track difficulty dialect : pystr) (w : world) :
  operation_result P (generate_request P track difficulty dialect)
    question_fields w (generate_sql_question P track difficulty dialect w).
Proof.
  exact (operation_cases P (fun _ => generate_request P track difficulty dialect)
           question_fields _ _ _ w).
Qed.

Lemma grade_cases (question_text schema_description reference_sql : pyval)
    (user_sql : pystr) (difficulty track : pyval) (w : world) :
  operation_result P
    (grade_request P question_text schema_description reference_sql user_sql
       difficulty track)
    grading_fields w
    (grade_sql_answer P question_text schema_description reference_sql
       user_sql difficulty track w).
Proof.
  exact (operation_cases P
           (fun _ => grade_request P question_text schema_description
                       reference_sql user_sql difficulty track)
           grading_fields _ _ _ w).
Qed.

Lemma question_fields_truthy (v : pyval) :
  all_fields_in question_fields v = Some true -> truthy v = true.
Proof. apply all_fields_in_truthy. discriminate. Qed.

Lemma grading_fields_truthy (v : pyval) :
  all_fields_in grading_fields v = Some true -> truthy v = true.
Proof. apply all_fields_in_truthy. discriminate. Qed.



End Outcomes.

(** *** What a reply leads to *)

Section Replies.

Variable P : platform.
Hypothesis key_present : key_missing (api_key P) = false.

Section Operation.

Variables (req : request) (fields : list pystr).
Variables (missing parse_failed other_failed : pystr).
Variable reply : pystr.
Hypothesis answered_by : messages_create P (client_of P) req = Ok reply.

Lemma operation_returns (w : world) (v : pyval) :
  json_loads P (extract_json reply) = Ok v ->
  all_fields_in fields v = Some true ->
  bind (get_claude_client P)
    (fun client =>
       call_model P client req fields missing parse_failed other_failed) w
  = (Done v, shown w [MessagesCreate (client_of P) req]).
Proof.
  intros Hj Hall. unfold bind.
  rewrite (get_claude_client_present P w key_present).
  apply (call_model_returns P _ _ _ _ _ _ w reply v answered_by).
  apply decode_reply_ok. split; assumption.
Qed.




End Operation.

End Replies.

(** *** Runs on explicit replies *)

Module Runs.

Import Reference Examples.



End Runs.

(* ================================================================== *)
(** ** Question generation returns the required fields or reports *)
(* ================================================================== *)



(* ================================================================== *)
(** ** Grading returns the required fields or reports *)
(* ================================================================== *)



(* ================================================================== *)
(** ** The page *)
(* ================================================================== *)

(** *** Scripts that only read *)

Lemma silent_ret {A} (a : A) : silent (ret a).
Proof. intros w. split; [reflexivity|discriminate]. Qed.

Lemma silent_halt {A} (e : exn_class) : silent (@halt A (Uncaught e)).
Proof.
  intros w. split; [reflexivity|]. intros c [= <-]. exists e. reflexivity.
Qed.

Lemma silent_attr {A} (f : session -> option A) : silent (attr f).
Proof.
  intros w. unfold attr. destruct (f (state w)).
  - split; [reflexivity|discriminate].
  - split; [reflexivity|]. intros c [= <-]. eexists. reflexivity.
Qed.

Lemma silent_must {A} (r : exn_class + A) : silent (must r).
Proof. destruct r; [apply silent_halt|apply silent_ret]. Qed.

Lemma silent_index_of (options : list pystr) (current : pystr) :
  silent (index_of options current).
Proof.
  unfold index_of. destruct (list_index options current);
    [apply silent_ret|apply silent_halt].
Qed.

Lemma silent_bind {A B} (m : script A) (k : A -> script B) :
  silent m -> (forall a, silent (k a)) -> silent (bind m k).
Proof.
  intros Hm Hk w. unfold bind. destruct (Hm w) as [Hw Hc].
  destruct (m w) as [[a|c] w1]; cbn in Hw, Hc; subst w1.
  - apply Hk.
  - split; [reflexivity|]. intros c0 [= <-]. exact (Hc c eq_refl).
Qed.

(** Running a silent script first: only its result matters. *)
Lemma bind_silent {A B} (m : script A) (k : A -> script B) (w : world) :
  silent m ->
  bind m k w = match fst (m w) with
               | Done a => k a w
               | Halted c => (Halted c, w)
               end.
Proof.
  intros Hm. unfold bind. destruct (Hm w) as [Hw _].
  destruct (m w) as [[a|c] w1]; cbn in Hw; subst w1; reflexivity.
Qed.

Lemma silent_no_rerun {A} (m : script A) (w : world) :
  silent m -> fst (m w) <> Halted ScriptRerun.
Proof. intros Hm H. destruct (proj2 (Hm w) _ H) as [e [=]]. Qed.

#[local] Hint Resolve silent_ret silent_halt silent_attr silent_must
  silent_index_of : silent.

Lemma silent_render_grading_results : silent render_grading_results.
Proof.
  unfold render_grading_results.
  repeat first
    [ apply silent_bind; [|intros ?]
    | solve [auto with silent]
    | match goal with
      | |- silent (if ?b then _ else _) => destruct b
      | |- silent (match ?x with _ => _ end) => destruct x
      end ].
Qed.

Lemma silent_display_results : silent display_results.
Proof.
  unfold display_results. apply silent_bind; [auto with silent|].
  intros stored. destruct (truthy stored);
    [apply silent_render_grading_results|apply silent_ret].
Qed.

Lemma silent_display_question (P : platform) (question : pyval) :
  silent (display_question P question).
Proof.
  unfold display_question.
  repeat first
    [ apply silent_bind; [|intros ?]
    | solve [auto with silent]
    | match goal with
      | |- silent (if ?b then _ else _) => destruct b
      | |- silent (match ?x with _ => _ end) => destruct x
      end ].
Qed.

(** A metric takes the field of an object that [metric_field] holds
    of, or the default where the field is missing. *)
Lemma st_metric_field (P : platform) (d : list (pystr * pyval))
    (k : pystr) (default : pyval) :
  metric_field d k -> metric_accepts default = true ->
  st_metric P (match lookup k d with Some x => x | None => default end)
  = inr tt.
Proof.
  intros Hf Hd. unfold st_metric, metric_field in *.
  destruct (lookup k d) as [v|]; [rewrite (Hf v eq_refl)|rewrite Hd];
    reflexivity.
Qed.

(** With the question an object that has its text and schema, and a
    track and a difficulty the metrics take, the panel gets to the answer
    box. *)
Lemma display_question_done (P : platform) (w : world)
    (d : list (pystr * pyval)) :
  answer_box_shown (state w) ->
  current_question (state w) = Some (PyDict d) ->
  display_question P (PyDict d) w = (Done tt, w).
Proof.
  intros (d' & qt & sd & l & a & Hq & Ht & Hdf & Hqt & Hsd & Hl & Ha) Hd.
  rewrite Hq in Hd. injection Hd as ->.
  unfold display_question. run. cbn [py_get py_item].
  rewrite (st_metric_field P d _ (PyStr (py "N/A")) Ht eq_refl).
  rewrite (st_metric_field P d _ (PyStr (py "N/A")) Hdf eq_refl).
  rewrite Hqt, Hsd. cbn. rewrite Hl, Ha. reflexivity.
Qed.

(** The session that shows the sample question has its answer box. *)
Lemma answer_box_shown_asked : answer_box_shown Examples.asked_session.
Proof.
  unfold answer_box_shown. eexists _, _, _, _, _.
  split; [reflexivity|].
  split; [intros v Hv; vm_compute in Hv; injection Hv as <-; reflexivity|].
  split; [intros v Hv; vm_compute in Hv; injection Hv as <-; reflexivity|].
  repeat split; vm_compute; reflexivity.
Qed.

(** *** Whitespace *)

Lemma lstrip_spaces (s : pystr) : forallb is_space s = true -> lstrip s = [].
Proof.
  induction s as [|c s IH]; [reflexivity|].
  cbn [forallb lstrip]. intros H. apply andb_prop in H. destruct H as [-> H].
  exact (IH H).
Qed.

Lemma strip_spaces (s : pystr) : forallb is_space s = true -> strip s = [].
Proof. intros H. unfold strip. rewrite (lstrip_spaces s H). reflexivity. Qed.

Lemma blank_empty_or_spaces (s : pystr) :
  s = [] \/ forallb is_space s = true -> blank s = true.
Proof.
  intros [->|H]; [reflexivity|].
  unfold blank. rewrite (strip_spaces s H). destruct s; reflexivity.
Qed.

Lemma not_blank (s : pystr) (c : codepoint) :
  In c s -> is_space c = false -> blank s = false.
Proof.
  intros Hin Hc. unfold blank. destruct s as [|d s]; [destruct Hin|].
  pose proof (strip_keeps _ _ Hc Hin) as Hs.
  destruct (strip (d :: s)); [destruct Hs|reflexivity].
Qed.

(** *** The sidebar *)

Lemma str_eqb_eq (a b : pystr) : str_eqb a b = true <-> a = b.
Proof.
  unfold str_eqb. destruct (list_eq_dec N.eq_dec a b); split; congruence.
Qed.

Lemma list_index_in (xs : list pystr) (x : pystr) :
  In x xs -> exists i, list_index xs x = Some i.
Proof.
  induction xs as [|y ys IH]; [intros []|].
  intros Hin. cbn [list_index]. destruct (str_eqb y x) eqn:E.
  - exists O. reflexivity.
  - destruct Hin as [->|Hin].
    + assert (str_eqb x x = true) by (apply str_eqb_eq; reflexivity).
      congruence.
    + destruct (IH Hin) as [i ->]. exists (S i). reflexivity.
Qed.

Lemma same_answers_refl (s : session) : same_answers s s.
Proof. repeat split. Qed.

Lemma select_options_ready (ui : widgets) (w : world) :
  selectors_ready (state w) ->
  select_options ui w = (Done tt, mk_world (selected ui (state w)) (page w)).
Proof.
  intros (t & d & l & Ht & Hti & Hd & Hdi & Hl & Hli).
  destruct (list_index_in _ _ Hti) as [i Hi].
  destruct (list_index_in _ _ Hdi) as [j Hj].
  destruct (list_index_in _ _ Hli) as [k Hk].
  unfold select_options, index_of. run. session_simpl.
  rewrite Ht, Hi. session_simpl. rewrite Hd, Hj. session_simpl.
  rewrite Hl, Hk. reflexivity.
Qed.

(** The selectors either all store their choice or end the run; they show
    nothing and leave question, grading result and answer alone. *)
Lemma select_options_cases (ui : widgets) (w : world) :
  select_options ui w = (Done tt, mk_world (selected ui (state w)) (page w)) \/
  exists c s', select_options ui w = (Halted (Uncaught c), mk_world s' (page w)) /\
               same_answers (state w) s'.
Proof.
  unfold select_options, index_of. run.
  destruct w as [s p]. session_simpl.
  destruct (track s) as [t|] eqn:Ht;
    [|right; eexists _, s; split; [reflexivity|apply same_answers_refl]].
  destruct (list_index TRACKS t);
    [|right; eexists _, s; split; [reflexivity|apply same_answers_refl]].
  session_simpl. destruct (difficulty s) as [d|] eqn:Hd;
    [|right; eexists _, _; split; [reflexivity|repeat split]].
  destruct (list_index DIFFICULTY_LEVELS d);
    [|right; eexists _, _; split; [reflexivity|repeat split]].
  session_simpl. destruct (dialect s) as [l|] eqn:Hl;
    [|right; eexists _, _; split; [reflexivity|repeat split]].
  destruct (list_index SQL_DIALECTS l);
    [|right; eexists _, _; split; [reflexivity|repeat split]].
  left. reflexivity.
Qed.

Section Sidebar.

Variable P : platform.

Lemma generate_button_idle (ui : widgets) (w : world) :
  generate_clicked ui = false -> generate_button P ui w = (Done tt, w).
Proof. unfold generate_button. intros ->. reflexivity. Qed.

(** The button, pressed, on a session that holds the three selections. *)
Lemma generate_button_pressed (ui : widgets) (w : world) (t d l : pystr) :
  generate_clicked ui = true ->
  track (state w) = Some t -> difficulty (state w) = Some d ->
  dialect (state w) = Some l ->
  generate_button P ui w
  = match generate_sql_question P t d l w with
    | (Done q, w1) =>
        if truthy q
        then (Halted ScriptRerun,
              shown (mk_world (with_new_question q (state w1)) (page w1))
                [success_message])
        else (Done tt, w1)
    | (Halted c, w1) => (Halted c, w1)
    end.
Proof.
  intros Hc Ht Hd Hl. unfold generate_button. rewrite Hc. run.
  rewrite Ht, Hd, Hl.
  destruct (generate_sql_question P t d l w) as [[q|c] w1]; [|reflexivity].
  destruct (truthy q); reflexivity.
Qed.

Lemma generate_button_selected (ui : widgets) (s : session) (p : list event) :
  generate_clicked ui = true ->
  generate_button P ui (mk_world (selected ui s) p)
  = match generate_sql_question P (track_choice ui) (difficulty_choice ui)
            (dialect_choice ui) (mk_world (selected ui s) p) with
    | (Done q, w1) =>
        if truthy q
        then (Halted ScriptRerun,
              shown (mk_world (with_new_question q (state w1)) (page w1))
                [success_message])
        else (Done tt, w1)
    | (Halted c, w1) => (Halted c, w1)
    end.
Proof.
  intros Hc. apply generate_button_pressed; [exact Hc|reflexivity..].
Qed.

(** A value other than [None] that an operation returns is truthy. *)
Lemma operation_value_truthy (req : request) (fields : list pystr)
    (w w1 : world) (q : pyval) :
  (forall v, all_fields_in fields v = Some true -> truthy v = true) ->
  operation_result P req fields w (Done q, w1) ->
  q <> PyNone -> truthy q = true.
Proof.
  intros Ht H Hq. inversion H; subst; [auto|contradiction].
Qed.

Lemma operation_state (req : request) (fields : list pystr)
    (w w1 : world) (r : outcome pyval) :
  operation_result P req fields w (r, w1) -> state w1 = state w.
Proof. intros H. inversion H; reflexivity. Qed.

(** The sidebar with the button pressed and the selectors in order. *)
Lemma render_sidebar_pressed (ui : widgets) (w : world) :
  selectors_ready (state w) -> generate_clicked ui = true ->
  render_sidebar P ui w
  = match generate_sql_question P (track_choice ui) (difficulty_choice ui)
            (dialect_choice ui) (mk_world (selected ui (state w)) (page w)) with
    | (Done q, w1) =>
        if truthy q
        then (Halted ScriptRerun,
              shown (mk_world (with_new_question q (state w1)) (page w1))
                [success_message])
        else (Done tt, w1)
    | (Halted c, w1) => (Halted c, w1)
    end.
Proof.
  intros Hr Hc. unfold render_sidebar, bind.
  rewrite (select_options_ready ui w Hr).
  apply generate_button_selected, Hc.
Qed.

(** Unless it ends in a rerun, the sidebar leaves question, grading result
    and answer as they were. *)
Lemma render_sidebar_frame (ui : widgets) (w : world) :
  fst (render_sidebar P ui w) <> Halted ScriptRerun ->
  same_answers (state w) (state (snd (render_sidebar P ui w))).
Proof.
  unfold render_sidebar, bind.
  destruct (select_options_cases ui w) as [->|(c & s' & -> & Hs)];
    [|intros _; exact Hs].
  destruct (generate_clicked ui) eqn:Hc;
    [|rewrite (generate_button_idle ui _ Hc); intros _; repeat split].
  rewrite (generate_button_selected ui _ _ Hc).
  pose proof (generate_cases P (track_choice ui) (difficulty_choice ui)
                (dialect_choice ui) (mk_world (selected ui (state w)) (page w)))
    as H.
  destruct (generate_sql_question _ _ _ _ _) as [[q|c] w1].
  - apply operation_state in H. destruct (truthy q); cbn [fst snd].
    + intros Hn. contradiction.
    + intros _. rewrite H. repeat split.
  - apply operation_state in H. cbn [fst snd]. intros _. rewrite H.
    repeat split.
Qed.

(** A model whose replies to the generation request are all rejected
    never makes the sidebar rerun. *)
Lemma render_sidebar_rejected (ui : widgets) (w : world) :
  (forall reply,
     messages_create P (client_of P)
       (generate_request P (track_choice ui) (difficulty_choice ui)
          (dialect_choice ui)) = Ok reply ->
     rejected P question_fields reply) ->
  fst (render_sidebar P ui w) <> Halted ScriptRerun.
Proof.
  intros Hrej. unfold render_sidebar, bind.
  destruct (select_options_cases ui w) as [->|(c & s' & Hsel & Hs)].
  2: { rewrite Hsel. discriminate. }
  destruct (generate_clicked ui) eqn:Hc;
    [|rewrite (generate_button_idle ui _ Hc); discriminate].
  rewrite (generate_button_selected ui _ _ Hc).
  pose proof (generate_cases P (track_choice ui) (difficulty_choice ui)
                (dialect_choice ui) (mk_world (selected ui (state w)) (page w)))
    as H.
  destruct (generate_sql_question _ _ _ _ _) as [[q|c] w1].
  - inversion H; subst.
    + exfalso. eapply Hrej; eassumption.
    + discriminate.
  - inversion H; subst. discriminate.
Qed.

End Sidebar.

(** *** The main panel *)

Section MainPanel.

Variable P : platform.

Lemma handle_submission_idle (ui : widgets) (q : pyval) (w : world) :
  submit_clicked ui = false -> handle_submission P ui q w = (Done tt, w).
Proof. unfold handle_submission. intros ->. reflexivity. Qed.

Lemma handle_submission_blank (ui : widgets) (q : pyval) (w : world) :
  submit_clicked ui = true -> blank (sql_input ui) = true ->
  handle_submission P ui q w = (Done tt, shown w [blank_warning]).
Proof. unfold handle_submission. intros -> ->. reflexivity. Qed.

(** A submitted answer that is not blank is stored; then either the
    question lacks what grading needs and the run ends, or grading is
    called in the world that holds the answer. *)
Lemma handle_submission_graded (ui : widgets) (q : pyval) (w : world) :
  submit_clicked ui = true -> blank (sql_input ui) = false ->
  (exists c, handle_submission P ui q w = (Halted (Uncaught c), answered ui w)) \/
  (exists req r w1,
     operation_result P req grading_fields (answered ui w) (r, w1) /\
     handle_submission P ui q w = after_grading r w1).
Proof.
  intros Hs Hb. unfold handle_submission. rewrite Hs, Hb. run.
  fold (answered ui w).
  destruct (py_item q (py "question_text")) as [c|qt];
    [left; exists c; reflexivity|].
  destruct (py_item q (py "schema_description")) as [c|sd];
    [left; exists c; reflexivity|].
  destruct (py_item q (py "reference_sql")) as [c|rs];
    [left; exists c; reflexivity|].
  destruct (py_get q (py "difficulty") (PyStr (py "Intermediate"))) as [c|df];
    [left; exists c; reflexivity|].
  destruct (py_get q (py "track") (PyStr (py "Analytics"))) as [c|tr];
    [left; exists c; reflexivity|].
  right.
  pose proof (grade_cases P qt sd rs (sql_input ui) df tr (answered ui w)) as H.
  destruct (grade_sql_answer P qt sd rs (sql_input ui) df tr (answered ui w))
    as [r w1].
  exists (grade_request P qt sd rs (sql_input ui) df tr), r, w1.
  split; [exact H|].
  destruct r as [g|c]; [|reflexivity].
  cbn [after_grading]. destruct (truthy g); reflexivity.
Qed.

Lemma operation_model_calls (req : request) (fields : list pystr)
    (w w1 : world) (r : outcome pyval) :
  key_missing (api_key P) = true ->
  operation_result P req fields w (r, w1) ->
  model_calls w1 = model_calls w.
Proof.
  intros Hk H. inversion H; subst; try congruence.
  rewrite model_calls_shown. apply app_nil_r.
Qed.

(** Everything the properties need to know about the submit block. *)
Lemma handle_submission_summary (ui : widgets) (q : pyval) (w : world) :
  let '(r, w') := handle_submission P ui q w in
  current_question (state w') = current_question (state w) /\
  (r <> Halted ScriptRerun ->
   grading_result (state w') = grading_result (state w)) /\
  (submit_clicked ui = true -> blank (sql_input ui) = false ->
   user_answer (state w') = Some (sql_input ui)) /\
  (submit_clicked ui = false \/ blank (sql_input ui) = true ->
   state w' = state w /\ model_calls w' = model_calls w) /\
  (key_missing (api_key P) = true -> model_calls w' = model_calls w) /\
  ((forall req reply, messages_create P (client_of P) req = Ok reply ->
                      rejected P grading_fields reply) ->
   r <> Halted ScriptRerun).
Proof.
  destruct (submit_clicked ui) eqn:Hs.
  2: { rewrite (handle_submission_idle ui q w Hs).
       repeat split; intros; try reflexivity; discriminate. }
  destruct (blank (sql_input ui)) eqn:Hb.
  1: { rewrite (handle_submission_blank ui q w Hs Hb).
       repeat split; intros; try reflexivity; try discriminate;
         rewrite model_calls_shown; apply app_nil_r. }
  destruct (handle_submission_graded ui q w Hs Hb)
    as [(c & ->)|(req & r & w1 & H & ->)].
  - repeat split; intros; try reflexivity; try discriminate;
      exfalso; intuition discriminate.
  - pose proof (operation_state P _ _ _ _ _ H) as Hst.
    assert (Hcalls : key_missing (api_key P) = true ->
                     model_calls w1 = model_calls w)
      by (intros Hk; exact (operation_model_calls _ _ _ _ _ Hk H)).
    destruct r as [g|c]; cbn [after_grading].
    + destruct (truthy g) eqn:Hg; session_simpl; rewrite ?Hst.
      * repeat split; intros; try reflexivity; try contradiction;
          try (exfalso; intuition discriminate).
        -- exact (Hcalls H0).
        -- inversion H; subst; [|discriminate].
           exfalso. eapply H0; eassumption.
      * repeat split; intros; try reflexivity; try discriminate;
          try (exfalso; intuition discriminate).
        auto.
    + rewrite Hst.
      repeat split; intros; try reflexivity;
        try (exfalso; intuition discriminate).
      * auto.
      * inversion H; subst. discriminate.
Qed.

(** The panel, block by block. *)
Lemma render_main_content_blocks (ui : widgets) (w : world) :
  render_main_content P ui w
  = match current_question (state w) with
    | None => (Halted (Uncaught AttributeError), w)
    | Some PyNone => (Done tt, shown w [start_message])
    | Some q =>
        match fst (display_question P q w) with
        | Halted c => (Halted c, w)
        | Done _ =>
            match handle_submission P ui q w with
            | (Halted c, w1) => (Halted c, w1)
            | (Done _, w1) => (fst (display_results w1), w1)
            end
        end
    end.
Proof.
  unfold render_main_content. unfold bind at 1, attr.
  destruct (current_question (state w)) as [q|]; [|reflexivity].
  assert (H : forall q,
    bind (display_question P q)
      (fun _ => bind (handle_submission P ui q) (fun _ => display_results)) w
    = match fst (display_question P q w) with
      | Halted c => (Halted c, w)
      | Done _ =>
          match handle_submission P ui q w with
          | (Halted c, w1) => (Halted c, w1)
          | (Done _, w1) => (fst (display_results w1), w1)
          end
      end).
  { intros q0. rewrite (bind_silent _ _ w (silent_display_question P q0)).
    destruct (fst (display_question P q0 w)); [|reflexivity].
    unfold bind. destruct (handle_submission P ui q0 w) as [[[]|c] w1];
      [|reflexivity].
    rewrite (surjective_pairing (display_results w1)).
    rewrite (proj1 (silent_display_results w1)). reflexivity. }
  destruct q; try apply H. reflexivity.
Qed.

(** With the answer box on the page, the panel is the submit block
    followed by the results. *)
Lemma render_main_content_shown (ui : widgets) (w : world) :
  answer_box_shown (state w) ->
  exists q,
    current_question (state w) = Some q /\
    render_main_content P ui w
    = match handle_submission P ui q w with
      | (Halted c, w1) => (Halted c, w1)
      | (Done _, w1) => (fst (display_results w1), w1)
      end.
Proof.
  intros Hbox. pose proof Hbox as (d & qt & sd & l & a & Hq & _).
  exists (PyDict d). split; [exact Hq|].
  rewrite render_main_content_blocks, Hq.
  rewrite (display_question_done P w d Hbox Hq). reflexivity.
Qed.

(** Everything the properties need to know about the panel. *)
Lemma render_main_content_summary (ui : widgets) (w : world) :
  let '(r, w') := render_main_content P ui w in
  current_question (state w') = current_question (state w) /\
  (r <> Halted ScriptRerun ->
   grading_result (state w') = grading_result (state w)) /\
  (submit_clicked ui = false \/ blank (sql_input ui) = true ->
   state w' = state w /\ model_calls w' = model_calls w) /\
  (key_missing (api_key P) = true -> model_calls w' = model_calls w) /\
  ((forall req reply, messages_create P (client_of P) req = Ok reply ->
                      rejected P grading_fields reply) ->
   r <> Halted ScriptRerun).
Proof.
  rewrite render_main_content_blocks.
  assert (Hinfo : model_calls (shown w [start_message]) = model_calls w)
    by (rewrite model_calls_shown; apply app_nil_r).
  destruct (current_question (state w)) as [q|] eqn:Hq;
    [|repeat split; intros; try reflexivity; congruence].
  pose proof (silent_no_rerun _ w (silent_display_question P q)) as Hdq.
  pose proof (handle_submission_summary ui q w) as Hsum.
  destruct q;
    [ repeat split; intros; try reflexivity; try assumption; congruence
    | .. ];
    (destruct (fst (display_question P _ w));
     [ destruct (handle_submission P ui _ w) as [[[]|c] w1];
       destruct Hsum as (Hc & Hg & _ & Hidle & Hkey & Hrej);
       rewrite Hc, Hq;
       [ pose proof (silent_no_rerun _ w1 silent_display_results) as Hdr;
         repeat split; intros; auto; try (apply Hidle; assumption);
         apply Hg; congruence
       | repeat split; intros; auto; apply Hidle; assumption ]
     | repeat split; intros; auto; try reflexivity ]).
Qed.

End MainPanel.

(* ================================================================== *)
(** ** The reply is decoded between its braces *)
(* ================================================================== *)

Lemma braced_reply_run :
  generate_sql_question
    (Reference.platform_with (Some Reference.test_key)
       (Ok Examples.braced_reply))
    Examples.analytics Examples.beginner Examples.postgres
    Examples.fresh_world
  = (Done PyNone,
     mk_world Reference.fresh_session
       [ MessagesCreate Reference.test_key
           (generate_request
              (Reference.platform_with (Some Reference.test_key)
                 (Ok Examples.braced_reply))
              Examples.analytics Examples.beginner Examples.postgres);
         StError (cross_mark ++ py " Failed to parse Claude response as JSON: "
                  ++ py "Expecting property name enclosed in double quotes: line 1 column 2 (char 1)");
         StWrite (py "Raw response:") Examples.braced_reply ]).
Proof. vm_compute. reflexivity. Qed.

(** C3, as the specification states it, fails: commentary that holds a
    pair of braces, put before the sample question, is cut into the text
    that is decoded; the reply does not parse to the object and generation
    returns [None]. *)
Lemma brace_in_commentary_breaks_decoding :
  ~ commentary_as_specified
      (Reference.platform_with (Some Reference.test_key)
         (Ok Examples.braced_reply))
      Examples.analytics Examples.beginner Examples.postgres
      Examples.fresh_world
      Examples.braced_comment Examples.sample_question_reply [].
Proof.
  intros H.
  assert (Hm : messages_create
                 (Reference.platform_with (Some Reference.test_key)
                    (Ok Examples.braced_reply))
                 (client_of (Reference.platform_with (Some Reference.test_key)
                               (Ok Examples.braced_reply)))
                 (generate_request
                    (Reference.platform_with (Some Reference.test_key)
                       (Ok Examples.braced_reply))
                    Examples.analytics Examples.beginner Examples.postgres)
               = Ok (Examples.braced_comment
                     ++ Examples.sample_question_reply ++ []))
    by (vm_compute; reflexivity).
  assert (Hj : json_loads
                 (Reference.platform_with (Some Reference.test_key)
                    (Ok Examples.braced_reply))
                 Examples.sample_question_reply
               = Ok Examples.sample_question)
    by (vm_compute; reflexivity).
  assert (Hall : all_fields_in question_fields Examples.sample_question
                 = Some true) by (vm_compute; reflexivity).
  specialize (H Hm Examples.sample_question Hj Hall).
  rewrite braced_reply_run in H. discriminate.
Qed.

(** C3 (amended): a reply that holds an opening and a closing brace is
    stripped and cut from its first opening brace to its last closing
    brace, which leaves nothing where the last closing brace stands before
    the first opening one; what is cut out is what both operations hand
    to [json.loads]; so commentary around one object yields that object
    when there is no opening brace before the object and no closing brace
    after it. *)
Theorem reply_decoded_between_braces (P : platform) (reply : pystr) :
  In open_brace reply -> In close_brace reply ->
  (exists i j,
     first_index (strip reply) open_brace i /\
     last_index (strip reply) close_brace j /\
     extract_json reply = firstn (S j - i) (skipn i (strip reply)) /\
     ((j < i)%nat -> extract_json reply = [])) /\
  (forall pre body post,
     reply = pre ++ open_brace :: body ++ close_brace :: post ->
     ~ In open_brace pre -> ~ In close_brace post ->
     extract_json reply = open_brace :: body ++ [close_brace]) /\
  (forall v,
     key_missing (api_key P) = false ->
     json_loads P (extract_json reply) = Ok v ->
     (forall track difficulty dialect w,
        messages_create P (client_of P)
          (generate_request P track difficulty dialect) = Ok reply ->
        all_fields_in question_fields v = Some true ->
        generate_sql_question P track difficulty dialect w
        = (Done v,
           shown w [MessagesCreate (client_of P)
                      (generate_request P track difficulty dialect)])) /\
     (forall question_text schema_description reference_sql user_sql
             difficulty track w,
        messages_create P (client_of P)
          (grade_request P question_text schema_description reference_sql
             user_sql difficulty track) = Ok reply ->
        all_fields_in grading_fields v = Some true ->
        grade_sql_answer P question_text schema_description reference_sql
          user_sql difficulty track w
        = (Done v,
           shown w [MessagesCreate (client_of P)
                      (grade_request P question_text schema_description
                         reference_sql user_sql difficulty track)]))).
Proof.
  intros Hopen Hclose. split; [|split].
  - destruct (extract_json_between reply Hopen Hclose) as (i & j & Hi & Hj & E).
    exists i, j. repeat split; try apply Hi; try apply Hj; try exact E.
    intros Hlt. rewrite E.
    replace (S j - i)%nat with 0%nat by lia. reflexivity.
  - intros pre body post -> Hpre Hpost.
    apply extract_json_commentary; assumption.
  - intros v Hkey Hj. split.
    + intros track difficulty dialect w Hm Hall.
      exact (operation_returns P Hkey _ _ _ _ _ reply Hm w v Hj Hall).
    + intros qt sd rs us df tr w Hm Hall.
      exact (operation_returns P Hkey _ _ _ _ _ reply Hm w v Hj Hall).
Qed.

(** The reply of the specification's example: commentary, the sample
    question, commentary. *)
Lemma reply_decoded_between_braces_witness :
  In open_brace Examples.wrapped_reply /\
  In close_brace Examples.wrapped_reply /\
  extract_json Examples.wrapped_reply = Examples.sample_question_reply /\
  generate_sql_question
    (Reference.platform_with (Some Reference.test_key)
       (Ok Examples.wrapped_reply))
    Examples.analytics Examples.beginner Examples.postgres
    Examples.fresh_world
  = (Done Examples.sample_question,
     shown Examples.fresh_world
       [MessagesCreate Reference.test_key
          (generate_request
             (Reference.platform_with (Some Reference.test_key)
                (Ok Examples.wrapped_reply))
             Examples.analytics Examples.beginner Examples.postgres)]).
Proof.
  assert (Hopen : In open_brace Examples.wrapped_reply).
  { unfold Examples.wrapped_reply, Examples.sample_question_reply.
    apply in_or_app. right. apply in_or_app. left. left. reflexivity. }
  assert (Hclose : In close_brace Examples.wrapped_reply).
  { unfold Examples.wrapped_reply, Examples.sample_question_reply.
    apply in_or_app. right. apply in_or_app. left.
    apply in_or_app. right. apply in_or_app. right. left. reflexivity. }
  destruct (reply_decoded_between_braces
              (Reference.platform_with (Some Reference.test_key)
                 (Ok Examples.wrapped_reply))
              Examples.wrapped_reply Hopen Hclose) as (_ & Hcut & Hops).
  assert (Hex : extract_json Examples.wrapped_reply
                = Examples.sample_question_reply).
  { apply (Hcut (py "Sure! ") Examples.sample_question_members
                (py " Hope that helps.")).
    - vm_compute. reflexivity.
    - vm_compute. intuition discriminate.
    - vm_compute. intuition discriminate. }
  split; [exact Hopen|]. split; [exact Hclose|]. split; [exact Hex|].
  assert (Hkey : key_missing
                   (api_key (Reference.platform_with (Some Reference.test_key)
                               (Ok Examples.wrapped_reply))) = false)
    by (vm_compute; reflexivity).
  assert (Hj : json_loads
                 (Reference.platform_with (Some Reference.test_key)
                    (Ok Examples.wrapped_reply))
                 (extract_json Examples.wrapped_reply)
               = Ok Examples.sample_question)
    by (rewrite Hex; vm_compute; reflexivity).
  apply (proj1 (Hops Examples.sample_question Hkey Hj)).
  - vm_compute. reflexivity.
  - vm_compute. reflexivity.
Defined.

(* ================================================================== *)
(** ** A rejected reply *)
(* ================================================================== *)





(* ================================================================== *)
(** ** A blank answer is not graded *)
(* ================================================================== *)

(** C5: a submission whose answer is empty or made of whitespace only
    calls the model not at all and leaves the session state as it was;
    where the page has got as far as the answer box and its submit
    button -- the question is an object with its text and schema, and the
    metrics have taken its track and difficulty -- all it shows is the
    warning. *)
Theorem blank_answer_is_not_graded (P : platform) (ui : widgets) (w : world) :
  submit_clicked ui = true ->
  sql_input ui = [] \/ forallb is_space (sql_input ui) = true ->
  let '(r, w') := render_main_content P ui w in
  model_calls w' = model_calls w /\
  state w' = state w /\
  (answer_box_shown (state w) -> page w' = page w ++ [blank_warning]).
Proof.
  intros Hs Hb. apply blank_empty_or_spaces in Hb.
  pose proof (render_main_content_summary P ui w) as Hsum.
  pose proof (render_main_content_shown P ui w) as Hshown.
  destruct (render_main_content P ui w) as [r w'].
  destruct Hsum as (_ & _ & Hidle & _ & _).
  destruct (Hidle (or_intror Hb)) as [Hst Hcalls].
  split; [exact Hcalls|]. split; [exact Hst|].
  intros Hbox. destruct (Hshown Hbox) as (q & _ & Heq).
  rewrite (handle_submission_blank P ui q w Hs Hb) in Heq.
  injection Heq as _ ->. reflexivity.
Qed.

(** Three spaces submitted on the page of the sample question. *)
Lemma blank_answer_is_not_graded_witness :
  let P := Reference.platform_with (Some Reference.test_key)
             (Ok Examples.sample_grading_reply) in
  let w' := snd (render_main_content P (Examples.submitted (py "   "))
                   Examples.asked_world) in
  model_calls w' = [] /\ state w' = Examples.asked_session /\
  page w' = [blank_warning].
Proof.
  intros P.
  pose proof (blank_answer_is_not_graded P (Examples.submitted (py "   "))
                Examples.asked_world eq_refl (or_intror eq_refl)) as H.
  destruct (render_main_content P (Examples.submitted (py "   "))
              Examples.asked_world) as [r w'].
  destruct H as (Hcalls & Hst & Hpage). cbn [snd].
  split; [exact Hcalls|]. split; [exact Hst|].
  apply Hpage. exact answer_box_shown_asked.
Defined.

(* ================================================================== *)
(** ** A new question discards the grading result *)
(* ================================================================== *)

(** C6: when the generate button is pressed and generation returns a
    question, the sidebar stores it, sets the stored grading result to
    [None] and asks for a rerun, whatever was selected and whatever
    grading result was stored before. *)
Theorem new_question_discards_grading (P : platform) (ui : widgets)
    (w w1 : world) (q : pyval) :
  selectors_ready (state w) ->
  generate_clicked ui = true ->
  generate_sql_question P (track_choice ui) (difficulty_choice ui)
    (dialect_choice ui) (mk_world (selected ui (state w)) (page w))
  = (Done q, w1) ->
  q <> PyNone ->
  let '(r, w') := render_sidebar P ui w in
  r = Halted ScriptRerun /\
  grading_result (state w') = Some PyNone /\
  current_question (state w') = Some q.
Proof.
  intros Hready Hc Hgen Hq.
  rewrite (render_sidebar_pressed P ui w Hready Hc).
  pose proof (generate_cases P (track_choice ui) (difficulty_choice ui)
                (dialect_choice ui) (mk_world (selected ui (state w)) (page w)))
    as H.
  rewrite Hgen in *.
  rewrite (operation_value_truthy P _ _ _ _ q question_fields_truthy H Hq).
  repeat split.
Qed.

(** A session that shows a graded question; other selections; the model
    answers with the sample question. *)
Lemma new_question_discards_grading_witness :
  let P := Reference.platform_with (Some Reference.test_key)
             (Ok Examples.sample_question_reply) in
  let w' := snd (render_sidebar P Examples.generate_pressed
                   Examples.graded_world) in
  grading_result (state Examples.graded_world)
  = Some Examples.sample_grading /\
  grading_result (state w') = Some PyNone /\
  current_question (state w') = Some Examples.sample_question.
Proof.
  intros P.
  assert (Hready : selectors_ready (state Examples.graded_world)).
  { exists Examples.analytics, Examples.beginner, Examples.postgres.
    repeat split; try reflexivity.
    - left. reflexivity.
    - left. reflexivity.
    - left. reflexivity. }
  pose proof (new_question_discards_grading P Examples.generate_pressed
                Examples.graded_world
                (shown (mk_world (selected Examples.generate_pressed
                                    (state Examples.graded_world)) [])
                   [MessagesCreate Reference.test_key
                      (generate_request P (py "Data Engineer-focused SQL")
                         (py "Advanced") (py "MySQL"))])
                Examples.sample_question Hready eq_refl) as H.
  destruct (render_sidebar P Examples.generate_pressed Examples.graded_world)
    as [r w'].
  split; [reflexivity|]. cbn [snd].
  apply H.
  - vm_compute. reflexivity.
  - discriminate.
Defined.

(* ================================================================== *)
(** ** Without the credential *)
(* ================================================================== *)

Lemma initialize_session_state_page (w : world) :
  exists s, initialize_session_state w = (Done tt, mk_world s (page w)).
Proof. eexists. reflexivity. Qed.

Lemma render_sidebar_without_key (P : platform) (ui : widgets) (w : world) :
  key_missing (api_key P) = true ->
  model_calls (snd (render_sidebar P ui w)) = model_calls w.
Proof.
  intros Hk. unfold render_sidebar, bind.
  destruct (select_options_cases ui w) as [->|(c & s' & -> & _)];
    [|reflexivity].
  destruct (generate_clicked ui) eqn:Hc;
    [|rewrite (generate_button_idle P ui _ Hc); reflexivity].
  rewrite (generate_button_selected P ui _ _ Hc).
  pose proof (generate_cases P (track_choice ui) (difficulty_choice ui)
                (dialect_choice ui) (mk_world (selected ui (state w)) (page w)))
    as H.
  destruct (generate_sql_question _ _ _ _ _) as [[q|c] w1];
    inversion H; subst; try congruence.
  cbn [snd]. rewrite model_calls_shown. apply app_nil_r.
Qed.

Lemma main_without_key (P : platform) (ui : widgets) (w : world) :
  key_missing (api_key P) = true ->
  model_calls (snd (main P ui w)) = model_calls w.
Proof.
  intros Hk. unfold main. unfold bind at 1.
  destruct (initialize_session_state_page w) as [s ->].
  change (model_calls w) with (model_calls (mk_world s (page w))).
  generalize (mk_world s (page w)). clear w s. intros w.
  unfold bind.
  pose proof (render_sidebar_without_key P ui w Hk) as Hside.
  destruct (render_sidebar P ui w) as [[[]|c] w1]; cbn [snd] in Hside;
    [|exact Hside].
  pose proof (render_main_content_summary P ui w1) as Hmain.
  destruct (render_main_content P ui w1) as [r w2].
  destruct Hmain as (_ & _ & _ & Hcalls & _).
  cbn [snd]. rewrite (Hcalls Hk). exact Hside.
Qed.

(** C7, as the specification states it, fails: without the credential a
    first run in which nothing is pressed goes through to its end. *)
Lemma startup_is_not_fatal :
  ~ fatal_at_startup (Reference.platform_with None (Ok Examples.refusal_reply))
      Examples.idle (mk_world Reference.empty_session []).
Proof.
  intros H. specialize (H eq_refl). vm_compute in H. discriminate.
Qed.

(** C7 (amended): without the credential, each operation shows the error
    message about the credential and stops the run before any call to the
    model; a run of the page never calls the model; and it stops as soon
    as the generate button is pressed. *)
Theorem missing_key_stops_before_any_call (P : platform) :
  key_missing (api_key P) = true ->
  (forall track difficulty dialect w,
     generate_sql_question P track difficulty dialect w
     = (Halted ScriptStop, shown w [missing_key_error])) /\
  (forall question_text schema_description reference_sql user_sql
          difficulty track w,
     grade_sql_answer P question_text schema_description reference_sql
       user_sql difficulty track w
     = (Halted ScriptStop, shown w [missing_key_error])) /\
  (forall ui w, model_calls (snd (main P ui w)) = model_calls w) /\
  (forall ui w,
     selectors_ready (state w) -> generate_clicked ui = true ->
     render_sidebar P ui w
     = (Halted ScriptStop,
        shown (mk_world (selected ui (state w)) (page w))
          [missing_key_error])).
Proof.
  intros Hk.
  assert (Hgen : forall track difficulty dialect w,
            generate_sql_question P track difficulty dialect w
            = (Halted ScriptStop, shown w [missing_key_error])).
  { intros. unfold generate_sql_question, bind.
    rewrite (get_claude_client_missing P w Hk). reflexivity. }
  split; [exact Hgen|]. split; [|split].
  - intros. unfold grade_sql_answer, bind.
    rewrite (get_claude_client_missing P w Hk). reflexivity.
  - intros ui w. apply main_without_key, Hk.
  - intros ui w Hready Hc.
    rewrite (render_sidebar_pressed P ui w Hready Hc), Hgen. reflexivity.
Qed.

(** No credential; the generate button pressed on a fresh session. *)
Lemma missing_key_stops_before_any_call_witness :
  let P := Reference.platform_with None (Ok Examples.sample_question_reply) in
  key_missing (api_key P) = true /\
  generate_sql_question P Examples.analytics Examples.beginner
    Examples.postgres Examples.fresh_world
  = (Halted ScriptStop, shown Examples.fresh_world [missing_key_error]) /\
  model_calls (snd (main P Examples.generate_pressed Examples.fresh_world))
  = [].
Proof.
  intros P.
  assert (Hk : key_missing (api_key P) = true) by reflexivity.
  destruct (missing_key_stops_before_any_call P Hk) as (Hgen & _ & Hmain & _).
  split; [exact Hk|]. split; [apply Hgen|apply Hmain].
Defined.

(* ================================================================== *)
(** ** The instruction for a beginner question *)
(* ================================================================== *)

(** C8, as the specification states it, fails: what is sent for the
    Analytics track, Beginner, PostgreSQL limits the tables and rules out
    window functions, and says nothing of common table expressions. *)
Lemma beginner_instruction_is_silent_on_ctes :
  ~ beginner_instruction_as_specified
      (instruction_text
         (generate_request
            (Reference.platform_with (Some Reference.test_key)
               (Ok Examples.sample_question_reply))
            Examples.analytics Examples.beginner Examples.postgres)).
Proof.
  intros (_ & _ & [H|H]); vm_compute in H; discriminate.
Qed.

(** C8 (amended): for the Analytics track, Beginner, PostgreSQL, with
    the credential present, the request sent to the model carries a system
    text that holds the beginner guidance (one or two tables, no complex
    subqueries or window functions) and the guideline on small schemas
    (three tables at most); it does not name common table expressions. *)
Theorem beginner_instruction_text (P : platform) (w : world) :
  key_missing (api_key P) = false ->
  let req := generate_request P (py "Analytics / BI-focused SQL")
               (py "Beginner") (py "PostgreSQL") in
  In (MessagesCreate (client_of P) req)
     (page (snd (generate_sql_question P (py "Analytics / BI-focused SQL")
                   (py "Beginner") (py "PostgreSQL") w))) /\
  occurs_in
    (py "Keep it simple with 1-2 tables, basic JOINs, simple aggregations. No complex subqueries or window functions.")
    (system req) = true /\
  occurs_in (py "- Keep schemas small (1-3 tables max)") (system req) = true /\
  mentions "CTE" (system req) = false /\
  mentions "common table expression" (system req) = false.
Proof.
  intros Hk req. split; [|repeat split; vm_compute; reflexivity].
  pose proof (generate_cases P (py "Analytics / BI-focused SQL")
                (py "Beginner") (py "PostgreSQL") w) as H.
  destruct (generate_sql_question _ _ _ _ _) as [r w'].
  inversion H; subst; try congruence; cbn [snd]; rewrite page_shown;
    apply in_or_app; right; left; reflexivity.
Qed.

Lemma beginner_instruction_text_witness :
  let P := Reference.platform_with (Some Reference.test_key)
             (Ok Examples.sample_question_reply) in
  let req := generate_request P (py "Analytics / BI-focused SQL")
               (py "Beginner") (py "PostgreSQL") in
  In (MessagesCreate (client_of P) req)
     (page (snd (generate_sql_question P (py "Analytics / BI-focused SQL")
                   (py "Beginner") (py "PostgreSQL") Examples.fresh_world))) /\
  mentions "CTE" (system req) = false.
Proof.
  intros P req.
  assert (Hk : key_missing (api_key P) = false) by (vm_compute; reflexivity).
  destruct (beginner_instruction_text P Examples.fresh_world Hk)
    as (Hin & _ & _ & Hcte & _).
  split; [exact Hin|exact Hcte].
Defined.

(* ================================================================== *)
(** ** Validation is a membership test *)
(* ================================================================== *)

Lemma has_key_map_values (k : pystr) (d : list (pystr * pyval))
    (f : pyval -> pyval) :
  has_key k (map (fun kv => (fst kv, f (snd kv))) d) = has_key k d.
Proof.
  unfold has_key. induction d as [|[k' v] d IH]; [reflexivity|].
  cbn [map existsb fst snd]. rewrite IH. reflexivity.
Qed.

Lemma all_fields_in_map_values (fields : list pystr)
    (d : list (pystr * pyval)) (f : pyval -> pyval) :
  all_fields_in fields (PyDict (map (fun kv => (fst kv, f (snd kv))) d))
  = all_fields_in fields (PyDict d).
Proof.
  induction fields as [|k fields IH]; [reflexivity|].
  cbn [all_fields_in py_in]. rewrite has_key_map_values, IH. reflexivity.
Qed.

Lemma is_str_in (k : pystr) (l : list pyval) :
  In (PyStr k) l -> existsb (is_str k) l = true.
Proof.
  intros H. apply existsb_exists. exists (PyStr k). split; [exact H|].
  cbn [is_str]. apply str_eqb_eq. reflexivity.
Qed.

(** C9: validation tests membership and nothing else.  For an object
    the values under the keys do not count; a string in which every
    required name occurs passes, and so does a list that holds every
    required name; and whatever passes is returned, by generation as by
    grading, as the question or the grading. *)
Theorem validation_is_membership_only (P : platform) :
  (forall fields d (f : pyval -> pyval),
     all_fields_in fields (PyDict (map (fun kv => (fst kv, f (snd kv))) d))
     = all_fields_in fields (PyDict d)) /\
  (forall fields s,
     Forall (fun k => occurs_in k s = true) fields ->
     all_fields_in fields (PyStr s) = Some true) /\
  (forall fields l,
     Forall (fun k => In (PyStr k) l) fields ->
     all_fields_in fields (PyList l) = Some true) /\
  (forall reply v,
     key_missing (api_key P) = false ->
     json_loads P (extract_json reply) = Ok v ->
     (forall track difficulty dialect w,
        messages_create P (client_of P)
          (generate_request P track difficulty dialect) = Ok reply ->
        Forall (fun k => py_in k v = Some true) question_fields ->
        generate_sql_question P track difficulty dialect w
        = (Done v,
           shown w [MessagesCreate (client_of P)
                      (generate_request P track difficulty dialect)])) /\
     (forall question_text schema_description reference_sql user_sql
             difficulty track w,
        messages_create P (client_of P)
          (grade_request P question_text schema_description reference_sql
             user_sql difficulty track) = Ok reply ->
        Forall (fun k => py_in k v = Some true) grading_fields ->
        grade_sql_answer P question_text schema_description reference_sql
          user_sql difficulty track w
        = (Done v,
           shown w [MessagesCreate (client_of P)
                      (grade_request P question_text schema_description
                         reference_sql user_sql difficulty track)]))).
Proof.
  split; [|split; [|split]].
  - intros. apply all_fields_in_map_values.
  - intros fields s H. apply all_fields_in_true.
    eapply Forall_impl; [|exact H]. intros k Hk. cbn [py_in]. rewrite Hk.
    reflexivity.
  - intros fields l H. apply all_fields_in_true.
    eapply Forall_impl; [|exact H]. intros k Hk. cbn [py_in].
    rewrite (is_str_in k l Hk). reflexivity.
  - intros reply v Hkey Hj. split.
    + intros track difficulty dialect w Hm Hall.
      apply all_fields_in_true in Hall.
      exact (operation_returns P Hkey _ _ _ _ _ reply Hm w v Hj Hall).
    + intros qt sd rs us df tr w Hm Hall.
      apply all_fields_in_true in Hall.
      exact (operation_returns P Hkey _ _ _ _ _ reply Hm w v Hj Hall).
Qed.

(** The model answers with a JSON string that names the four fields: the
    string is returned as the question. *)
Lemma validation_is_membership_only_witness :
  let P := Reference.platform_with (Some Reference.test_key)
             (Ok Examples.naming_reply) in
  all_fields_in question_fields Examples.naming_string = Some true /\
  generate_sql_question P Examples.analytics Examples.beginner
    Examples.postgres Examples.fresh_world
  = (Done Examples.naming_string,
     shown Examples.fresh_world
       [MessagesCreate (client_of P)
          (generate_request P Examples.analytics Examples.beginner
             Examples.postgres)]).
Proof.
  intros P.
  destruct (validation_is_membership_only P) as (_ & Hstr & _ & Hret).
  assert (Hall : all_fields_in question_fields Examples.naming_string
                 = Some true).
  { apply Hstr. repeat constructor; vm_compute; reflexivity. }
  split; [exact Hall|].
  assert (Hkey : key_missing (api_key P) = false) by (vm_compute; reflexivity).
  assert (Hj : json_loads P (extract_json Examples.naming_reply)
               = Ok Examples.naming_string) by (vm_compute; reflexivity).
  apply (proj1 (Hret Examples.naming_reply Examples.naming_string Hkey Hj)).
  - vm_compute. reflexivity.
  - apply all_fields_in_true. exact Hall.
Defined.

(* ================================================================== *)
(** ** The stored answer *)
(* ================================================================== *)

Lemma one_space_run :
  user_answer
    (state (snd (render_main_content
                   (Reference.platform_with (Some Reference.test_key)
                      (Ok Examples.sample_grading_reply))
                   (Examples.submitted [32%N]) Examples.asked_world)))
  = Some [].
Proof. vm_compute. reflexivity. Qed.

(** C10, as stated, fails: an answer of one space is not empty, and it
    is not stored; the stored answer stays the empty string. *)
Lemma space_is_not_stored :
  ~ answer_stored_as_specified
      (Reference.platform_with (Some Reference.test_key)
         (Ok Examples.sample_grading_reply))
      (Examples.submitted [32%N]) Examples.asked_world.
Proof.
  intros H.
  assert (Hne : sql_input (Examples.submitted [32%N]) <> []) by discriminate.
  specialize (H eq_refl Hne). rewrite one_space_run in H.
  discriminate.
Qed.

(** C10 (amended): once the page shows the answer box -- the question
    is an object with its text and schema, and the metrics have taken its
    track and difficulty -- a submitted answer that holds a character
    other than whitespace is stored whatever grading does afterwards --
    return a grading, fail, or stop the run for want of a credential; the
    current question stays, and unless the run ends in a rerun the rest of
    the session stays too, so that after a failed grading the stored
    answer is all that has changed.  And a successful generation sets the
    stored answer to the empty string. *)
Theorem submitted_answer_is_stored (P : platform) (ui : widgets) (w : world) :
  (submit_clicked ui = true ->
   (exists c, In c (sql_input ui) /\ is_space c = false) ->
   answer_box_shown (state w) ->
   let '(r, w') := render_main_content P ui w in
   user_answer (state w') = Some (sql_input ui) /\
   current_question (state w') = current_question (state w) /\
   (r <> Halted ScriptRerun ->
    state w' = set_user_answer (sql_input ui) (state w))) /\
  (selectors_ready (state w) ->
   generate_clicked ui = true ->
   forall q w1,
     generate_sql_question P (track_choice ui) (difficulty_choice ui)
       (dialect_choice ui) (mk_world (selected ui (state w)) (page w))
     = (Done q, w1) ->
     q <> PyNone ->
     user_answer (state (snd (render_sidebar P ui w))) = Some []).
Proof.
  split.
  - intros Hs (c & Hin & Hc) Hbox.
    pose proof (not_blank _ c Hin Hc) as Hb.
    destruct (render_main_content_shown P ui w Hbox) as (q & Hq & ->).
    destruct (handle_submission_graded P ui q w Hs Hb)
      as [(e & ->)|(req & r & w1 & H & ->)].
    + repeat split.
    + pose proof (operation_state P _ _ _ _ _ H) as Hst.
      destruct r as [g|e]; cbn [after_grading].
      * destruct (truthy g); session_simpl; rewrite Hst.
        -- repeat split. intros Hn. contradiction.
        -- repeat split.
      * rewrite Hst. repeat split.
  - intros Hready Hc q w1 Hgen Hq.
    rewrite (render_sidebar_pressed P ui w Hready Hc).
    pose proof (generate_cases P (track_choice ui) (difficulty_choice ui)
                  (dialect_choice ui)
                  (mk_world (selected ui (state w)) (page w))) as H.
    rewrite Hgen in *.
    rewrite (operation_value_truthy P _ _ _ _ q question_fields_truthy H Hq).
    reflexivity.
Qed.

(** The sample answer is submitted and the model's reply is no JSON:
    grading fails, and the stored answer has changed all the same. *)
Lemma submitted_answer_is_stored_witness :
  let P := Reference.platform_with (Some Reference.test_key)
             (Ok Examples.refusal_reply) in
  let run := render_main_content P (Examples.submitted Examples.sample_answer)
               Examples.asked_world in
  fst run = Done tt /\
  user_answer (state Examples.asked_world) = Some [] /\
  user_answer (state (snd run)) = Some Examples.sample_answer /\
  grading_result (state (snd run)) = Some PyNone.
Proof.
  intros P run.
  assert (Hrun : fst run = Done tt) by (vm_compute; reflexivity).
  assert (Hbox : answer_box_shown (state Examples.asked_world))
    by exact answer_box_shown_asked.
  assert (Hchar : exists c, In c (sql_input (Examples.submitted
                                               Examples.sample_answer))
                            /\ is_space c = false).
  { exists 83%N. split; [left; reflexivity|reflexivity]. }
  pose proof (proj1 (submitted_answer_is_stored P
                       (Examples.submitted Examples.sample_answer)
                       Examples.asked_world) eq_refl Hchar Hbox) as H.
  fold run in H. destruct run as [r w'].
  destruct H as (Ha & _ & Hst). cbn [fst snd] in *.
  split; [exact Hrun|]. split; [reflexivity|]. split; [exact Ha|].
  rewrite Hst; [reflexivity|]. rewrite Hrun. discriminate.
Defined.

(* ================================================================== *)
(** ** The session state at the start of a run *)
(* ================================================================== *)

Lemma default_keeps {A} (a : A) (o : option A) (x : A) :
  o = Some x -> default a o = Some x.
Proof. intros ->. reflexivity. Qed.

Lemma default_present {A} (a : A) (o : option A) : default a o <> None.
Proof. destruct o; discriminate. Qed.

Lemma default_idempotent {A} (a : A) (o : option A) :
  default a (default a o) = default a o.
Proof. destruct o; reflexivity. Qed.

Lemma initialize_session_state_fixed (w : world) :
  keys_present (state w) -> initialize_session_state w = (Done tt, w).
Proof.
  destruct w as [[q g a t d l] p].
  intros (Hq & Hg & Ha & Ht & Hd & Hl). cbn in *.
  unfold initialize_session_state, modify. cbn.
  destruct q, g, a, t, d, l; try contradiction; reflexivity.
Qed.

(** X1: [initialize_session_state] never overwrites a stored value: it
    gives a default to each key that is absent and to no other, so that
    afterwards the six keys are there; it shows nothing, and running it
    again changes nothing. *)
Theorem initialize_keeps_stored_values (w : world) :
  let w' := snd (initialize_session_state w) in
  fst (initialize_session_state w) = Done tt /\
  page w' = page w /\
  keys_present (state w') /\
  (forall v, current_question (state w) = Some v ->
             current_question (state w') = Some v) /\
  (forall v, grading_result (state w) = Some v ->
             grading_result (state w') = Some v) /\
  (forall a, user_answer (state w) = Some a ->
             user_answer (state w') = Some a) /\
  (forall t, track (state w) = Some t -> track (state w') = Some t) /\
  (forall d, difficulty (state w) = Some d ->
             difficulty (state w') = Some d) /\
  (forall l, dialect (state w) = Some l -> dialect (state w') = Some l) /\
  (current_question (state w) = None ->
   current_question (state w') = Some PyNone) /\
  (grading_result (state w) = None ->
   grading_result (state w') = Some PyNone) /\
  (user_answer (state w) = None -> user_answer (state w') = Some []) /\
  (track (state w) = None ->
   track (state w') = Some (py "Analytics / BI-focused SQL")) /\
  (difficulty (state w) = None -> difficulty (state w') = Some (py "Beginner")) /\
  (dialect (state w) = None -> dialect (state w') = Some (py "PostgreSQL")) /\
  initialize_session_state w' = (Done tt, w').
Proof.
  destruct w as [[q g a t d l] p]. cbn.
  repeat split; try (intros ? ->; reflexivity); try (intros ->; reflexivity);
    try apply default_present.
  unfold initialize_session_state, modify. cbn.
  rewrite !default_idempotent. reflexivity.
Qed.

(* ================================================================== *)
(** ** Stored values that are no objects or hold the wrong types *)
(* ================================================================== *)

Lemma valid_object_has_field (fields : list pystr) (d : list (pystr * pyval))
    (f : pystr) :
  all_fields_in fields (PyDict d) = Some true -> In f fields ->
  exists v, lookup f d = Some v.
Proof.
  intros Hall Hin. apply all_fields_in_true in Hall.
  rewrite Forall_forall in Hall. specialize (Hall f Hin).
  cbn [py_in] in Hall. injection Hall as Hk. apply has_key_lookup, Hk.
Qed.

Lemma display_question_not_object (P : platform) (q : pyval) (w : world) :
  is_dict q = false ->
  display_question P q w = (Halted (Uncaught AttributeError), w).
Proof. destruct q; try discriminate; reflexivity. Qed.

Lemma metric_field_or_not (d : list (pystr * pyval)) (k : pystr) :
  metric_field d k \/
  exists v, lookup k d = Some v /\ metric_accepts v = false.
Proof.
  unfold metric_field. destruct (lookup k d) as [v|]; [|left; intros ? [=]].
  destruct (metric_accepts v) eqn:E.
  - left. intros ? [= <-]. exact E.
  - right. exists v. auto.
Qed.

(** A validated object whose track and difficulty the metrics take is
    shown up to the answer box. *)
Lemma display_question_accepted (P : platform) (d : list (pystr * pyval))
    (w : world) :
  all_fields_in question_fields (PyDict d) = Some true ->
  metric_field d (py "track") -> metric_field d (py "difficulty") ->
  dialect (state w) <> None -> user_answer (state w) <> None ->
  display_question P (PyDict d) w = (Done tt, w).
Proof.
  intros Hall Ht Hdf Hl Ha.
  destruct (valid_object_has_field _ d (py "question_text") Hall) as [qt Hqt];
    [left; reflexivity|].
  destruct (valid_object_has_field _ d (py "schema_description") Hall)
    as [sd Hsd]; [right; left; reflexivity|].
  unfold display_question. run. cbn [py_get py_item].
  rewrite (st_metric_field P d _ (PyStr (py "N/A")) Ht eq_refl).
  rewrite (st_metric_field P d _ (PyStr (py "N/A")) Hdf eq_refl).
  rewrite Hqt, Hsd. cbn.
  destruct (dialect (state w)); [|contradiction].
  destruct (user_answer (state w)); [|contradiction]. reflexivity.
Qed.

(** A validated object is shown up to the answer box, or one of the two
    metrics refuses its value and the run ends there. *)
Lemma display_question_valid (P : platform) (d : list (pystr * pyval))
    (w : world) :
  all_fields_in question_fields (PyDict d) = Some true ->
  dialect (state w) <> None -> user_answer (state w) <> None ->
  display_question P (PyDict d) w = (Done tt, w) \/
  (metric_refused d /\
   display_question P (PyDict d) w = (Halted (Uncaught (metric_error P)), w)).
Proof.
  intros Hall Hl Ha.
  destruct (metric_field_or_not d (py "track")) as [Ht|(v & Hv & Hr)].
  2: { right. split; [exists (py "track"), v; auto|].
       unfold display_question. run. cbn [py_get]. rewrite Hv.
       unfold st_metric. rewrite Hr. reflexivity. }
  destruct (metric_field_or_not d (py "difficulty")) as [Hdf|(v & Hv & Hr)].
  2: { right. split; [exists (py "difficulty"), v; auto|].
       unfold display_question. run. cbn [py_get].
       rewrite (st_metric_field P d _ (PyStr (py "N/A")) Ht eq_refl).
       rewrite Hv. unfold st_metric. rewrite Hr. reflexivity. }
  left. apply display_question_accepted; assumption.
Qed.

(** The panel when the stored question is neither [None] nor an
    object. *)
Lemma render_main_content_not_object (P : platform) (ui : widgets)
    (w : world) (q : pyval) :
  current_question (state w) = Some q -> q <> PyNone -> is_dict q = false ->
  render_main_content P ui w = (Halted (Uncaught AttributeError), w).
Proof.
  intros Hq Hn Hd. rewrite render_main_content_blocks, Hq.
  rewrite (display_question_not_object P q w Hd).
  destruct q; try reflexivity; contradiction.
Qed.

(** The results panel on a grading result that is an object. *)
Lemma render_grading_results_object (w : world) (gd : list (pystr * pyval))
    (q : pyval) :
  grading_result (state w) = Some (PyDict gd) ->
  current_question (state w) = Some q ->
  render_grading_results w
  = (match compare_score
             (match lookup (py "score") gd with
              | Some x => x
              | None => PyInt 0
              end) with
     | inl c => Halted (Uncaught c)
     | inr _ =>
         match verdict_mark
                 (match lookup (py "verdict") gd with
                  | Some x => x
                  | None => PyStr (py "Unknown")
                  end) with
         | inl c => Halted (Uncaught c)
         | inr _ =>
             match py_item q (py "reference_sql") with
             | inl c => Halted (Uncaught c)
             | inr _ =>
                 match py_item q (py "explanation") with
                 | inl c => Halted (Uncaught c)
                 | inr _ => Done tt
                 end
             end
         end
     end, w).
Proof.
  intros Hg Hq. unfold render_grading_results. run. rewrite Hg, Hq.
  cbn [py_get].
  destruct (compare_score _); [reflexivity|].
  destruct (verdict_mark _); [reflexivity|].
  destruct (py_item q (py "reference_sql")); [reflexivity|].
  destruct (py_item q (py "explanation")); reflexivity.
Qed.

Lemma compare_score_not_number (v : pyval) :
  is_number v = false -> compare_score v = inl TypeError.
Proof. destruct v; try discriminate; reflexivity. Qed.

Lemma display_results_bad_score (w : world) (gd : list (pystr * pyval))
    (q score : pyval) :
  grading_result (state w) = Some (PyDict gd) ->
  gd <> [] ->
  current_question (state w) = Some q ->
  lookup (py "score") gd = Some score -> is_number score = false ->
  display_results w = (Halted (Uncaught TypeError), w).
Proof.
  intros Hg Hne Hq Hs Hn. unfold display_results, bind, attr. rewrite Hg.
  assert (Ht : truthy (PyDict gd) = true) by (destruct gd; [contradiction|reflexivity]).
  rewrite Ht, (render_grading_results_object w gd q Hg Hq), Hs.
  rewrite (compare_score_not_number score Hn). reflexivity.
Qed.

(* ================================================================== *)
(** ** What a session keeps from run to run *)
(* ================================================================== *)

Lemma session_ok_keys (s : session) : session_ok s -> keys_present s.
Proof.
  intros ((t & d & l & Ht & _ & Hd & _ & Hl & _) & q & g & a & Hq & Hg & Ha & _).
  unfold keys_present. rewrite Hq, Hg, Ha, Ht, Hd, Hl.
  repeat split; discriminate.
Qed.

Lemma session_ok_selected (ui : widgets) (s : session) :
  valid_choices ui -> session_ok s -> session_ok (selected ui s).
Proof.
  intros (Ht & Hd & Hl) (_ & H). split; [|exact H].
  exists (track_choice ui), (difficulty_choice ui), (dialect_choice ui).
  repeat split; assumption.
Qed.

Lemma session_ok_answered (a : pystr) (s : session) :
  session_ok s -> session_ok (set_user_answer a s).
Proof.
  intros (Hsel & q & g & a0 & Hq & Hg & _ & H).
  split; [exact Hsel|]. exists q, g, a. repeat split; tauto.
Qed.

Lemma session_ok_graded (g : pyval) (s : session) (q : pyval) :
  session_ok s -> current_question s = Some q -> q <> PyNone ->
  all_fields_in grading_fields g = Some true ->
  session_ok (set_grading_result g s).
Proof.
  intros (Hsel & q0 & g0 & a & Hq & _ & Ha & Hqv & _ & _) Hq' Hn Hall.
  split; [exact Hsel|]. exists q0, g, a. cbn.
  rewrite Hq in Hq'. injection Hq' as ->.
  repeat split; try assumption.
  - right. exact Hall.
  - intros ->. contradiction.
Qed.

Lemma session_ok_new_question (q : pyval) (s : session) :
  session_ok s -> all_fields_in question_fields q = Some true ->
  session_ok (with_new_question q s).
Proof.
  intros (Hsel & _) Hall. split; [exact Hsel|].
  exists q, PyNone, []. cbn. repeat split.
  - right. exact Hall.
  - left. reflexivity.
Qed.

Lemma session_ok_fresh : session_ok Reference.fresh_session.
Proof.
  split.
  - exists (py "Analytics / BI-focused SQL"), (py "Beginner"), (py "PostgreSQL").
    repeat split; left; reflexivity.
  - exists PyNone, PyNone, []. repeat split; left; reflexivity.
Qed.

Section Runs.

Variable P : platform.

(** Grading on a question that is an object with the three fields the
    call needs. *)
Lemma handle_submission_object (ui : widgets) (w : world)
    (d : list (pystr * pyval)) (qt sd rs : pyval) :
  submit_clicked ui = true -> blank (sql_input ui) = false ->
  lookup (py "question_text") d = Some qt ->
  lookup (py "schema_description") d = Some sd ->
  lookup (py "reference_sql") d = Some rs ->
  handle_submission P ui (PyDict d) w
  = let '(r, w1) :=
      grade_sql_answer P qt sd rs (sql_input ui)
        (match lookup (py "difficulty") d with
         | Some x => x
         | None => PyStr (py "Intermediate")
         end)
        (match lookup (py "track") d with
         | Some x => x
         | None => PyStr (py "Analytics")
         end)
        (answered ui w) in
    after_grading r w1.
Proof.
  intros Hs Hb Hqt Hsd Hrs. unfold handle_submission. rewrite Hs, Hb. run.
  cbn [py_item py_get]. rewrite Hqt, Hsd, Hrs. fold (answered ui w).
  destruct (grade_sql_answer _ _ _ _ _ _ _ _) as [[g|c] w1]; cbn [after_grading];
    [destruct (truthy g)|]; reflexivity.
Qed.

(** How the results block can end on a question that is a validated
    object. *)
Lemma display_results_outcome (w : world) (d : list (pystr * pyval))
    (g : pyval) :
  current_question (state w) = Some (PyDict d) ->
  all_fields_in question_fields (PyDict d) = Some true ->
  grading_result (state w) = Some g ->
  fst (display_results w) = Done tt \/
  (fst (display_results w) = Halted (Uncaught AttributeError) /\
   g <> PyNone /\ is_dict g = false) \/
  (fst (display_results w) = Halted (Uncaught TypeError) /\ is_dict g = true).
Proof.
  intros Hq Hall Hg. unfold display_results, bind, attr. rewrite Hg.
  destruct (truthy g) eqn:Ht; [|left; reflexivity].
  destruct (is_dict g) eqn:Hd.
  - destruct g as [| | | | | |gd]; try discriminate.
    rewrite (render_grading_results_object w gd _ Hg Hq). cbn [fst].
    destruct (valid_object_has_field _ d (py "reference_sql") Hall) as [rs Hrs];
      [right; right; left; reflexivity|].
    destruct (valid_object_has_field _ d (py "explanation") Hall) as [ex Hex];
      [right; right; right; left; reflexivity|].
    cbn [py_item]. rewrite Hrs, Hex.
    destruct (compare_score _) as [c|[]] eqn:Hc.
    + right; right. split; [|reflexivity].
      unfold compare_score in Hc.
      destruct (match lookup (py "score") gd with Some x => x | None => PyInt 0 end);
        congruence.
    + destruct (verdict_mark _) as [c|[]] eqn:Hv; [|left; reflexivity].
      right; right. split; [|reflexivity].
      unfold verdict_mark in Hv.
      destruct (is_str _ _); [discriminate|].
      destruct (py_in _ _); congruence.
  - right; left. split; [|split; [intros ->; discriminate|reflexivity]].
    unfold render_grading_results. run. rewrite Hg, Hq.
    destruct g; try discriminate; reflexivity.
Qed.

End Runs.

Section RunsOfSession.

Variable P : platform.

(** The panel on a session the application keeps. *)
Lemma render_main_content_ok (ui : widgets) (w : world) :
  session_ok (state w) ->
  let '(r, w') := render_main_content P ui w in
  session_ok (state w') /\
  same_selections (state w) (state w') /\
  current_question (state w') = current_question (state w) /\
  (forall c, r = Halted (Uncaught c) -> exception_explained P (state w) c).
Proof.
  intros Hok. pose proof Hok as (Hsel & q & g & a & Hq & Hg & Ha & Hqv & Hgv & Hqg).
  pose proof (session_ok_keys _ Hok) as (_ & _ & Hka & _ & _ & Hkl).
  rewrite render_main_content_blocks, Hq.
  assert (Hsame : same_selections (state w) (state w)) by (repeat split).
  destruct q as [|b|z|f|t|l|d].
  1: { split; [exact Hok|]. split; [exact Hsame|]. split; [exact Hq|].
       intros c [=]. }
  1-5: rewrite display_question_not_object by reflexivity; cbn [fst];
    (split; [exact Hok|]; split; [exact Hsame|]; split; [exact Hq|]);
    intros c [= <-]; left; (split; [reflexivity|]); eexists;
    (split; [left; exact Hq|]); (split; [discriminate|reflexivity]).
  assert (Hall : all_fields_in question_fields (PyDict d) = Some true)
    by (destruct Hqv as [[=]|H]; exact H).
  destruct (display_question_valid P d w Hall Hkl Hka) as [->|(Hrf & ->)];
    cbn [fst].
  2: { split; [exact Hok|]. split; [exact Hsame|]. split; [exact Hq|].
       intros c [= <-]. right; right. split; [reflexivity|].
       exists d. auto. }
  assert (Hres : forall w2,
            state w2 = state w \/ state w2 = state (answered ui w) ->
            session_ok (state w2) /\
            same_selections (state w) (state w2) /\
            current_question (state w2) = Some (PyDict d) /\
            (forall c, fst (display_results w2) = Halted (Uncaught c) ->
                       exception_explained P (state w) c)).
  { intros w2 Hw2.
    assert (Hq2 : current_question (state w2) = Some (PyDict d))
      by (destruct Hw2 as [->| ->]; exact Hq).
    assert (Hg2 : grading_result (state w2) = Some g)
      by (destruct Hw2 as [->| ->]; exact Hg).
    split; [destruct Hw2 as [->| ->]; [exact Hok|apply session_ok_answered, Hok]|].
    split; [destruct Hw2 as [->| ->]; repeat split|].
    split; [exact Hq2|].
    intros c Hc.
    destruct (display_results_outcome w2 d g Hq2 Hall Hg2)
      as [H|[(H & Hn & Hnd)|(H & Hgd)]]; rewrite H in Hc; try discriminate;
      injection Hc as <-.
    - left. split; [reflexivity|]. exists g. auto.
    - right; left. split; [reflexivity|].
      destruct g; try discriminate. eexists. exact Hg. }
  destruct (submit_clicked ui) eqn:Hs.
  2: { rewrite (handle_submission_idle P ui _ w Hs). apply Hres. left.
       reflexivity. }
  destruct (blank (sql_input ui)) eqn:Hb.
  1: { rewrite (handle_submission_blank P ui _ w Hs Hb). apply Hres. left.
       reflexivity. }
  destruct (valid_object_has_field _ d (py "question_text") Hall) as [qt Hqt];
    [left; reflexivity|].
  destruct (valid_object_has_field _ d (py "schema_description") Hall)
    as [sd Hsd]; [right; left; reflexivity|].
  destruct (valid_object_has_field _ d (py "reference_sql") Hall) as [rs Hrs];
    [right; right; left; reflexivity|].
  rewrite (handle_submission_object P ui w d qt sd rs Hs Hb Hqt Hsd Hrs).
  match goal with
  | |- context [grade_sql_answer P ?a ?b ?c ?u ?e ?f ?w0] =>
      pose proof (grade_cases P a b c u e f w0) as H;
      destruct (grade_sql_answer P a b c u e f w0) as [r1 w1]
  end.
  inversion H; subst; cbn [after_grading].
  - (* stopped for want of the credential *)
    split; [apply session_ok_answered, Hok|].
    split; [repeat split|]. split; [exact Hq|]. intros c [=].
  - (* a grading is stored *)
    rewrite (grading_fields_truthy v) by assumption.
    split.
    + apply (session_ok_graded v _ (PyDict d));
        [apply session_ok_answered, Hok|exact Hq|discriminate|assumption].
    + split; [repeat split|]. split; [exact Hq|]. intros c [=].
  - (* grading has failed *)
    cbn [truthy]. apply Hres. right. reflexivity.
Qed.

(** The button of the sidebar on a session that holds the selections. *)
Lemma generate_button_ok (ui : widgets) (s : session) (p : list event) :
  let '(r, w1) := generate_button P ui (mk_world (selected ui s) p) in
  (r = Done tt /\ state w1 = selected ui s) \/
  (r = Halted ScriptStop /\ state w1 = selected ui s) \/
  (r = Halted ScriptRerun /\
   exists v, all_fields_in question_fields v = Some true /\
             state w1 = with_new_question v (selected ui s)).
Proof.
  destruct (generate_clicked ui) eqn:Hc.
  2: { rewrite (generate_button_idle P ui _ Hc). left. auto. }
  rewrite (generate_button_selected P ui s p Hc).
  pose proof (generate_cases P (track_choice ui) (difficulty_choice ui)
                (dialect_choice ui) (mk_world (selected ui s) p)) as H.
  destruct (generate_sql_question _ _ _ _ _) as [r w1].
  inversion H; subst.
  - right; left. auto.
  - rewrite (question_fields_truthy v) by assumption.
    right; right. split; [reflexivity|]. exists v. auto.
  - left. auto.
Qed.

(** A run on a session the application keeps: the start and the
    selectors go through. *)
Lemma main_of_ok (ui : widgets) (s : session) (p : list event) :
  session_ok s ->
  main P ui (mk_world s p)
  = bind (generate_button P ui) (fun _ => render_main_content P ui)
      (mk_world (selected ui s) p).
Proof.
  intros Hok. unfold main. unfold bind at 1.
  rewrite (initialize_session_state_fixed (mk_world s p) (session_ok_keys s Hok)).
  unfold render_sidebar. unfold bind at 1 2.
  rewrite (select_options_ready ui (mk_world s p) (proj1 Hok)).
  unfold bind. reflexivity.
Qed.

Lemma main_of_empty (ui : widgets) (p : list event) :
  main P ui (mk_world Reference.empty_session p)
  = main P ui (mk_world Reference.fresh_session p).
Proof. reflexivity. Qed.

(** Everything the properties need to know about a run on a session the
    application keeps. *)
Lemma main_ok (ui : widgets) (s : session) (p : list event) :
  session_ok s -> valid_choices ui ->
  let '(r, w') := main P ui (mk_world s p) in
  session_ok (state w') /\
  same_selections (selected ui s) (state w') /\
  (forall c, r = Halted (Uncaught c) -> exception_explained P s c).
Proof.
  intros Hok Hv. rewrite (main_of_ok ui s p Hok). unfold bind.
  pose proof (session_ok_selected ui s Hv Hok) as Hok'.
  pose proof (generate_button_ok ui s p) as Hb.
  destruct (generate_button P ui (mk_world (selected ui s) p)) as [r1 w1].
  destruct Hb as [[-> Hst]|[[-> Hst]|(-> & v & Hall & Hst)]].
  - pose proof (render_main_content_ok ui w1) as Hp. rewrite Hst in Hp.
    specialize (Hp Hok').
    destruct (render_main_content P ui w1) as [r w'].
    destruct Hp as (Hok2 & Hsame & _ & Hexc).
    split; [exact Hok2|]. split; [exact Hsame|]. exact Hexc.
  - rewrite Hst. split; [exact Hok'|]. split; [repeat split|]. intros c [=].
  - rewrite Hst. split; [apply session_ok_new_question; assumption|].
    split; [repeat split|]. intros c [=].
Qed.

End RunsOfSession.

(* ================================================================== *)
(** ** Properties of a session over its runs *)
(* ================================================================== *)

Lemma valid_choices_idle : valid_choices Examples.idle.
Proof. repeat split; left; reflexivity. Qed.

Lemma valid_choices_generate_pressed : valid_choices Examples.generate_pressed.
Proof.
  repeat split.
  - right; left; reflexivity.
  - right; right; left; reflexivity.
  - right; left; reflexivity.
Qed.

Lemma valid_choices_submitted (a : pystr) : valid_choices (Examples.submitted a).
Proof. repeat split; left; reflexivity. Qed.

Lemma next_run_ok (P : platform) (ui : widgets) (s : session) :
  valid_choices ui -> session_ok s -> session_ok (next_run P ui s).
Proof.
  intros Hv Hok. unfold next_run.
  pose proof (main_ok P ui s [] Hok Hv) as H.
  destruct (main P ui (mk_world s [])) as [r w']. exact (proj1 H).
Qed.

Lemma session_after_ok (P : platform) (uis : list widgets) (s : session) :
  Forall valid_choices uis -> session_ok s ->
  session_ok (session_after P uis s).
Proof.
  revert s. induction uis as [|ui uis IH]; intros s Hv Hok; [exact Hok|].
  inversion Hv; subst. cbn [session_after fold_left].
  apply IH; [assumption|]. apply next_run_ok; assumption.
Qed.

(** X2: the application keeps its session in order.  Over any sequence
    of runs whose selector choices are options, starting from a session
    in order or, with one run at least, from the empty session Streamlit
    starts with: the six keys are there, the stored selections are
    options, the stored question and grading result are [None] or values
    that hold every required field, and a grading result is stored only
    with a question. *)
Theorem session_kept_in_order (P : platform) (uis : list widgets)
    (s : session) :
  Forall valid_choices uis ->
  session_ok s \/ (s = Reference.empty_session /\ uis <> []) ->
  session_ok (session_after P uis s) /\
  keys_present (session_after P uis s).
Proof.
  intros Hv Hs.
  assert (H : session_ok (session_after P uis s)).
  { destruct Hs as [Hok|[-> Hne]]; [apply session_after_ok; assumption|].
    destruct uis as [|ui uis]; [contradiction|]. inversion Hv; subst.
    cbn [session_after fold_left]. apply session_after_ok; [assumption|].
    unfold next_run. rewrite main_of_empty.
    apply (next_run_ok P ui Reference.fresh_session);
      [assumption|apply session_ok_fresh]. }
  split; [exact H|apply session_ok_keys, H].
Qed.

(** A first run, a generation that the model answers with the sample
    question, and a submission. *)
Lemma session_kept_in_order_witness :
  let s := session_after (Cases.answering Examples.sample_question_reply)
             [ Examples.idle; Examples.generate_pressed;
               Examples.submitted Examples.sample_answer ]
             Reference.empty_session in
  session_ok s /\ current_question s = Some Examples.sample_question.
Proof.
  intros s. split.
  - refine (proj1 (session_kept_in_order _ _ _ _ _)).
    + apply Forall_cons; [apply valid_choices_idle|].
      apply Forall_cons; [apply valid_choices_generate_pressed|].
      apply Forall_cons; [apply valid_choices_submitted|apply Forall_nil].
    + right. split; [reflexivity|discriminate].
  - vm_compute. reflexivity.
Defined.



(** X4: on a session in order, every run stores the three selections
    the user has made, however it ends: a generation that fails, a stop
    for want of the credential or an exception in the panel keep them. *)
Theorem selections_are_stored (P : platform) (ui : widgets) (s : session) :
  session_ok s -> valid_choices ui ->
  track (next_run P ui s) = Some (track_choice ui) /\
  difficulty (next_run P ui s) = Some (difficulty_choice ui) /\
  dialect (next_run P ui s) = Some (dialect_choice ui).
Proof.
  intros Hok Hv. unfold next_run.
  pose proof (main_ok P ui s [] Hok Hv) as H.
  destruct (main P ui (mk_world s [])) as [r w']. cbn [snd].
  destruct H as (_ & (Ht & Hd & Hl) & _). rewrite Ht, Hd, Hl. repeat split.
Qed.

(** The model cannot be reached; the selections are stored all the
    same. *)
Lemma selections_are_stored_witness :
  track (next_run Cases.unreachable Examples.generate_pressed
           Reference.fresh_session)
  = Some (py "Data Engineer-focused SQL").
Proof.
  exact (proj1 (selections_are_stored Cases.unreachable
                  Examples.generate_pressed Reference.fresh_session
                  session_ok_fresh valid_choices_generate_pressed)).
Defined.

(* ================================================================== *)
(** ** Accepted values the page cannot show *)
(* ================================================================== *)

(** X5: a stored question that is neither [None] nor an object -- a
    string or a list that has passed validation -- ends every run in an
    [AttributeError] at the first metric of the panel, before anything of
    the question is shown, unless the sidebar ends the run first: only the generate
    button, by a rerun with a new question or by a stop for want of the
    credential, gets past it. *)
Theorem question_not_object_breaks_the_panel (P : platform) (ui : widgets)
    (s : session) (p : list event) (q : pyval) :
  session_ok s -> valid_choices ui ->
  current_question s = Some q -> q <> PyNone -> is_dict q = false ->
  (generate_clicked ui = false ->
   main P ui (mk_world s p)
   = (Halted (Uncaught AttributeError), mk_world (selected ui s) p)) /\
  (fst (main P ui (mk_world s p)) = Halted (Uncaught AttributeError) \/
   generate_clicked ui = true /\
   (fst (main P ui (mk_world s p)) = Halted ScriptRerun \/
    fst (main P ui (mk_world s p)) = Halted ScriptStop)).
Proof.
  intros Hok Hv Hq Hn Hd. rewrite (main_of_ok P ui s p Hok). unfold bind.
  assert (Hpanel : forall w1, state w1 = selected ui s ->
            render_main_content P ui w1 = (Halted (Uncaught AttributeError), w1)).
  { intros w1 Hst.
    apply (render_main_content_not_object P ui w1 q); [|exact Hn|exact Hd].
    rewrite Hst. exact Hq. }
  split.
  - intros Hc. rewrite (generate_button_idle P ui _ Hc).
    apply Hpanel. reflexivity.
  - destruct (generate_clicked ui) eqn:Hc.
    + pose proof (generate_button_ok P ui s p) as Hb.
      destruct (generate_button P ui (mk_world (selected ui s) p)) as [r1 w1].
      destruct Hb as [[-> Hst]|[[-> Hst]|(-> & _)]].
      * left. rewrite (Hpanel w1 Hst). reflexivity.
      * right. split; [reflexivity|]. right. reflexivity.
      * right. split; [reflexivity|]. left. reflexivity.
    + left. rewrite (generate_button_idle P ui _ Hc).
      rewrite Hpanel by reflexivity. reflexivity.
Qed.

(** The model has answered with the string that names the four fields;
    the run that stores it, and the next one. *)
Lemma question_not_object_breaks_the_panel_witness :
  let P := Cases.answering Examples.naming_reply in
  next_run P Examples.generate_pressed Examples.asked_session
  = selected Examples.generate_pressed Cases.named_session /\
  main P Examples.idle (mk_world Cases.named_session [])
  = (Halted (Uncaught AttributeError),
     mk_world (selected Examples.idle Cases.named_session) []).
Proof.
  intros P. split; [vm_compute; reflexivity|].
  refine (proj1 (question_not_object_breaks_the_panel P Examples.idle
                   Cases.named_session [] Examples.naming_string
                   _ valid_choices_idle eq_refl _ eq_refl) eq_refl).
  - split.
    + exists Examples.analytics, Examples.beginner, Examples.postgres.
      repeat split; left; reflexivity.
    + exists Examples.naming_string, PyNone, [].
      split; [reflexivity|]. split; [reflexivity|]. split; [reflexivity|].
      split; [right; vm_compute; reflexivity|].
      split; [left; reflexivity|]. intros _. reflexivity.
  - discriminate.
Defined.

(** X6: a stored grading result whose score is not a number -- a
    string, [None], a list or an object, all of which validation lets
    through -- ends every run in which neither button is pressed in a
    [TypeError] at the comparison of the score, once the question, whose
    track and difficulty the metrics take, and the answer box are on the
    page and before any score is shown. *)
Theorem score_not_number_breaks_the_results (P : platform) (ui : widgets)
    (s : session) (p : list event) (d gd : list (pystr * pyval))
    (score : pyval) :
  session_ok s -> valid_choices ui ->
  current_question s = Some (PyDict d) ->
  metric_field d (py "track") -> metric_field d (py "difficulty") ->
  grading_result s = Some (PyDict gd) ->
  lookup (py "score") gd = Some score -> is_number score = false ->
  generate_clicked ui = false -> submit_clicked ui = false ->
  main P ui (mk_world s p)
  = (Halted (Uncaught TypeError), mk_world (selected ui s) p).
Proof.
  intros Hok Hv Hq Ht Hdf Hg Hs Hn Hgen Hsub.
  rewrite (main_of_ok P ui s p Hok). unfold bind.
  rewrite (generate_button_idle P ui _ Hgen).
  set (w := mk_world (selected ui s) p).
  pose proof (session_ok_selected ui s Hv Hok) as Hok'.
  pose proof (session_ok_keys _ Hok') as (_ & _ & Hka & _ & _ & Hkl).
  assert (Hall : all_fields_in question_fields (PyDict d) = Some true).
  { destruct Hok as (_ & q0 & g0 & a0 & Hq0 & _ & _ & Hqv & _).
    rewrite Hq in Hq0. injection Hq0 as <-.
    destruct Hqv as [[=]|H]; exact H. }
  rewrite render_main_content_blocks.
  change (current_question (state w)) with (current_question s). rewrite Hq.
  rewrite (display_question_accepted P d w Hall Ht Hdf Hkl Hka). cbn [fst].
  rewrite (handle_submission_idle P ui _ w Hsub).
  assert (Hne : gd <> []) by (intros ->; discriminate).
  rewrite (display_results_bad_score w gd (PyDict d) score Hg Hne Hq Hs Hn).
  reflexivity.
Qed.

(** The grading whose score is the string [high] has been stored for the
    sample question; the next run. *)
Lemma score_not_number_breaks_the_results_witness :
  let P := Cases.answering Examples.hollow_grading_reply in
  next_run P (Examples.submitted Examples.sample_answer) Examples.asked_session
  = Cases.hollow_session /\
  main P Examples.idle (mk_world Cases.hollow_session [])
  = (Halted (Uncaught TypeError),
     mk_world (selected Examples.idle Cases.hollow_session) []).
Proof.
  intros P. split; [vm_compute; reflexivity|].
  refine (score_not_number_breaks_the_results P Examples.idle
            Cases.hollow_session [] _ _ (PyStr (py "high"))
            _ valid_choices_idle eq_refl _ _ eq_refl _ eq_refl eq_refl
            eq_refl).
  - split.
    + exists Examples.analytics, Examples.beginner, Examples.postgres.
      repeat split; left; reflexivity.
    + exists Examples.sample_question, Examples.hollow_grading,
        Examples.sample_answer.
      split; [reflexivity|]. split; [reflexivity|]. split; [reflexivity|].
      split; [right; vm_compute; reflexivity|].
      split; [right; vm_compute; reflexivity|]. intros [=].
  - intros v Hv. vm_compute in Hv. injection Hv as <-. reflexivity.
  - intros v Hv. vm_compute in Hv. injection Hv as <-. reflexivity.
  - vm_compute. reflexivity.
Defined.

Lemma display_question_refused (P : platform) (d : list (pystr * pyval))
    (w : world) :
  metric_refused d ->
  display_question P (PyDict d) w = (Halted (Uncaught (metric_error P)), w).
Proof.
  intros (k & v & Hk & Hv & Hr). unfold display_question. run.
  cbn [py_get]. unfold st_metric.
  destruct Hk as [-> | ->].
  - rewrite Hv, Hr. reflexivity.
  - destruct (metric_accepts
                (match lookup (py "track") d with
                 | Some x => x
                 | None => PyStr (py "N/A")
                 end)); [|reflexivity].
    rewrite Hv, Hr. reflexivity.
Qed.

(** X14: a stored question that is an object whose track or difficulty
    is a list or an object -- validation does not look at them -- ends
    every run in which the generate button is not pressed in the
    exception of [st.metric], before the question and the answer box are
    shown: no message is put on the page, no answer is taken or stored
    and the model is not called, whether the submit button is pressed or
    not. *)
Theorem metric_value_breaks_the_panel (P : platform) (ui : widgets)
    (s : session) (p : list event) (d : list (pystr * pyval)) :
  session_ok s -> valid_choices ui ->
  current_question s = Some (PyDict d) -> metric_refused d ->
  generate_clicked ui = false ->
  main P ui (mk_world s p)
  = (Halted (Uncaught (metric_error P)), mk_world (selected ui s) p).
Proof.
  intros Hok Hv Hq Hr Hgen.
  rewrite (main_of_ok P ui s p Hok). unfold bind.
  rewrite (generate_button_idle P ui _ Hgen).
  rewrite render_main_content_blocks.
  change (current_question (state (mk_world (selected ui s) p)))
    with (current_question s).
  rewrite Hq, (display_question_refused P d _ Hr). reflexivity.
Qed.

(** The model has answered with a question whose track is a list; the
    run that stores it, and the next one, in which an answer is
    submitted. *)
Lemma metric_value_breaks_the_panel_witness :
  let P := Cases.answering Cases.listed_reply in
  let ui := Examples.submitted Examples.sample_answer in
  next_run P Examples.generate_pressed Examples.asked_session
  = selected Examples.generate_pressed Cases.listed_session /\
  main P ui (mk_world Cases.listed_session [])
  = (Halted (Uncaught (metric_error P)),
     mk_world (selected ui Cases.listed_session) []).
Proof.
  intros P ui. split; [vm_compute; reflexivity|].
  refine (metric_value_breaks_the_panel P ui Cases.listed_session [] _
            _ (valid_choices_submitted _) eq_refl _ eq_refl).
  - split.
    + exists Examples.analytics, Examples.beginner, Examples.postgres.
      repeat split; left; reflexivity.
    + exists Cases.listed_question, PyNone, [].
      split; [reflexivity|]. split; [reflexivity|]. split; [reflexivity|].
      split; [right; vm_compute; reflexivity|].
      split; [left; reflexivity|]. intros [=].
  - exists (py "track"), (PyList [PyStr (py "Analytics")]).
    split; [left; reflexivity|]. split; vm_compute; reflexivity.
Defined.

(* ================================================================== *)
(** ** When the model service fails *)
(* ================================================================== *)

Section ServiceFailure.

Variable P : platform.
Hypothesis key_present : key_missing (api_key P) = false.

Lemma operation_no_reply (req : request) (fields : list pystr)
    (missing parse_failed other_failed : pystr) (e : exn) (w : world) :
  messages_create P (client_of P) req = Raise e ->
  bind (get_claude_client P)
    (fun client =>
       call_model P client req fields missing parse_failed other_failed) w
  = (Done PyNone,
     shown w (MessagesCreate (client_of P) req ::
              match exn_kind e with
              | JSONDecodeError =>
                  [ StError (cross_mark ++ parse_failed ++ exn_text e);
                    StWrite (py "Raw response:") (py "No response") ]
              | _ => [ StError (cross_mark ++ other_failed ++ exn_text e) ]
              end)).
Proof.
  intros Hm. unfold bind.
  rewrite (get_claude_client_present P w key_present).
  exact (call_model_no_reply P _ _ fields missing parse_failed other_failed
           w e Hm).
Qed.

End ServiceFailure.

(** X7: with the credential present, an exception of the call to the
    model -- a network or service error -- is caught: the operation
    returns [None] after one call and one error message that ends in the
    text of the exception; a [JSONDecodeError] raised by the call itself
    is reported as a parse failure with [No response] in place of the
    reply.  Nothing is retried; in the sidebar the question, the grading
    result and the answer stay as they were and there is no rerun. *)
Theorem service_failure_is_reported (P : platform) (e : exn) :
  key_missing (api_key P) = false ->
  (forall track difficulty dialect w,
     messages_create P (client_of P)
       (generate_request P track difficulty dialect) = Raise e ->
     generate_sql_question P track difficulty dialect w
     = (Done PyNone,
        shown w (MessagesCreate (client_of P)
                   (generate_request P track difficulty dialect) ::
                 match exn_kind e with
                 | JSONDecodeError =>
                     [ StError (cross_mark
                                ++ py " Failed to parse Claude response as JSON: "
                                ++ exn_text e);
                       StWrite (py "Raw response:") (py "No response") ]
                 | _ => [ StError (cross_mark
                                   ++ py " Error generating question: "
                                   ++ exn_text e) ]
                 end))) /\
  (forall question_text schema_description reference_sql user_sql
          difficulty track w,
     messages_create P (client_of P)
       (grade_request P question_text schema_description reference_sql
          user_sql difficulty track) = Raise e ->
     grade_sql_answer P question_text schema_description reference_sql
       user_sql difficulty track w
     = (Done PyNone,
        shown w (MessagesCreate (client_of P)
                   (grade_request P question_text schema_description
                      reference_sql user_sql difficulty track) ::
                 match exn_kind e with
                 | JSONDecodeError =>
                     [ StError (cross_mark
                                ++ py " Failed to parse grading response as JSON: "
                                ++ exn_text e);
                       StWrite (py "Raw response:") (py "No response") ]
                 | _ => [ StError (cross_mark ++ py " Error grading answer: "
                                   ++ exn_text e) ]
                 end))) /\
  (forall ui w,
     messages_create P (client_of P)
       (generate_request P (track_choice ui) (difficulty_choice ui)
          (dialect_choice ui)) = Raise e ->
     fst (render_sidebar P ui w) <> Halted ScriptRerun /\
     same_answers (state w) (state (snd (render_sidebar P ui w)))).
Proof.
  intros Hk. split; [|split].
  - intros track difficulty dialect w Hm.
    exact (operation_no_reply P Hk _ _ _ _ _ e w Hm).
  - intros qt sd rs us df tr w Hm.
    exact (operation_no_reply P Hk _ _ _ _ _ e w Hm).
  - intros ui w Hm.
    assert (Hno : fst (render_sidebar P ui w) <> Halted ScriptRerun).
    { apply render_sidebar_rejected. intros reply Hr. congruence. }
    split; [exact Hno|]. apply render_sidebar_frame, Hno.
Qed.

(** The service cannot be reached while a graded question is shown. *)
Lemma service_failure_is_reported_witness :
  generate_sql_question Cases.unreachable Examples.analytics
    Examples.beginner Examples.postgres Examples.fresh_world
  = (Done PyNone,
     shown Examples.fresh_world
       [ MessagesCreate (client_of Cases.unreachable)
           (generate_request Cases.unreachable Examples.analytics
              Examples.beginner Examples.postgres);
         StError (cross_mark ++ py " Error generating question: "
                  ++ py "Connection error.") ]) /\
  same_answers (state Examples.graded_world)
    (state (snd (render_sidebar Cases.unreachable Examples.generate_pressed
                   Examples.graded_world))).
Proof.
  assert (Hk : key_missing (api_key Cases.unreachable) = false)
    by (vm_compute; reflexivity).
  destruct (service_failure_is_reported Cases.unreachable
              (mk_exn OtherError (py "Connection error.")) Hk)
    as (Hgen & _ & Hside).
  split.
  - apply Hgen. reflexivity.
  - apply Hside. reflexivity.
Defined.

(* ================================================================== *)
(** ** One call at most *)
(* ================================================================== *)

Lemma filter_no_call (es : list event) :
  Forall (fun e => is_model_call e = false) es -> filter is_model_call es = [].
Proof.
  induction 1 as [|e es He _ IH]; [reflexivity|].
  cbn [filter]. rewrite He. exact IH.
Qed.

(** The calls an operation adds. *)
Lemma operation_calls (P : platform) (req : request) (fields : list pystr)
    (w w1 : world) (r : outcome pyval) :
  operation_result P req fields w (r, w1) ->
  model_calls w1
  = model_calls w
    ++ (if key_missing (api_key P) then []
        else [MessagesCreate (client_of P) req]).
Proof.
  intros H. inversion H as [Hk|reply v Hk|msg rest Hk Hrest]; subst;
    rewrite Hk, model_calls_shown; cbn [filter is_model_call];
    try reflexivity.
  rewrite (filter_no_call rest Hrest). reflexivity.
Qed.

Section CallCount.

Variable P : platform.

Lemma render_sidebar_calls (ui : widgets) (w : world) :
  (List.length (model_calls (snd (render_sidebar P ui w)))
   <= List.length (model_calls w) + pressed (generate_clicked ui))%nat.
Proof.
  unfold render_sidebar, bind.
  destruct (select_options_cases ui w) as [->|(c & s' & -> & _)];
    [|cbn [snd]; unfold model_calls; cbn [page]; lia].
  destruct (generate_clicked ui) eqn:Hc;
    [|rewrite (generate_button_idle P ui _ Hc); cbn [snd];
      unfold model_calls; cbn [page pressed]; lia].
  rewrite (generate_button_selected P ui _ _ Hc).
  pose proof (generate_cases P (track_choice ui) (difficulty_choice ui)
                (dialect_choice ui) (mk_world (selected ui (state w)) (page w)))
    as H.
  destruct (generate_sql_question _ _ _ _ _) as [r w1].
  pose proof (operation_calls P _ _ _ _ _ H) as Hcalls.
  assert (Hlen : (List.length (model_calls w1)
                  <= List.length (model_calls w) + 1)%nat).
  { rewrite Hcalls, length_app.
    change (model_calls (mk_world (selected ui (state w)) (page w)))
      with (model_calls w).
    destruct (key_missing (api_key P)); cbn [List.length]; lia. }
  destruct r as [q|c]; [destruct (truthy q)|]; cbn [snd pressed];
    rewrite ?model_calls_shown, ?length_app; unfold success_message;
    cbn [filter is_model_call List.length];
    unfold model_calls in *; cbn [page] in *; lia.
Qed.

Lemma render_main_content_calls (ui : widgets) (w : world) :
  (List.length (model_calls (snd (render_main_content P ui w)))
   <= List.length (model_calls w) + pressed (submit_clicked ui))%nat.
Proof.
  rewrite render_main_content_blocks.
  destruct (current_question (state w)) as [q|]; [|cbn [snd]; lia].
  assert (H : forall q0,
    (List.length
       (model_calls
          (snd (match fst (display_question P q0 w) with
                | Halted c => (Halted c, w)
                | Done _ =>
                    match handle_submission P ui q0 w with
                    | (Halted c, w1) => (Halted c, w1)
                    | (Done _, w1) => (fst (display_results w1), w1)
                    end
                end)))
     <= List.length (model_calls w) + pressed (submit_clicked ui))%nat).
  { intros q0. destruct (fst (display_question P q0 w)); [|cbn [snd]; lia].
    assert (Hh : (List.length (model_calls (snd (handle_submission P ui q0 w)))
                  <= List.length (model_calls w)
                     + pressed (submit_clicked ui))%nat).
    { destruct (submit_clicked ui) eqn:Hs;
        [|rewrite (handle_submission_idle P ui q0 w Hs); cbn [snd]; lia].
      destruct (blank (sql_input ui)) eqn:Hb.
      - rewrite (handle_submission_blank P ui q0 w Hs Hb). cbn [snd].
        rewrite model_calls_shown, length_app. cbn. lia.
      - destruct (handle_submission_graded P ui q0 w Hs Hb)
          as [(c & ->)|(req & r & w1 & H & ->)].
        + cbn [snd]. unfold answered, model_calls. cbn [page pressed]. lia.
        + pose proof (operation_calls P _ _ _ _ _ H) as Hcalls.
          assert (Hlen : (List.length (model_calls w1)
                          <= List.length (model_calls w) + 1)%nat).
          { rewrite Hcalls, length_app.
            change (model_calls (answered ui w)) with (model_calls w).
            destruct (key_missing (api_key P)); cbn [List.length]; lia. }
          destruct r as [g|c]; cbn [after_grading];
            [destruct (truthy g)|]; cbn [snd pressed];
            unfold model_calls in *; cbn [page] in *; lia. }
    destruct (handle_submission P ui q0 w) as [[[]|c] w1]; exact Hh. }
  destruct q; try apply H.
  cbn [snd]. rewrite model_calls_shown, length_app. cbn. lia.
Qed.

End CallCount.

(** X8: nothing is retried.  With the credential present each
    operation calls the model exactly once, whatever the reply; and a run
    of the page adds at most one call for each button that is pressed, so
    none when none is. *)
Theorem one_call_per_button (P : platform) :
  (forall track difficulty dialect w,
     model_calls (snd (generate_sql_question P track difficulty dialect w))
     = model_calls w
       ++ (if key_missing (api_key P) then []
           else [MessagesCreate (client_of P)
                   (generate_request P track difficulty dialect)])) /\
  (forall question_text schema_description reference_sql user_sql
          difficulty track w,
     model_calls (snd (grade_sql_answer P question_text schema_description
                         reference_sql user_sql difficulty track w))
     = model_calls w
       ++ (if key_missing (api_key P) then []
           else [MessagesCreate (client_of P)
                   (grade_request P question_text schema_description
                      reference_sql user_sql difficulty track)])) /\
  (forall ui w,
     (List.length (model_calls (snd (main P ui w)))
      <= List.length (model_calls w) + pressed (generate_clicked ui)
         + pressed (submit_clicked ui))%nat).
Proof.
  split; [|split].
  - intros track difficulty dialect w.
    pose proof (generate_cases P track difficulty dialect w) as H.
    destruct (generate_sql_question P track difficulty dialect w) as [r w1].
    exact (operation_calls P _ _ _ _ _ H).
  - intros qt sd rs us df tr w.
    pose proof (grade_cases P qt sd rs us df tr w) as H.
    destruct (grade_sql_answer P qt sd rs us df tr w) as [r w1].
    exact (operation_calls P _ _ _ _ _ H).
  - intros ui w. unfold main. unfold bind at 1.
    destruct (initialize_session_state_page w) as [s ->].
    change (model_calls w) with (model_calls (mk_world s (page w))).
    generalize (mk_world s (page w)). clear w s. intros w. unfold bind.
    pose proof (render_sidebar_calls P ui w) as Hside.
    destruct (render_sidebar P ui w) as [[[]|c] w1]; cbn [snd] in *; [|lia].
    pose proof (render_main_content_calls P ui w1) as Hmain. lia.
Qed.

(* ================================================================== *)
(** ** A grading that succeeds, and a page without a question *)
(* ================================================================== *)

(** X9: when an answer that holds a character other than whitespace is
    submitted for a question that is an object, with a track and a
    difficulty the metrics take so that the page has its answer box,
    grading is called with the question's text, schema and reference
    solution, with the answer, and with the question's difficulty and
    track or, where the question has none, [Intermediate] and
    [Analytics]; and when grading returns a value other than [None], that
    value is stored as the grading result beside the submitted answer, the
    question stays, and the run ends in a rerun. *)
Theorem grading_is_stored (P : platform) (ui : widgets) (w w1 : world)
    (d : list (pystr * pyval)) (qt sd rs g : pyval) :
  current_question (state w) = Some (PyDict d) ->
  metric_field d (py "track") -> metric_field d (py "difficulty") ->
  lookup (py "question_text") d = Some qt ->
  lookup (py "schema_description") d = Some sd ->
  lookup (py "reference_sql") d = Some rs ->
  dialect (state w) <> None -> user_answer (state w) <> None ->
  submit_clicked ui = true ->
  (exists c, In c (sql_input ui) /\ is_space c = false) ->
  grade_sql_answer P qt sd rs (sql_input ui)
    (match lookup (py "difficulty") d with
     | Some x => x
     | None => PyStr (py "Intermediate")
     end)
    (match lookup (py "track") d with
     | Some x => x
     | None => PyStr (py "Analytics")
     end)
    (answered ui w) = (Done g, w1) ->
  g <> PyNone ->
  render_main_content P ui w
  = (Halted ScriptRerun,
     mk_world (set_grading_result g (set_user_answer (sql_input ui) (state w)))
       (page w1)).
Proof.
  intros Hq Ht Hdf Hqt Hsd Hrs Hl Ha Hs (c & Hin & Hc) Hgrade Hg.
  pose proof (not_blank _ c Hin Hc) as Hb.
  assert (Hbox : answer_box_shown (state w)).
  { destruct (dialect (state w)) as [l|] eqn:El; [|contradiction].
    destruct (user_answer (state w)) as [a|] eqn:Ea; [|contradiction].
    exists d, qt, sd, l, a. repeat split; assumption. }
  rewrite render_main_content_blocks, Hq.
  rewrite (display_question_done P w d Hbox Hq). cbn [fst].
  rewrite (handle_submission_object P ui w d qt sd rs Hs Hb Hqt Hsd Hrs).
  pose proof (grade_cases P qt sd rs (sql_input ui)
                (match lookup (py "difficulty") d with
                 | Some x => x
                 | None => PyStr (py "Intermediate")
                 end)
                (match lookup (py "track") d with
                 | Some x => x
                 | None => PyStr (py "Analytics")
                 end)
                (answered ui w)) as H.
  rewrite Hgrade in *. cbn [after_grading].
  rewrite (operation_value_truthy P _ _ _ _ g grading_fields_truthy H Hg).
  rewrite (operation_state P _ _ _ _ _ H). reflexivity.
Qed.

(** The sample answer is submitted for the sample question and the
    model answers with the sample grading. *)
Lemma grading_is_stored_witness :
  let P := Cases.answering Examples.sample_grading_reply in
  let run := render_main_content P (Examples.submitted Examples.sample_answer)
               Examples.asked_world in
  fst run = Halted ScriptRerun /\
  grading_result (state (snd run)) = Some Examples.sample_grading /\
  user_answer (state (snd run)) = Some Examples.sample_answer /\
  current_question (state (snd run)) = Some Examples.sample_question.
Proof.
  intros P run.
  pose (qt := PyStr (py "Count the orders of each customer.")).
  pose (sd := PyStr (py "orders(id, customer_id, total)")).
  pose (rs := PyStr (py "SELECT customer_id, COUNT(*) FROM orders GROUP BY customer_id;")).
  pose (w1 := shown (answered (Examples.submitted Examples.sample_answer)
                       Examples.asked_world)
                [MessagesCreate Reference.test_key
                   (grade_request P qt sd rs Examples.sample_answer
                      (PyStr Examples.beginner) (PyStr Examples.analytics))]).
  assert (H : run
              = (Halted ScriptRerun,
                 mk_world (set_grading_result Examples.sample_grading
                             (set_user_answer Examples.sample_answer
                                Examples.asked_session))
                   (page w1))).
  { apply (grading_is_stored P (Examples.submitted Examples.sample_answer)
             Examples.asked_world w1 _ qt sd rs Examples.sample_grading
             eq_refl).
    - intros v Hv. vm_compute in Hv. injection Hv as <-. reflexivity.
    - intros v Hv. vm_compute in Hv. injection Hv as <-. reflexivity.
    - vm_compute. reflexivity.
    - vm_compute. reflexivity.
    - vm_compute. reflexivity.
    - discriminate.
    - discriminate.
    - reflexivity.
    - exists 83%N. split; [left; reflexivity|reflexivity].
    - vm_compute. reflexivity.
    - discriminate. }
  rewrite H. repeat split.
Defined.

Lemma main_initialized (P : platform) (ui : widgets) (s : session)
    (p : list event) :
  main P ui (mk_world s p) = main P ui (mk_world (initialized s) p).
Proof.
  unfold main, initialized. unfold bind at 1 3.
  unfold initialize_session_state at 1 3. unfold modify. cbn [state page snd].
  destruct s as [q g a t d l]. cbn. rewrite !default_idempotent. reflexivity.
Qed.

(** X10: while no question is stored, a run in which the generate
    button is not pressed shows the hint to get started and nothing else:
    it calls the model not at all and stores nothing but the defaults of
    the keys that were absent and the selections, whether the submit
    button is pressed or not.  So it is with the first run of a session,
    which finds no key at all. *)
Theorem page_without_question (P : platform) (ui : widgets) (s : session)
    (p : list event) :
  session_ok (initialized s) ->
  current_question (initialized s) = Some PyNone ->
  generate_clicked ui = false ->
  main P ui (mk_world s p)
  = (Done tt,
     mk_world (selected ui (initialized s)) (p ++ [start_message])).
Proof.
  intros Hok Hq Hc. rewrite main_initialized.
  rewrite (main_of_ok P ui _ p Hok). unfold bind.
  rewrite (generate_button_idle P ui _ Hc).
  rewrite render_main_content_blocks.
  change (current_question (state (mk_world (selected ui (initialized s)) p)))
    with (current_question (initialized s)).
  rewrite Hq. reflexivity.
Qed.

(** The first run of a session, with the submit button pressed. *)
Lemma page_without_question_witness :
  main (Cases.answering Examples.sample_grading_reply)
    (Examples.submitted Examples.sample_answer)
    (mk_world Reference.empty_session [])
  = (Done tt,
     mk_world (selected (Examples.submitted Examples.sample_answer)
                 Reference.fresh_session)
       [start_message]).
Proof.
  exact (page_without_question
           (Cases.answering Examples.sample_grading_reply)
           (Examples.submitted Examples.sample_answer)
           Reference.empty_session [] session_ok_fresh eq_refl eq_refl).
Defined.

(* ================================================================== *)
(** ** The text that is decoded, and the answers that are refused *)
(* ================================================================== *)

Lemma lstrip_suffix (s : pystr) : exists a, s = a ++ lstrip s.
Proof.
  induction s as [|c s [a IH]]; [exists []; reflexivity|].
  cbn [lstrip]. destruct (is_space c).
  - exists (c :: a). cbn [app]. rewrite <- IH. reflexivity.
  - exists []. reflexivity.
Qed.

Lemma rstrip_prefix (s : pystr) : exists b, s = rstrip s ++ b.
Proof.
  unfold rstrip. destruct (lstrip_suffix (rev s)) as [a Ha].
  exists (rev a). rewrite <- rev_app_distr, <- Ha, rev_involutive. reflexivity.
Qed.

Lemma lstrip_head (s t : pystr) (c : codepoint) :
  lstrip s = c :: t -> is_space c = false.
Proof.
  induction s as [|d s IH]; [discriminate|].
  cbn [lstrip]. destruct (is_space d) eqn:Hd; [exact IH|].
  intros [= <- _]. exact Hd.
Qed.

Lemma lstrip_idempotent (s : pystr) : lstrip (lstrip s) = lstrip s.
Proof.
  destruct (lstrip s) as [|c t] eqn:E; [reflexivity|].
  cbn [lstrip]. rewrite (lstrip_head s t c E). reflexivity.
Qed.

Lemma lstrip_nil (s : pystr) : lstrip s = [] -> forallb is_space s = true.
Proof.
  induction s as [|c s IH]; [reflexivity|].
  cbn [lstrip forallb]. destruct (is_space c); [exact IH|discriminate].
Qed.

Lemma rstrip_cons (t : pystr) (c : codepoint) :
  is_space c = false -> rstrip (c :: t) = c :: rstrip t.
Proof.
  intros Hc. unfold rstrip. cbn [rev].
  rewrite (lstrip_before (rev t) [] c Hc), rev_app_distr. reflexivity.
Qed.

Lemma rstrip_idempotent (s : pystr) : rstrip (rstrip s) = rstrip s.
Proof.
  unfold rstrip. rewrite rev_involutive, lstrip_idempotent. reflexivity.
Qed.

Lemma lstrip_strip (s : pystr) : lstrip (strip s) = strip s.
Proof.
  unfold strip. destruct (lstrip s) as [|c t] eqn:E; [reflexivity|].
  pose proof (lstrip_head s t c E) as Hc.
  rewrite (rstrip_cons t c Hc). cbn [lstrip]. rewrite Hc. reflexivity.
Qed.

Lemma strip_idempotent (s : pystr) : strip (strip s) = strip s.
Proof.
  unfold strip at 1. rewrite lstrip_strip. unfold strip.
  apply rstrip_idempotent.
Qed.

Lemma strip_nil (s : pystr) : strip s = [] -> forallb is_space s = true.
Proof.
  intros H. apply lstrip_nil. unfold strip in H.
  destruct (lstrip s) as [|c t] eqn:E; [reflexivity|].
  rewrite (rstrip_cons t c (lstrip_head s t c E)) in H. discriminate.
Qed.

Lemma strip_infix (s : pystr) : exists a b, s = a ++ strip s ++ b.
Proof.
  destruct (lstrip_suffix s) as [a Ha].
  destruct (rstrip_prefix (lstrip s)) as [b Hb].
  exists a, b. unfold strip. rewrite <- Hb. exact Ha.
Qed.

Lemma slice_infix (s : pystr) (i j : Z) :
  exists a b, s = a ++ slice s i j ++ b.
Proof.
  unfold slice.
  set (m := Z.to_nat (slice_bound (Z.of_nat (List.length s)) i)).
  set (n := Z.to_nat (slice_bound (Z.of_nat (List.length s)) j
                      - slice_bound (Z.of_nat (List.length s)) i)).
  exists (firstn m s), (skipn n (skipn m s)).
  rewrite (firstn_skipn n (skipn m s)). symmetry. apply firstn_skipn.
Qed.

Lemma extract_json_infix (reply : pystr) :
  exists a b, reply = a ++ extract_json reply ++ b.
Proof.
  destruct (strip_infix reply) as (a & b & Hs).
  unfold extract_json.
  destruct (negb _ && negb _).
  - destruct (slice_infix (strip reply) (find (strip reply) lbrace)
                (rfind (strip reply) rbrace + 1)) as (a' & b' & Hsl).
    exists (a ++ a'), (b' ++ b). rewrite Hs at 1. rewrite Hsl at 1.
    rewrite <- !app_assoc. reflexivity.
  - exists a, b. exact Hs.
Qed.

Lemma in_dec_codepoint (c : codepoint) (s : pystr) : {In c s} + {~ In c s}.
Proof. apply in_dec, N.eq_dec. Qed.

(** What the extraction gives: the stripped reply when a brace is
    missing, and else nothing at all or a text from a brace to a brace. *)
Lemma extract_json_shape (reply : pystr) :
  (extract_json reply = strip reply /\
   (~ In open_brace (strip reply) \/ ~ In close_brace (strip reply))) \/
  extract_json reply = [] \/
  exists body, extract_json reply = open_brace :: body ++ [close_brace].
Proof.
  destruct (in_dec_codepoint open_brace reply) as [Ho|Ho].
  2: { left. split; [apply extract_json_whole; left; exact Ho|].
       left. intros H. apply Ho, strip_incl, H. }
  destruct (in_dec_codepoint close_brace reply) as [Hc|Hc].
  2: { left. split; [apply extract_json_whole; right; exact Hc|].
       right. intros H. apply Hc, strip_incl, H. }
  right.
  apply (strip_keeps _ _ (proj1 brace_not_space)) in Ho.
  apply (strip_keeps _ _ (proj2 brace_not_space)) in Hc.
  destruct (first_occurrence _ _ Ho) as (pre1 & rest1 & E1 & H1).
  destruct (last_occurrence _ _ Hc) as (pre2 & post2 & E2 & H2).
  rewrite (extract_json_slice reply pre1 rest1 pre2 post2 E1 H1 E2 H2).
  assert (E : pre1 ++ open_brace :: rest1 = pre2 ++ close_brace :: post2)
    by congruence.
  apply app_eq_app in E.
  destruct E as (l & [[Ep El]|[Ep El]]).
  - (* the last closing brace stands before the first opening one *)
    left. destruct l as [|x l].
    + rewrite app_nil_r in Ep. cbn [app] in El. injection El as Hx _.
      discriminate.
    + replace (S (List.length pre2) - List.length pre1)%nat with 0%nat
        by (rewrite Ep, length_app; cbn [List.length]; lia).
      reflexivity.
  - (* the first opening brace stands before the last closing one *)
    right. destruct l as [|x l].
    + rewrite app_nil_r in Ep. cbn [app] in El. injection El as Hx _.
      discriminate.
    + cbn [app] in El. injection El as <- El. exists l.
      rewrite E2, Ep. rewrite <- app_assoc. cbn [app].
      rewrite skipn_app, skipn_all, Nat.sub_diag. cbn [app skipn].
      rewrite length_app. cbn [List.length].
      replace (S (List.length pre1 + S (List.length l)) - List.length pre1)%nat
        with (List.length (open_brace :: l ++ [close_brace]))
        by (cbn [List.length]; rewrite length_app; cbn [List.length]; lia).
      replace (open_brace :: l ++ close_brace :: post2)
        with ((open_brace :: l ++ [close_brace]) ++ post2)
        by (cbn [app]; rewrite <- app_assoc; reflexivity).
      rewrite firstn_app, Nat.sub_diag, firstn_all. cbn [firstn].
      apply app_nil_r.
Qed.

(** X11: what is handed to [json.loads] is a contiguous part of the
    reply, nothing added and nothing reordered; it has no whitespace at
    either end; and extracting from it again gives the same text, so a
    reply that is cut once is not cut further. *)
Theorem extraction_is_a_part_of_the_reply (reply : pystr) :
  (exists before after, reply = before ++ extract_json reply ++ after) /\
  strip (extract_json reply) = extract_json reply /\
  extract_json (extract_json reply) = extract_json reply.
Proof.
  split; [apply extract_json_infix|].
  destruct (extract_json_shape reply) as [[E Hno]|[E|[body E]]]; rewrite E.
  - split; [apply strip_idempotent|].
    rewrite extract_json_whole, strip_idempotent; [reflexivity|exact Hno].
  - split; reflexivity.
  - split.
    + exact (strip_around [] body []).
    + exact (extract_json_commentary [] body [] (fun H => H) (fun H => H)).
Qed.

(* ================================================================== *)
(** ** What the requests carry *)
(* ================================================================== *)

Lemma starts_with_app (x b : pystr) : starts_with x (x ++ b) = true.
Proof.
  induction x as [|c x IH]; [reflexivity|].
  cbn [app starts_with]. rewrite N.eqb_refl. exact IH.
Qed.

Lemma find_from_bound (sub s : pystr) (i : Z) :
  find_from sub s i = -1 \/ i <= find_from sub s i.
Proof.
  revert i. induction s as [|c s IH]; intros i; cbn [find_from].
  - destruct (starts_with sub []); [right; lia|left; reflexivity].
  - destruct (starts_with sub (c :: s)); [right; lia|].
    destruct (IH (i + 1)) as [H|H]; [left; exact H|right; lia].
Qed.

Lemma find_from_found (x a b : pystr) (i : Z) :
  0 <= i -> 0 <= find_from x (a ++ x ++ b) i.
Proof.
  revert i. induction a as [|c a IH]; intros i Hi.
  - cbn [app]. destruct b as [|d b], x as [|e x]; cbn [find_from app];
      try rewrite app_nil_r; try exact Hi.
    + replace (e :: x) with ((e :: x) ++ []) at 2 by apply app_nil_r.
      rewrite starts_with_app. exact Hi.
    + change (e :: x ++ d :: b) with ((e :: x) ++ d :: b).
      rewrite starts_with_app. exact Hi.
  - cbn [app find_from].
    destruct (starts_with x (c :: a ++ x ++ b)); [exact Hi|].
    apply IH. lia.
Qed.

(** A text occurs in every text built around it. *)
Lemma occurs_in_part (x s a b : pystr) :
  s = a ++ x ++ b -> occurs_in x s = true.
Proof.
  intros ->. unfold occurs_in, find.
  pose proof (find_from_found x a b 0 (Z.le_refl 0)) as H.
  destruct (Z.eqb_spec (find_from x (a ++ x ++ b) 0) (-1)); [lia|reflexivity].
Qed.

Lemma lines_part (l : pystr) (ls : list pystr) :
  In l ls -> exists a b, lines ls = a ++ l ++ b.
Proof.
  induction ls as [|k ls IH]; [intros []|].
  intros [->|Hin].
  - destruct ls as [|k' ls].
    + exists [], []. cbn [lines app]. symmetry. apply app_nil_r.
    + exists [], (nl ++ lines (k' :: ls)). reflexivity.
  - destruct ls as [|k' ls]; [destruct Hin|].
    destruct (IH Hin) as (a & b & E).
    exists (k ++ nl ++ a), b.
    change (lines (k :: k' :: ls)) with (k ++ nl ++ lines (k' :: ls)).
    rewrite E, <- !app_assoc. reflexivity.
Qed.

(** A text occurs in a literal of several lines when it occurs in one
    of them. *)
Lemma occurs_in_line (n : nat) (x l a b : pystr) (ls : list pystr) :
  nth_error ls n = Some l -> l = a ++ x ++ b -> occurs_in x (lines ls) = true.
Proof.
  intros Hn ->. apply nth_error_In in Hn.
  destruct (lines_part _ _ Hn) as (a' & b' & E).
  apply (occurs_in_part x _ (a' ++ a) (b ++ b')).
  rewrite E, <- !app_assoc. reflexivity.
Qed.

Lemma generate_system_prompt_selection (track difficulty dialect : pystr) :
  let text := generate_system_prompt track difficulty dialect in
  occurs_in track text = true /\ occurs_in difficulty text = true /\
  occurs_in dialect text = true /\
  occurs_in (guidance_get difficulty_guidance difficulty) text = true.
Proof.
  unfold generate_system_prompt. repeat split.
  - eapply (occurs_in_line 23 track _
              (py "    " ++ quoted "track" ++ py ": " ++ dq) dq); [reflexivity|].
    rewrite <- !app_assoc. reflexivity.
  - eapply (occurs_in_line 4 difficulty _ (py "Difficulty level: ") []);
      [reflexivity|].
    rewrite app_nil_r. reflexivity.
  - eapply (occurs_in_line 7 dialect _ (py "SQL Dialect: ") []);
      [reflexivity|].
    rewrite app_nil_r. reflexivity.
  - eapply (occurs_in_line 5 _ _ [] []); [reflexivity|].
    rewrite app_nil_r. reflexivity.
Qed.

Lemma generate_system_prompt_fields (track difficulty dialect f : pystr) :
  In f question_fields ->
  occurs_in (dq ++ f ++ dq) (generate_system_prompt track difficulty dialect)
  = true.
Proof.
  unfold generate_system_prompt, question_fields.
  intros [<-|[<-|[<-|[<-|[]]]]].
  - eapply (occurs_in_line 18 _ _ (py "    ")); reflexivity.
  - eapply (occurs_in_line 19 _ _ (py "    ")); reflexivity.
  - eapply (occurs_in_line 20 _ _ (py "    ")); reflexivity.
  - eapply (occurs_in_line 21 _ _ (py "    ")); reflexivity.
Qed.

Lemma generate_user_prompt_selection (P : platform)
    (track difficulty dialect : pystr) :
  let text := generate_user_prompt P track difficulty dialect in
  occurs_in track text = true /\ occurs_in (str_lower P difficulty) text = true /\
  occurs_in dialect text = true.
Proof.
  unfold generate_user_prompt. repeat split.
  - apply (occurs_in_part track _
             (py "Generate a " ++ str_lower P difficulty
              ++ py " level SQL question for ")
             (py " using " ++ dialect ++ py " syntax.")).
    rewrite <- !app_assoc. reflexivity.
  - apply (occurs_in_part _ _ (py "Generate a ")
             (py " level SQL question for " ++ track ++ py " using "
              ++ dialect ++ py " syntax.")).
    reflexivity.
  - apply (occurs_in_part dialect _
             (py "Generate a " ++ str_lower P difficulty
              ++ py " level SQL question for " ++ track ++ py " using ")
             (py " syntax.")).
    rewrite <- !app_assoc. reflexivity.
Qed.

Lemma guidance_for_every_level (difficulty : pystr) :
  In difficulty DIFFICULTY_LEVELS ->
  guidance_get difficulty_guidance difficulty <> [].
Proof.
  unfold DIFFICULTY_LEVELS.
  intros [<-|[<-|[<-|[]]]]; vm_compute; discriminate.
Qed.

(** X12: with the credential present, generation makes one call, and
    its request carries what was selected: the system text holds the
    track, the difficulty and the dialect as they were passed, and the
    guidance of the difficulty, which is not empty for any level the
    selector offers; the template in the system text names, between
    double quotes, every field that validation will require of the reply;
    and the one message, of the user, holds the track, the dialect and
    the difficulty in lower case. *)
Theorem generation_request_carries_the_selection (P : platform)
    (track difficulty dialect : pystr) (w : world) :
  key_missing (api_key P) = false ->
  exists req text,
    model_calls (snd (generate_sql_question P track difficulty dialect w))
    = model_calls w ++ [MessagesCreate (client_of P) req] /\
    messages req = [(py "user", text)] /\
    occurs_in track (system req) = true /\
    occurs_in difficulty (system req) = true /\
    occurs_in dialect (system req) = true /\
    occurs_in (guidance_get difficulty_guidance difficulty) (system req) = true /\
    (In difficulty DIFFICULTY_LEVELS ->
     guidance_get difficulty_guidance difficulty <> []) /\
    (forall f, In f question_fields ->
               occurs_in (dq ++ f ++ dq) (system req) = true) /\
    occurs_in track text = true /\
    occurs_in (str_lower P difficulty) text = true /\
    occurs_in dialect text = true.
Proof.
  intros Hk.
  exists (generate_request P track difficulty dialect),
         (generate_user_prompt P track difficulty dialect).
  pose proof (generate_cases P track difficulty dialect w) as H.
  destruct (generate_sql_question P track difficulty dialect w) as [r w1].
  apply operation_calls in H. rewrite Hk in H. cbn [snd].
  destruct (generate_system_prompt_selection track difficulty dialect)
    as (H1 & H2 & H3 & H4).
  destruct (generate_user_prompt_selection P track difficulty dialect)
    as (H5 & H6 & H7).
  cbn [generate_request system messages].
  repeat (split; [first [exact H|reflexivity|assumption
                        |apply guidance_for_every_level
                        |intro f; apply generate_system_prompt_fields]|]).
  exact H7.
Qed.

(** A Data Engineer question of the advanced level is asked for in
    MySQL. *)
Lemma generation_request_carries_the_selection_witness :
  let P := Cases.answering Examples.sample_question_reply in
  exists req text,
    model_calls (snd (generate_sql_question P (py "Data Engineer-focused SQL")
                        (py "Advanced") (py "MySQL") Examples.asked_world))
    = model_calls Examples.asked_world ++ [MessagesCreate (client_of P) req] /\
    messages req = [(py "user", text)] /\
    occurs_in (py "Data Engineer-focused SQL") (system req) = true /\
    occurs_in (py "Advanced") (system req) = true /\
    occurs_in (py "MySQL") (system req) = true /\
    occurs_in (guidance_get difficulty_guidance (py "Advanced")) (system req)
    = true /\
    (In (py "Advanced") DIFFICULTY_LEVELS ->
     guidance_get difficulty_guidance (py "Advanced") <> []) /\
    (forall f, In f question_fields ->
               occurs_in (dq ++ f ++ dq) (system req) = true) /\
    occurs_in (py "Data Engineer-focused SQL") text = true /\
    occurs_in (str_lower P (py "Advanced")) text = true /\
    occurs_in (py "MySQL") text = true.
Proof.
  intros P.
  apply (generation_request_carries_the_selection P
           (py "Data Engineer-focused SQL") (py "Advanced") (py "MySQL")
           Examples.asked_world).
  vm_compute. reflexivity.
Defined.

Lemma grade_user_prompt_parts (P : platform)
    (question_text schema_description reference_sql : pyval)
    (user_sql : pystr) (difficulty track : pyval) :
  let text := grade_user_prompt P question_text schema_description
                reference_sql user_sql difficulty track in
  occurs_in user_sql text = true /\
  occurs_in (format_value P question_text) text = true /\
  occurs_in (format_value P schema_description) text = true /\
  occurs_in (format_value P reference_sql) text = true /\
  occurs_in (format_value P difficulty) text = true /\
  occurs_in (format_value P track) text = true.
Proof.
  unfold grade_user_prompt. repeat split.
  - eapply (occurs_in_line 12 _ _ [] []); [reflexivity|].
    rewrite app_nil_r. reflexivity.
  - eapply (occurs_in_line 0 _ _ (py "Question: ") []); [reflexivity|].
    rewrite app_nil_r. reflexivity.
  - eapply (occurs_in_line 3 _ _ [] []); [reflexivity|].
    rewrite app_nil_r. reflexivity.
  - eapply (occurs_in_line 7 _ _ [] []); [reflexivity|].
    rewrite app_nil_r. reflexivity.
  - eapply (occurs_in_line 15 _ _ (py "Difficulty: ") []); [reflexivity|].
    rewrite app_nil_r. reflexivity.
  - eapply (occurs_in_line 16 _ _ (py "Track: ") []); [reflexivity|].
    rewrite app_nil_r. reflexivity.
Qed.

Lemma grade_system_prompt_fields (f : pystr) :
  In f grading_fields -> occurs_in (dq ++ f ++ dq) grade_system_prompt = true.
Proof.
  unfold grading_fields.
  intros [<-|[<-|[<-|[]]]]; vm_compute; reflexivity.
Qed.

(** X13: with the credential present, grading makes one call, and its
    request carries the submission: the one message, of the user, holds
    the submitted answer as it was typed, and each of the question's
    text, schema, reference solution, difficulty and track that is a
    string; and the template in the system text names, between double
    quotes, every field that validation will require of the reply. *)
Theorem grading_request_carries_the_answer (P : platform)
    (question_text schema_description reference_sql : pyval)
    (user_sql : pystr) (difficulty track : pyval) (w : world) :
  key_missing (api_key P) = false ->
  exists req text,
    model_calls (snd (grade_sql_answer P question_text schema_description
                        reference_sql user_sql difficulty track w))
    = model_calls w ++ [MessagesCreate (client_of P) req] /\
    messages req = [(py "user", text)] /\
    occurs_in user_sql text = true /\
    (forall s,
       In (PyStr s)
          [question_text; schema_description; reference_sql; difficulty; track] ->
       occurs_in s text = true) /\
    (forall f, In f grading_fields ->
               occurs_in (dq ++ f ++ dq) (system req) = true).
Proof.
  intros Hk.
  exists (grade_request P question_text schema_description reference_sql
            user_sql difficulty track),
         (grade_user_prompt P question_text schema_description reference_sql
            user_sql difficulty track).
  pose proof (grade_cases P question_text schema_description reference_sql
                user_sql difficulty track w) as H.
  destruct (grade_sql_answer P question_text schema_description reference_sql
              user_sql difficulty track w) as [r w1].
  apply operation_calls in H. rewrite Hk in H. cbn [snd].
  destruct (grade_user_prompt_parts P question_text schema_description
              reference_sql user_sql difficulty track)
    as (H1 & H2 & H3 & H4 & H5 & H6).
  cbn [grade_request system messages].
  split; [exact H|]. split; [reflexivity|]. split; [exact H1|].
  split; [|exact grade_system_prompt_fields].
  intros s [E|[E|[E|[E|[E|[]]]]]]; subst; cbn [format_value] in *; assumption.
Qed.

(** The sample answer is graded against the sample question. *)
Lemma grading_request_carries_the_answer_witness :
  let P := Cases.answering Examples.sample_grading_reply in
  let question_text := PyStr (py "Count the orders of each customer.") in
  let schema_description := PyStr (py "orders(id, customer_id, total)") in
  let reference_sql :=
    PyStr (py "SELECT customer_id, COUNT(*) FROM orders GROUP BY customer_id;") in
  let difficulty := PyStr (py "Beginner") in
  let track := PyStr (py "Analytics / BI-focused SQL") in
  exists req text,
    model_calls (snd (grade_sql_answer P question_text schema_description
                        reference_sql Examples.sample_answer difficulty track
                        Examples.asked_world))
    = model_calls Examples.asked_world ++ [MessagesCreate (client_of P) req] /\
    messages req = [(py "user", text)] /\
    occurs_in Examples.sample_answer text = true /\
    (forall s,
       In (PyStr s)
          [question_text; schema_description; reference_sql; difficulty; track] ->
       occurs_in s text = true) /\
    (forall f, In f grading_fields ->
               occurs_in (dq ++ f ++ dq) (system req) = true).
Proof.
  intros P question_text schema_description reference_sql difficulty track.
  apply (grading_request_carries_the_answer P question_text schema_description
           reference_sql Examples.sample_answer difficulty track
           Examples.asked_world).
  vm_compute. reflexivity.
Defined.
